(** * preprocessing.py: dataset split and U-Net preprocessing

  A shallow embedding of [src/preprocessing.py]:
  - [make_gaussian], the square Gaussian kernel;
  - [preprocessing_unet], the per-image transform (resize, colour
    conversion, padding, histogram equalisation, channel stacking);
  - the split-and-enforcement pass of [build_training_set].

  Python [float] is IEEE binary64 and is modelled by Rocq's primitive
  floats, Python [int] by [Z].  Exceptions are modelled by the [Raise]
  constructor of [result].  numpy's and OpenCV's numeric kernels that the
  source only calls (the random generators, [cv.resize] interpolation,
  [cv.cvtColor], [cv.equalizeHist], [np.exp], [np.log]) are section
  variables; what the source relies on (shapes, argument checks, index
  ranges) is written out around them. *)

From Stdlib Require Import ZArith Floats.
From stdpp Require Import base tactics option list strings.

Local Open Scope Z_scope.

(** ** Python exceptions *)

Inductive exn : Type :=
| ValueError
| IndexError
| OverflowError
| ZeroDivisionError
| FileNotFoundError
| CvError.

Inductive result (A : Type) : Type :=
| Ok (a : A)
| Raise (e : exn).
Arguments Ok {A} a.
Arguments Raise {A} e.

Definition rbind {A B} (r : result A) (f : A -> result B) : result B :=
match r with
| Ok a => f a
| Raise e => Raise e
end.

Declare Scope result_scope.
Delimit Scope result_scope with result.
Notation "x <- r ;; k" := (rbind r (fun x => k))
(at level 100, r at next level, right associativity) : result_scope.
Local Open Scope result_scope.

(** ** Python numbers *)

Module Py.

(** [float(z)] for a Python int: the nearest binary64 value, ties to
    even; [OverflowError] when it is out of the binary64 range. *)
Definition float_of_int (z : Z) : result float :=
  let f := SF2Prim (binary_normalize prec emax z 0 false) in
  if PrimFloat.is_infinity f then Raise OverflowError else Ok f.

(** [int(f)] for a Python float: truncation towards zero; [ValueError]
    on nan, [OverflowError] on an infinity. *)
Definition int_of_float (f : float) : result Z :=
  match Prim2SF f with
  | S754_zero _ => Ok 0
  | S754_finite s m e =>
      let a := if 0 <=? e then Z.pos m * 2 ^ e else Z.pos m / 2 ^ (- e) in
      Ok (if s then - a else a)
  | S754_infinity _ => Raise OverflowError
  | S754_nan => Raise ValueError
  end.

(** [a / b] on Python floats. *)
Definition truediv (a b : float) : result float :=
  if PrimFloat.eqb b 0 then Raise ZeroDivisionError else Ok (a / b)%float.

(** [l[:k]] and [l[k:]]: a negative [k] counts from the end, and both
    ends are clipped to the sequence. *)
Definition slice_to {A} (k : Z) (l : list A) : list A :=
  if k <? 0 then take (length l - Z.to_nat (- k))%nat l
  else take (Z.to_nat k) l.

Definition slice_from {A} (k : Z) (l : list A) : list A :=
  if k <? 0 then drop (length l - Z.to_nat (- k))%nat l
  else drop (Z.to_nat k) l.

End Py.

(** ** numpy arrays *)

Module Np.

(** An array is its shape and its indexing function; what [get] holds
    outside the shape is never read. *)
Record ndarray (A : Type) : Type := NdArray {
  shape : list nat;
  get : list nat -> A
}.
Arguments NdArray {A} shape get.
Arguments shape {A} _.
Arguments get {A} _ _.

(** [a[idx]] on a one-dimensional array (a list) with an integer index
    array: a fresh array holding [a[i]] for each [i] of [idx];
    [IndexError] when one is out of bounds. *)
Fixpoint take_indices {A} (a : list A) (idx : list nat) : result (list A) :=
  match idx with
  | [] => Ok []
  | i :: idx' =>
      match a !! i with
      | None => Raise IndexError
      | Some x => xs <- take_indices a idx' ;; Ok (x :: xs)
      end
  end.

(** [a[:, :, c]]: the view of channel [c]; it reads [a] as [a] is when
    the view is read. *)
Definition plane {A} (c : nat) (a : ndarray A) : result (ndarray A) :=
  match shape a with
  | [r; k; ch] =>
      if (c <? ch)%nat
      then Ok (NdArray [r; k] (fun idx => get a (idx ++ [c])))
      else Raise IndexError
  | _ => Raise IndexError
  end.

(** [a[:, :, c] = b], in place: the array [a] holds afterwards. *)
Definition set_plane {A} (c : nat) (a b : ndarray A) : result (ndarray A) :=
  match shape a with
  | [r; k; ch] =>
      if (c <? ch)%nat then
        if bool_decide (shape b = [r; k]) then
          Ok (NdArray [r; k; ch]
                (fun idx =>
                   match idx with
                   | [i; j; c'] => if (c' =? c)%nat then get b [i; j] else get a idx
                   | _ => get a idx
                   end))
        else Raise ValueError
      else Raise IndexError
  | _ => Raise IndexError
  end.

(** [np.expand_dims(a, axis=2)]. *)
Definition expand_dims2 {A} (a : ndarray A) : result (ndarray A) :=
  if (length (shape a) <? 2)%nat then Raise ValueError
  else Ok (NdArray (take 2 (shape a) ++ 1%nat :: drop 2 (shape a))
             (fun idx => get a (take 2 idx ++ drop 3 idx))).

(** The float64 value of a uint8 (or any integer) cell. *)
Definition float64 (z : Z) : float :=
  SF2Prim (binary_normalize prec emax z 0 false).

(** [a / d] for an integer array [a] and a Python int [d]: the float64
    quotient, cell by cell. *)
Definition true_divide (a : ndarray Z) (d : Z) : ndarray float :=
  NdArray (shape a) (fun idx => (float64 (get a idx) / float64 d)%float).

(** [np.concatenate((a, b, c), axis=2)]: three-dimensional arrays that
    agree on the first two axes, else [ValueError]. *)
Definition concatenate2 {A} (a b c : ndarray A) : result (ndarray A) :=
  match shape a, shape b, shape c with
  | [r; k; ca], [r'; k'; cb], [r''; k''; cc] =>
      if bool_decide (r' = r /\ k' = k /\ r'' = r /\ k'' = k) then
        Ok (NdArray [r; k; (ca + cb + cc)%nat]
              (fun idx =>
                 match idx with
                 | [i; j; n] =>
                     if (n <? ca)%nat then get a [i; j; n]
                     else if (n <? ca + cb)%nat then get b [i; j; (n - ca)%nat]
                     else get c [i; j; (n - ca - cb)%nat]
                 | _ => get a idx
                 end))
      else Raise ValueError
  | _, _, _ => Raise ValueError
  end.

End Np.

Import Np (ndarray, NdArray).

(** ** [make_gaussian] *)

Section Gaussian.

(** [np.exp] and [np.log] on float64. *)
Variable np_exp : float -> float.
Variable np_log : float -> float.

(** Lines 32-41 with [center=None]: cell [[i; j]] of the returned array,
    [x] running along axis 1 and [y] along axis 0. *)
Definition make_gaussian_cell (size fwhm : Z) (i j : nat) : float :=
  let x := Np.float64 (Z.of_nat j) in
  let y := Np.float64 (Z.of_nat i) in
  let x0 := Np.float64 (size / 2) in
  let y0 := Np.float64 (size / 2) in
  let dx := (x - x0)%float in
  let dy := (y - y0)%float in
  np_exp (Np.float64 (-4) * np_log (Np.float64 2) * (dx * dx + dy * dy)
          / Np.float64 (fwhm ^ 2))%float.

Definition make_gaussian (size fwhm : Z) : ndarray float :=
  NdArray [Z.to_nat size; Z.to_nat size]
    (fun idx =>
       match idx with
       | [i; j] => make_gaussian_cell size fwhm i j
       | _ => make_gaussian_cell size fwhm 0 0
       end).

End Gaussian.

(** ** OpenCV calls *)

Inductive color_code : Type :=
| COLOR_RGB2HLS
| COLOR_HLS2RGB.

Module Cv.

(** An [int] argument of an OpenCV call is a C [int]. *)
Definition c_int (z : Z) : result Z :=
  if (- 2 ^ 31 <=? z) && (z <? 2 ^ 31) then Ok z else Raise OverflowError.

(** The array an OpenCV call sees and returns: a single channel is a
    two-dimensional array. *)
Definition mat_of {A} (a : ndarray A) : ndarray A :=
  match Np.shape a with
  | [r; k; 1%nat] => NdArray [r; k] (fun idx => Np.get a (idx ++ [0%nat]))
  | _ => a
  end.

Section Kernels.

(** The numeric kernels: the interpolated cell of [cv.resize] for an
    output of [h] rows and [w] columns, the pixel conversion of
    [cv.cvtColor], and the lookup table [cv.equalizeHist] builds from the
    histogram of its input. *)
Variable resize_sample : ndarray Z -> nat -> nat -> list nat -> Z.
Variable cvt_px : color_code -> Z * Z * Z -> Z * Z * Z.
Variable equalize_lut : ndarray Z -> Z -> Z.

(** [cv.resize(src, (w, h))]: an error on an empty source or an empty
    [dsize]. *)
Definition resize (src : ndarray Z) (dsize : Z * Z) : result (ndarray Z) :=
  w <- c_int dsize.1 ;;
  h <- c_int dsize.2 ;;
  let src := mat_of src in
  match Np.shape src with
  | r :: k :: rest =>
      if (0 <? w) && (0 <? h) && (0 <? r)%nat && (0 <? k)%nat
      then Ok (NdArray (Z.to_nat h :: Z.to_nat w :: rest)
                 (resize_sample src (Z.to_nat h) (Z.to_nat w)))
      else Raise CvError
  | _ => Raise CvError
  end.

(** [cv.cvtColor(src, code)] for the two codes used: three or four
    channels in, three out. *)
Definition cvtColor (src : ndarray Z) (code : color_code) : result (ndarray Z) :=
  let src := mat_of src in
  match Np.shape src with
  | [r; k; ch] =>
      if bool_decide (ch = 3%nat \/ ch = 4%nat) then
        Ok (NdArray [r; k; 3%nat]
              (fun idx =>
                 match idx with
                 | [i; j; n] =>
                     let '(a, b, c) :=
                       cvt_px code (Np.get src [i; j; 0%nat],
                                    Np.get src [i; j; 1%nat],
                                    Np.get src [i; j; 2%nat]) in
                     match n with
                     | O => a
                     | S O => b
                     | _ => c
                     end
                 | _ => 0
                 end))
      else Raise CvError
  | _ => Raise CvError
  end.

(** [cv.equalizeHist(src)]: a single 8-bit channel in, the same shape
    out. *)
Definition equalizeHist (src : ndarray Z) : result (ndarray Z) :=
  let src := mat_of src in
  match Np.shape src with
  | [r; k] =>
      Ok (NdArray [r; k] (fun idx => equalize_lut src (Np.get src idx)))
  | _ => Raise CvError
  end.

(** [cv.copyMakeBorder(src, top, bottom, left, right, cv.BORDER_CONSTANT,
    value=value)]: an error on a negative border. *)
Definition copyMakeBorder (src : ndarray Z) (top bottom left right : Z)
    (value : list Z) : result (ndarray Z) :=
  top <- c_int top ;;
  bottom <- c_int bottom ;;
  left <- c_int left ;;
  right <- c_int right ;;
  let src := mat_of src in
  match Np.shape src with
  | r :: k :: rest =>
      if (0 <=? top) && (0 <=? bottom) && (0 <=? left) && (0 <=? right)
         && (length rest <=? 1)%nat
      then
        let t := Z.to_nat top in
        let l := Z.to_nat left in
        Ok (NdArray ((t + r + Z.to_nat bottom)%nat
                       :: (l + k + Z.to_nat right)%nat :: rest)
              (fun idx =>
                 match idx with
                 | i :: j :: ns =>
                     if (t <=? i)%nat && (i <? t + r)%nat
                        && (l <=? j)%nat && (j <? l + k)%nat
                     then Np.get src ((i - t)%nat :: (j - l)%nat :: ns)
                     else nth (hd 0%nat ns) value 0
                 | _ => 0
                 end))
      else Raise CvError
  | _ => Raise CvError
  end.

End Kernels.

End Cv.

(** ** The calls a run makes *)

Inductive event : Type :=
| EvImread (path : string)
| EvResize (dsize : Z * Z)
| EvCvtColor (code : color_code)
| EvCopyMakeBorder (top bottom left right : Z)
| EvEqualizeHist.

(** A computation that calls out: the calls made, in order, and how it
    ended. *)
Definition io (A : Type) : Type := (list event * result A)%type.

Definition io_ret {A} (a : A) : io A := ([], Ok a).

Definition io_bind {A B} (m : io A) (f : A -> io B) : io B :=
  match m with
  | (tr, Ok a) => let '(tr', r) := f a in (tr ++ tr', r)
  | (tr, Raise e) => (tr, Raise e)
  end.

(** A step of the interpreter itself. *)
Definition lift {A} (r : result A) : io A := ([], r).

(** A call of a library function, recorded. *)
Definition call {A} (ev : event) (r : result A) : io A := ([ev], r).

Declare Scope io_scope.
Delimit Scope io_scope with io.
Notation "x <~ m ;; k" := (io_bind m (fun x => k))
  (at level 100, m at next level, right associativity) : io_scope.

(** ** [preprocessing_unet] *)

(** What the local name [original_intensity] is bound to: the view
    [im_hsi[:, :, c]], which shares the cells of [im_hsi], or an array
    of its own. *)
Inductive binding : Type :=
| ViewOfHsi (c : nat)
| Holds (a : ndarray Z).

(** The two locals that can share cells. *)
Record frame : Type := Frame {
  im_hsi : ndarray Z;
  original_intensity : binding
}.

(** Reading [original_intensity] in a frame. *)
Definition read_intensity (fr : frame) : result (ndarray Z) :=
  match original_intensity fr with
  | ViewOfHsi c => Np.plane c (im_hsi fr)
  | Holds a => Ok a
  end.

(** Lines 106-107 and 113-114: [int(float(other) * float(percent))] with
    [percent = largest_dimension / float(larger)]. *)
Definition scaled_size (largest_dimension : Z) (larger other : nat) : result Z :=
  fd <- Py.float_of_int (Z.of_nat larger) ;;
  fl <- Py.float_of_int largest_dimension ;;
  percent <- Py.truediv fl fd ;;
  fo <- Py.float_of_int (Z.of_nat other) ;;
  Py.int_of_float (fo * percent)%float.

(** Lines 125-128: [top], [bottom], [left] and [right] for an image of
    [h] rows and [w] columns. *)
Record borders : Type := Borders {
  pad_top : Z;
  pad_bottom : Z;
  pad_left : Z;
  pad_right : Z
}.

Definition border_sizes (desired_size : Z) (h w : nat) : borders :=
  let delta_w := desired_size - Z.of_nat w in
  let delta_h := desired_size - Z.of_nat h in
  Borders (delta_h / 2) (delta_h - delta_h / 2)
          (delta_w / 2) (delta_w - delta_w / 2).
Arguments border_sizes : simpl never.

(** A call of [cv.copyMakeBorder] with these borders. *)
Definition pad (src : ndarray Z) (b : borders) (value : list Z)
    : io (ndarray Z) :=
  call (EvCopyMakeBorder (pad_top b) (pad_bottom b) (pad_left b) (pad_right b))
    (Cv.copyMakeBorder src (pad_top b) (pad_bottom b) (pad_left b) (pad_right b)
       value).

Section Preprocessing.

Local Open Scope io_scope.

(** [skimage.io.imread]. *)
Variable imread : string -> result (ndarray Z).
Variable resize_sample : ndarray Z -> nat -> nat -> list nat -> Z.
Variable cvt_px : color_code -> Z * Z * Z -> Z * Z * Z.
Variable equalize_lut : ndarray Z -> Z -> Z.
Variable np_exp : float -> float.
Variable np_log : float -> float.

(** Lines 98-100. *)
Definition read_inputs (im_id : string) (mask_bool : bool)
    (img_dir mask_dir img_suffix mask_suffix : string)
    : io (ndarray Z * option (ndarray Z)) :=
  let img_path := img_dir +:+ im_id +:+ img_suffix in
  new_im <~ call (EvImread img_path) (imread img_path) ;;
  if mask_bool then
    let mask_path := mask_dir +:+ im_id +:+ mask_suffix in
    new_mask <~ call (EvImread mask_path) (imread mask_path) ;;
    io_ret (new_im, Some new_mask)
  else io_ret (new_im, None).

(** [cv.resize] of the image, and of the mask when there is one. *)
Definition resize_both (new_im : ndarray Z) (new_mask : option (ndarray Z))
    (dsize : Z * Z) : io (ndarray Z * option (ndarray Z)) :=
  im <~ call (EvResize dsize) (Cv.resize resize_sample new_im dsize) ;;
  match new_mask with
  | Some m =>
      m' <~ call (EvResize dsize) (Cv.resize resize_sample m dsize) ;;
      io_ret (im, Some m')
  | None => io_ret (im, None)
  end.

(** Lines 103-117. *)
Definition resize_inputs (new_im : ndarray Z) (new_mask : option (ndarray Z))
    (largest_dimension : Z) : io (ndarray Z * option (ndarray Z)) :=
  match Np.shape new_im with
  | [rows; columns; _] =>
      if (columns <=? rows)%nat then
        csize <~ lift (scaled_size largest_dimension rows columns) ;;
        resize_both new_im new_mask (csize, largest_dimension)
      else
        rsize <~ lift (scaled_size largest_dimension columns rows) ;;
        resize_both new_im new_mask (largest_dimension, rsize)
  | _ => lift (Raise ValueError)
  end.

(** [new_im.shape[0]] and [new_im.shape[1]]. *)
Definition shape01 (a : ndarray Z) : result (nat * nat) :=
  match Np.shape a with
  | h :: w :: _ => Ok (h, w)
  | _ => Raise IndexError
  end.

(** Lines 120-156, from the resized image and mask on. *)
Definition transform_resized (new_im : ndarray Z) (new_mask : option (ndarray Z))
    (desired_size : Z) : io (ndarray float * option (ndarray Z)) :=
  hsi <~ call (EvCvtColor COLOR_RGB2HLS)
           (Cv.cvtColor cvt_px new_im COLOR_RGB2HLS) ;;
  let fr := Frame hsi (ViewOfHsi 1) in
  hw <~ lift (shape01 new_im) ;;
  let b := border_sizes desired_size hw.1 hw.2 in
  src <~ lift (read_intensity fr) ;;
  padded <~ pad src b [255] ;;
  expanded <~ lift (Np.expand_dims2 padded) ;;
  let fr := Frame (im_hsi fr) (Holds expanded) in
  lightness <~ lift (Np.plane 1 (im_hsi fr)) ;;
  equalized <~ call EvEqualizeHist (Cv.equalizeHist equalize_lut lightness) ;;
  hsi' <~ lift (Np.set_plane 1 (im_hsi fr) equalized) ;;
  let fr := Frame hsi' (original_intensity fr) in
  rgb <~ call (EvCvtColor COLOR_HLS2RGB)
           (Cv.cvtColor cvt_px (im_hsi fr) COLOR_HLS2RGB) ;;
  rgb_padded <~ pad rgb b [255; 255; 255] ;;
  mask <~ match new_mask with
          | Some m => m' <~ pad m b [0] ;; io_ret (Some m')
          | None => io_ret None
          end ;;
  gauss <~ lift (Np.expand_dims2 (make_gaussian np_exp np_log desired_size 125)) ;;
  intensity <~ lift (read_intensity fr) ;;
  im_5ch <~ lift (Np.concatenate2 (Np.true_divide rgb_padded 255)
                    (Np.true_divide intensity 255) gauss) ;;
  io_ret (im_5ch, mask).

(** Lines 98-117: the image and the mask as read and resized. *)
Definition resized_inputs (im_id : string) (mask_bool : bool)
    (img_dir mask_dir img_suffix mask_suffix : string)
    (largest_dimension : Z) : io (ndarray Z * option (ndarray Z)) :=
  inputs <~ read_inputs im_id mask_bool img_dir mask_dir img_suffix mask_suffix ;;
  resize_inputs inputs.1 inputs.2 largest_dimension.

(** Lines 98-156. *)
Definition preprocessing_unet (im_id : string) (mask_bool : bool)
    (img_dir mask_dir img_suffix mask_suffix : string)
    (largest_dimension desired_size : Z)
    : io (ndarray float * option (ndarray Z)) :=
  resized <~ resized_inputs im_id mask_bool img_dir mask_dir img_suffix
               mask_suffix largest_dimension ;;
  transform_resized resized.1 resized.2 desired_size.

End Preprocessing.

(** ** The split of [build_training_set] *)

Record partition : Type := Partition {
  train : list string;
  test : list string
}.

Section DatasetSplit.

(** [np.random.RandomState(seed=seed).permutation(n)]. *)
Variable permutation : Z -> nat -> list nat.

(** The process-wide generator behind [np.random.randint]: [rng] is its
    state, [rng_next] the state after one draw, and the draw for the
    range [0, high)] is [rng_raw g high] reduced into that range. *)
Variable rng : Type.
Variable rng_raw : rng -> nat -> nat.
Variable rng_next : rng -> rng.

(** [np.random.randint(high)]: [ValueError] when [high <= 0]. *)
Definition randint (g : rng) (high : nat) : result (nat * rng) :=
  match high with
  | O => Raise ValueError
  | S _ => Ok ((rng_raw g high) `mod` high, rng_next g)%nat
  end.

(** [int(train_ratio * n)]. *)
Definition train_count (train_ratio : float) (n : nat) : result Z :=
  fn <- Py.float_of_int (Z.of_nat n) ;;
  Py.int_of_float (train_ratio * fn)%float.

(** Lines 238-243: the seeded permutation, cut at [int(train_ratio * n)];
    each side is a fresh array. *)
Definition split_ids (list_ids : list string) (train_ratio : float)
    (seed : Z) : result partition :=
  let n := length list_ids in
  let indices := permutation seed n in
  k <- train_count train_ratio n ;;
  tr <- Np.take_indices list_ids (Py.slice_to k indices) ;;
  te <- Np.take_indices list_ids (Py.slice_from k indices) ;;
  Ok (Partition tr te).

(** Lines 249-252: one turn of [for id_ in specific_ids] at position [k]. *)
Definition enforce_one (k : nat) (id_ : string) (st : partition * rng)
    : result (partition * rng) :=
  match train st.1 !! k with
  | None => Raise IndexError
  | Some t =>
      if String.eqb id_ t then
        d <- randint st.2 (length (test st.1)) ;;
        let rd_idx := d.1 in
        match test st.1 !! rd_idx with
        | None => Raise IndexError
        | Some v =>
            Ok (Partition (<[k := v]> (train st.1)) (<[rd_idx := id_]> (test st.1)),
                d.2)
        end
      else Ok st
  end.

(** Line 248: [for id_ in specific_ids]. *)
Fixpoint enforce_at (k : nat) (specific_ids : list string)
    (st : partition * rng) : result (partition * rng) :=
  match specific_ids with
  | [] => Ok st
  | id_ :: rest => st' <- enforce_one k id_ st ;; enforce_at k rest st'
  end.

(** Line 247: [for k in range(len(partition['train']))]. *)
Fixpoint enforce_range (ks : list nat) (specific_ids : list string)
    (st : partition * rng) : result (partition * rng) :=
  match ks with
  | [] => Ok st
  | k :: ks' =>
      st' <- enforce_at k specific_ids st ;; enforce_range ks' specific_ids st'
  end.

(** Lines 246-252. *)
Definition enforce_specific_ids (specific_ids : list string)
    (st : partition * rng) : result (partition * rng) :=
  match specific_ids with
  | [] => Ok st
  | _ => enforce_range (seq 0 (length (train st.1))) specific_ids st
  end.

(** Lines 235-252 of [build_training_set]: the partition it goes on to
    materialise, and the state the process-wide generator is left in. *)
Definition build_training_set_partition (list_ids : list string)
    (train_ratio : float) (specific_ids : list string) (seed : Z) (g : rng)
    : result (partition * rng) :=
  p <- split_ids list_ids train_ratio seed ;;
  enforce_specific_ids specific_ids (p, g).

End DatasetSplit.

(** ** The ids of [build_training_set] *)

Module Str.

(** [s.replace(old, '')] for a non-empty [old], scanning left to right:
    [skip] characters of a match are still to be dropped. *)
Fixpoint replace_drop (old : string) (skip : nat) (s : string) : string :=
  match s with
  | EmptyString => EmptyString
  | String c s' =>
      match skip with
      | S k => replace_drop old k s'
      | O =>
          if String.prefix old s
          then replace_drop old (String.length old - 1) s'
          else String c (replace_drop old 0 s')
      end
  end.

(** [s.replace(old, '')]: every non-overlapping occurrence of [old] is
    removed; an empty [old] leaves [s] as it is. *)
Definition replace_with_empty (old s : string) : string :=
  match old with
  | EmptyString => s
  | _ => replace_drop old 0 s
  end.

End Str.

(** [l.remove(x)] on a list that holds [x]: the first occurrence goes. *)
Fixpoint list_remove (x : string) (l : list string) : list string :=
  match l with
  | [] => []
  | y :: l' => if String.eqb x y then l' else y :: list_remove x l'
  end.

(** Lines 226-229: [if x in list_ids: list_ids.remove(x)]. *)
Definition remove_if_present (x : string) (l : list string) : list string :=
  if bool_decide (x ∈ l) then list_remove x l else l.

(** Lines 223-233: the ids, from what [os.listdir(img_dir)] returned. *)
Definition ids_of_listing (listing : list string) (img_suffix : string)
    : list string :=
  let list_ids := remove_if_present "LICENSE.txt" listing in
  let list_ids := remove_if_present "ATTRIBUTION.txt" list_ids in
  map (Str.replace_with_empty img_suffix) list_ids.

(** ** Writing the data set *)

(** [cv.flip(src, flipCode)]: rows reversed for 0, columns for a positive
    code, both for a negative one. *)
Definition cv_flip {A} (src : ndarray A) (flipCode : Z) : result (ndarray A) :=
  let src := Cv.mat_of src in
  match Np.shape src with
  | r :: k :: rest =>
      Ok (NdArray (r :: k :: rest)
            (fun idx =>
               match idx with
               | i :: j :: ns =>
                   Np.get src
                     ((if flipCode <=? 0 then (r - 1 - i)%nat else i)
                        :: (if flipCode =? 0 then j else (k - 1 - j)%nat)
                        :: ns)
               | _ => Np.get src idx
               end))
  | _ => Raise CvError
  end.

(** What [imsave] is given. *)
Inductive saved : Type :=
| SavedImage (a : ndarray float)
| SavedMask (a : ndarray Z).

(** What a build does: the calls of a transform, and the files saved. *)
Inductive build_event : Type :=
| Called (e : event)
| Saved (path : string) (what : saved).

Definition build (A : Type) : Type := (list build_event * result A)%type.

Definition build_ret {A} (a : A) : build A := ([], Ok a).

Definition build_bind {A B} (m : build A) (f : A -> build B) : build B :=
  match m with
  | (tr, Ok a) => let '(tr', r) := f a in (tr ++ tr', r)
  | (tr, Raise e) => (tr, Raise e)
  end.

(** A transform run inside a build. *)
Definition run_io {A} (m : io A) : build A := (map Called m.1, m.2).

Definition pure_step {A} (r : result A) : build A := ([], r).

Declare Scope build_scope.
Delimit Scope build_scope with build.
Notation "x <~~ m ;; k" := (build_bind m (fun x => k))
  (at level 100, m at next level, right associativity) : build_scope.

(** The paths of the files a build saved, in order. *)
Fixpoint saved_paths (tr : list build_event) : list string :=
  match tr with
  | [] => []
  | Called _ :: tr' => saved_paths tr'
  | Saved path _ :: tr' => path :: saved_paths tr'
  end.

(** The files a build saved, in order, each with what was saved. *)
Fixpoint saved_files (tr : list build_event) : list (string * saved) :=
  match tr with
  | [] => []
  | Called _ :: tr' => saved_files tr'
  | Saved path what :: tr' => (path, what) :: saved_files tr'
  end.

Section Builder.

Local Open Scope build_scope.

Variable imread : string -> result (ndarray Z).
Variable resize_sample : ndarray Z -> nat -> nat -> list nat -> Z.
Variable cvt_px : color_code -> Z * Z * Z -> Z * Z * Z.
Variable equalize_lut : ndarray Z -> Z -> Z.
Variable np_exp : float -> float.
Variable np_log : float -> float.

(** [skimage.io.imsave]. *)
Variable imsave : string -> saved -> result unit.

Variable output_path img_dir mask_dir img_suffix mask_suffix : string.
Variable largest_dimension desired_size : Z.

Definition save (path : string) (what : saved) : build unit :=
  ([Saved path what], imsave path what).

(** [im, mask = preprocessing_unet(im_path, True, ...)]. *)
Definition transform_pair (im_path : string) : build (ndarray float * ndarray Z) :=
  out <~~ run_io (preprocessing_unet imread resize_sample cvt_px equalize_lut
                    np_exp np_log im_path true img_dir mask_dir img_suffix
                    mask_suffix largest_dimension desired_size) ;;
  match out.2 with
  | Some mask => build_ret (out.1, mask)
  | None => pure_step (Raise ValueError)
  end.

(** Lines 264-271: the eight paths written for a train id. *)
Definition train_paths (id : string) : list string :=
  [ output_path +:+ "train/" +:+ id +:+ ".tiff";
    output_path +:+ "train/" +:+ id +:+ mask_suffix;
    output_path +:+ "train/" +:+ "hflip_" +:+ id +:+ ".tiff";
    output_path +:+ "train/" +:+ "hflip_" +:+ id +:+ mask_suffix;
    output_path +:+ "train/" +:+ "vflip_" +:+ id +:+ ".tiff";
    output_path +:+ "train/" +:+ "vflip_" +:+ id +:+ mask_suffix;
    output_path +:+ "train/" +:+ "rot_" +:+ id +:+ ".tiff";
    output_path +:+ "train/" +:+ "rot_" +:+ id +:+ mask_suffix ].

(** Lines 279-280: the two paths written for a test id. *)
Definition test_paths (id : string) : list string :=
  [ output_path +:+ "test/" +:+ id +:+ ".tiff";
    output_path +:+ "test/" +:+ id +:+ mask_suffix ].

(** Lines 256-271: the body of the train loop. *)
Definition write_train (id : string) : build unit :=
  pair <~~ transform_pair id ;;
  let im := pair.1 in
  let mask := pair.2 in
  hflip_im <~~ pure_step (cv_flip im 0) ;;
  hflip_mask <~~ pure_step (cv_flip mask 0) ;;
  vflip_im <~~ pure_step (cv_flip im 1) ;;
  vflip_mask <~~ pure_step (cv_flip mask 1) ;;
  rot_im <~~ pure_step (cv_flip im (-1)) ;;
  rot_mask <~~ pure_step (cv_flip mask (-1)) ;;
  _ <~~ save (output_path +:+ "train/" +:+ id +:+ ".tiff") (SavedImage im) ;;
  _ <~~ save (output_path +:+ "train/" +:+ id +:+ mask_suffix) (SavedMask mask) ;;
  _ <~~ save (output_path +:+ "train/" +:+ "hflip_" +:+ id +:+ ".tiff")
          (SavedImage hflip_im) ;;
  _ <~~ save (output_path +:+ "train/" +:+ "hflip_" +:+ id +:+ mask_suffix)
          (SavedMask hflip_mask) ;;
  _ <~~ save (output_path +:+ "train/" +:+ "vflip_" +:+ id +:+ ".tiff")
          (SavedImage vflip_im) ;;
  _ <~~ save (output_path +:+ "train/" +:+ "vflip_" +:+ id +:+ mask_suffix)
          (SavedMask vflip_mask) ;;
  _ <~~ save (output_path +:+ "train/" +:+ "rot_" +:+ id +:+ ".tiff")
          (SavedImage rot_im) ;;
  save (output_path +:+ "train/" +:+ "rot_" +:+ id +:+ mask_suffix)
    (SavedMask rot_mask).

(** Lines 275-280: the body of the test loop. *)
Definition write_test (id : string) : build unit :=
  pair <~~ transform_pair id ;;
  _ <~~ save (output_path +:+ "test/" +:+ id +:+ ".tiff") (SavedImage pair.1) ;;
  save (output_path +:+ "test/" +:+ id +:+ mask_suffix) (SavedMask pair.2).

(** A [for] loop over ids. *)
Fixpoint for_each (body : string -> build unit) (ids : list string) : build unit :=
  match ids with
  | [] => build_ret tt
  | id :: ids' => _ <~~ body id ;; for_each body ids'
  end.

(** Lines 254-280: the train set, then the test set. *)
Definition write_partition (p : partition) : build unit :=
  _ <~~ for_each write_train (train p) ;;
  for_each write_test (test p).

End Builder.

(** ** [build_training_set], from the listing on *)

Section BuildTrainingSet.

Local Open Scope build_scope.

Variable permutation : Z -> nat -> list nat.
Variable rng : Type.
Variable rng_raw : rng -> nat -> nat.
Variable rng_next : rng -> rng.

(** [os.listdir]. *)
Variable listdir : string -> result (list string).

Variable imread : string -> result (ndarray Z).
Variable resize_sample : ndarray Z -> nat -> nat -> list nat -> Z.
Variable cvt_px : color_code -> Z * Z * Z -> Z * Z * Z.
Variable equalize_lut : ndarray Z -> Z -> Z.
Variable np_exp : float -> float.
Variable np_log : float -> float.
Variable imsave : string -> saved -> result unit.

(** Lines 223-280, for output folders that exist (lines 215-220 then call
    no [os.mkdir]); [g] is the state of the process-wide generator, and
    the state it is left in is returned. *)
Definition build_training_set (output_path img_dir mask_dir : string)
    (train_ratio : float) (largest_dimension desired_size : Z)
    (img_suffix mask_suffix : string) (specific_ids : list string)
    (seed : Z) (g : rng) : build rng :=
  listing <~~ pure_step (listdir img_dir) ;;
  let list_ids := ids_of_listing listing img_suffix in
  st <~~ pure_step (build_training_set_partition permutation rng rng_raw
                      rng_next list_ids train_ratio specific_ids seed g) ;;
  _ <~~ write_partition imread resize_sample cvt_px equalize_lut np_exp np_log
          imsave output_path img_dir mask_dir img_suffix mask_suffix
          largest_dimension desired_size st.1 ;;
  build_ret st.2.

End BuildTrainingSet.

(** ** Sample collaborators

    Concrete generators, files and kernels, to run the definitions above
    on concrete inputs. *)

Module Sample.

(** A seeded permutation that reverses [range(n)]. *)
Definition permutation (seed : Z) (n : nat) : list nat := rev (seq 0 n).

(** A process-wide generator that replays a list of raw draws. *)
Definition rng : Type := list nat.
Definition rng_raw (g : rng) (high : nat) : nat := hd 0%nat g.
Definition rng_next (g : rng) : rng := tl g.

(** An image of the given shape whose cells depend on their index. *)
Definition ramp (shape : list nat) : ndarray Z :=
  NdArray shape (fun idx => (7 * Z.of_nat (sum_list idx) + 3) `mod` 256).

Definition img_dir : string := "./ISIC2018_Task1-2_Training_Input/".
Definition mask_dir : string := "./ISIC2018_Task1_Training_GroundTruth/".
Definition img_suffix : string := ".jpg".
Definition mask_suffix : string := "_segmentation.png".

(** A store with three images and their masks: 400 x 200, 1000 x 1 and
    19 x 19 (rows x columns). *)
Definition files : list (string * ndarray Z) :=
  [ (img_dir +:+ "ISIC_0000031" +:+ img_suffix, ramp [400; 200; 3]%nat);
    (mask_dir +:+ "ISIC_0000031" +:+ mask_suffix, ramp [400; 200]%nat);
    (img_dir +:+ "ISIC_0000060" +:+ img_suffix, ramp [1000; 1; 3]%nat);
    (mask_dir +:+ "ISIC_0000060" +:+ mask_suffix, ramp [1000; 1]%nat);
    (img_dir +:+ "ISIC_0000073" +:+ img_suffix, ramp [19; 19; 3]%nat);
    (mask_dir +:+ "ISIC_0000073" +:+ mask_suffix, ramp [19; 19]%nat) ].

Fixpoint lookup_file (fs : list (string * ndarray Z)) (path : string)
    : result (ndarray Z) :=
  match fs with
  | [] => Raise FileNotFoundError
  | (p, a) :: fs' => if String.eqb p path then Ok a else lookup_file fs' path
  end.

Definition imread (path : string) : result (ndarray Z) := lookup_file files path.

(** Nearest-neighbour sampling. *)
Definition resize_sample (src : ndarray Z) (h w : nat) (idx : list nat) : Z :=
  match Np.shape src, idx with
  | r :: k :: _, i :: j :: ns =>
      Np.get src ((i * r / h)%nat :: (j * k / w)%nat :: ns)
  | _, _ => 0
  end.

(** A pixel conversion that keeps the middle channel as the lightness
    [(max + min) / 2] and its inverse direction as the identity. *)
Definition cvt_px (code : color_code) (p : Z * Z * Z) : Z * Z * Z :=
  match code with
  | COLOR_RGB2HLS =>
      let '(r, g, b) := p in
      (r, (Z.max r (Z.max g b) + Z.min r (Z.min g b)) / 2, b)
  | COLOR_HLS2RGB => p
  end.

(** A lookup table that inverts the intensities. *)
Definition equalize_lut (src : ndarray Z) (v : Z) : Z := 255 - v.

(** Stand-ins for [np.exp] and [np.log] on the arguments used. *)
Definition np_log (x : float) : float := 0x1.62e42fefa39efp-1%float.
Definition np_exp (x : float) : float := (1 / (1 - x))%float.

(** Four ids as [os.listdir] may give them, two of them to be kept in
    the test set. *)
Definition ids4 : list string :=
  ["ISIC_0000031"; "ISIC_0000060"; "ISIC_0000073"; "ISIC_0000074"].
Definition specific2 : list string := ["ISIC_0000060"; "ISIC_0000074"].

Definition split (list_ids : list string) (train_ratio : float)
    (specific_ids : list string) (seed : Z) (g : rng)
    : result (partition * rng) :=
  build_training_set_partition permutation rng rng_raw rng_next
    list_ids train_ratio specific_ids seed g.

Definition resized (im_id : string) (largest_dimension : Z)
    : io (ndarray Z * option (ndarray Z)) :=
  resized_inputs imread resize_sample im_id true img_dir mask_dir img_suffix
    mask_suffix largest_dimension.

Definition preprocess (im_id : string) (largest_dimension desired_size : Z)
    : io (ndarray float * option (ndarray Z)) :=
  preprocessing_unet imread resize_sample cvt_px equalize_lut np_exp np_log
    im_id true img_dir mask_dir img_suffix mask_suffix
    largest_dimension desired_size.

(** What a run returned; an empty array when it raised. *)
Definition output (r : io (ndarray float * option (ndarray Z)))
    : ndarray float * option (ndarray Z) :=
  match r.2 with
  | Ok o => o
  | Raise _ => (NdArray [] (fun _ => 0%float), None)
  end.

(** A second store: a grey-level image (two axes) with its mask, and a
    colour image whose mask file is missing. *)
Definition files2 : list (string * ndarray Z) :=
  [ (img_dir +:+ "ISIC_0000121" +:+ img_suffix, ramp [30; 40]%nat);
    (mask_dir +:+ "ISIC_0000121" +:+ mask_suffix, ramp [30; 40]%nat);
    (img_dir +:+ "ISIC_0000166" +:+ img_suffix, ramp [30; 40; 3]%nat) ].

Definition imread2 (path : string) : result (ndarray Z) := lookup_file files2 path.

Definition preprocess2 (im_id : string) (mask_bool : bool)
    (largest_dimension desired_size : Z)
    : io (ndarray float * option (ndarray Z)) :=
  preprocessing_unet imread2 resize_sample cvt_px equalize_lut np_exp np_log
    im_id mask_bool img_dir mask_dir img_suffix mask_suffix
    largest_dimension desired_size.

(** The first store, with or without the mask. *)
Definition preprocess_with (lut : ndarray Z -> Z -> Z) (im_id : string)
    (mask_bool : bool) (largest_dimension desired_size : Z)
    : io (ndarray float * option (ndarray Z)) :=
  preprocessing_unet imread resize_sample cvt_px lut np_exp np_log
    im_id mask_bool img_dir mask_dir img_suffix mask_suffix
    largest_dimension desired_size.

(** The mask a run returned; an empty array when there is none. *)
Definition output_mask (r : io (ndarray float * option (ndarray Z)))
    : ndarray Z :=
  match (output r).2 with
  | Some m => m
  | None => NdArray [] (fun _ => 0)
  end.

(** A pixel conversion that saturates to 8 bits, as a uint8 output does. *)
Definition clamp8 (z : Z) : Z := Z.max 0 (Z.min 255 z).

Definition cvt_px8 (code : color_code) (p : Z * Z * Z) : Z * Z * Z :=
  let '(a, b, c) := cvt_px code p in (clamp8 a, clamp8 b, clamp8 c).

Definition preprocess8 (im_id : string) (largest_dimension desired_size : Z)
    : io (ndarray float * option (ndarray Z)) :=
  preprocessing_unet imread resize_sample cvt_px8 equalize_lut np_exp np_log
    im_id true img_dir mask_dir img_suffix mask_suffix
    largest_dimension desired_size.

(** A lookup table that changes nothing. *)
Definition keep_lut (src : ndarray Z) (v : Z) : Z := v.

(** An [imsave] that always succeeds. *)
Definition imsave (path : string) (what : saved) : result unit := Ok tt.

Definition output_path : string := "./ISIC2018_data/".

Definition write (imread' : string -> result (ndarray Z)) (p : partition)
    : build unit :=
  write_partition imread' resize_sample cvt_px equalize_lut np_exp np_log
    imsave output_path img_dir mask_dir img_suffix mask_suffix 250 320 p.

(** One turn of the train loop on the first store. *)
Definition write_one (id : string) : build unit :=
  write_train imread resize_sample cvt_px equalize_lut np_exp np_log imsave
    output_path img_dir mask_dir img_suffix mask_suffix 250 320 id.

(** An image folder with the two images that can be processed and the
    two text files of the archive. *)
Definition listdir (dir : string) : result (list string) :=
  if String.eqb dir img_dir
  then Ok ["ISIC_0000031.jpg"; "LICENSE.txt"; "ISIC_0000073.jpg"; "ATTRIBUTION.txt"]
  else Raise FileNotFoundError.


Definition build (listdir' : string -> result (list string))
    (train_ratio : float) (specific_ids : list string) (g : rng) : build rng :=
  build_training_set permutation rng rng_raw rng_next listdir' imread
    resize_sample cvt_px equalize_lut np_exp np_log imsave
    output_path img_dir mask_dir train_ratio 250 320 img_suffix mask_suffix
    specific_ids 42 g.

End Sample.


(** ** Specification vocabulary *)

(** Two partitions hold the same ids, side sizes unchanged. *)
Definition same_ids (p p' : partition) : Prop :=
  train p' ++ test p' ≡ₚ train p ++ test p
  /\ length (train p') = length (train p)
  /\ length (test p') = length (test p).

(** What a computation returned, when it did. *)
Definition returned {A} (m : io A) : option A :=
  match m.2 with
  | Ok a => Some a
  | Raise _ => None
  end.

(** The scaled dimension as the specification words it: the exact
    quotient [other * largest_dimension / larger], truncated. *)
Definition spec_scaled_size (largest_dimension : Z) (larger other : nat) : Z :=
  Z.quot (Z.of_nat other * largest_dimension) (Z.of_nat larger).

(** Whether cell [(i, j)] of a padded array lies on the image, [top] rows
    and [left] columns in. *)
Definition on_image (top left : Z) (h w i j : nat) : bool :=
  (Z.to_nat top <=? i)%nat && (i <? Z.to_nat top + h)%nat
  && (Z.to_nat left <=? j)%nat && (j <? Z.to_nat left + w)%nat.

(** The [dsize = (width, height)] that lines 105-117 pass to [cv.resize]
    for an image of [rows] by [columns], [s] being the scaled dimension. *)
Definition resize_dsize (largest_dimension : Z) (rows columns : nat) (s : Z)
    : Z * Z :=
  if (columns <=? rows)%nat then (s, largest_dimension) else (largest_dimension, s).

(** The five channels of the returned array, cell by cell: [rgb] is the
    image converted back from the equalised HLS image, [hsi] the HLS image
    before equalisation, both [h] by [w]. *)
Definition channels_in_order (np_exp np_log : float -> float)
    (desired_size : Z) (h w : nat) (rgb hsi : ndarray Z)
    (im_5ch : ndarray float) : Prop :=
  let b := border_sizes desired_size h w in
  forall i j,
    let inside := on_image (pad_top b) (pad_left b) h w i j in
    let i' := (i - Z.to_nat (pad_top b))%nat in
    let j' := (j - Z.to_nat (pad_left b))%nat in
    (forall n, (n < 3)%nat ->
       Np.get im_5ch [i; j; n]
       = (Np.float64 (if inside then Np.get rgb [i'; j'; n] else 255)
          / Np.float64 255)%float)
    /\ Np.get im_5ch [i; j; 3%nat]
       = (Np.float64 (if inside then Np.get hsi [i'; j'; 1%nat] else 255)
          / Np.float64 255)%float
    /\ Np.get im_5ch [i; j; 4%nat]
       = make_gaussian_cell np_exp np_log desired_size 125 i j.

(** How many ids of [l] are to be kept in the test set. *)
Definition count_specific (specific_ids l : list string) : nat :=
  length (filter (fun x => x ∈ specific_ids) l).

(** A pixel conversion whose three outputs are 8-bit values. *)
Definition yields_uint8 (cvt_px : color_code -> Z * Z * Z -> Z * Z * Z) : Prop :=
  forall code p,
    0 <= (cvt_px code p).1.1 <= 255
    /\ 0 <= (cvt_px code p).1.2 <= 255
    /\ 0 <= (cvt_px code p).2 <= 255.

(** [0.0 <= x <= 1.0] on binary64. *)
Definition in_unit_interval (x : float) : bool :=
  PrimFloat.leb 0 x && PrimFloat.leb x 1.


(** The names of a listing that [build_training_set] takes for images. *)
Definition image_names (listing : list string) : list string :=
  filter (fun name => name <> "LICENSE.txt" /\ name <> "ATTRIBUTION.txt") listing.

(** * Properties *)

(** ** The error monad, slices and index arrays *)

Lemma rbind_Ok {A B} (r : result A) (f : A -> result B) (b : B) :
  rbind r f = Ok b -> exists a, r = Ok a /\ f a = Ok b.
Proof. destruct r as [a|e]; simpl; [eauto | discriminate]. Qed.

Lemma slice_to_from {A} (k : Z) (l : list A) :
  Py.slice_to k l ++ Py.slice_from k l = l.
Proof. unfold Py.slice_to, Py.slice_from. destruct (k <? 0); apply take_drop. Qed.

Lemma take_indices_Forall2 {A} (a : list A) (idx : list nat) (l : list A) :
  Np.take_indices a idx = Ok l ->
  Forall2 (fun i x => a !! i = Some x) idx l.
Proof.
  revert l. induction idx as [|i idx IH]; simpl; intros l H.
  - injection H as <-. constructor.
  - destruct (a !! i) as [x|] eqn:Hi; [|discriminate].
    apply rbind_Ok in H as (xs & Hxs & H). injection H as <-.
    constructor; auto.
Qed.

Lemma take_indices_total {A} (a : list A) (idx : list nat) :
  Forall (fun i => (i < length a)%nat) idx ->
  exists l, Np.take_indices a idx = Ok l.
Proof.
  induction 1 as [|i idx Hi _ [l IH]]; simpl; [eauto|].
  destruct (lookup_lt_is_Some_2 a i Hi) as [x ->].
  rewrite IH. simpl. eauto.
Qed.

Lemma lookups_of_range (ids : list string) (idx : list nat) (l : list string) :
  Forall2 (fun i x => ids !! i = Some x) idx l ->
  idx ≡ₚ seq 0 (length ids) ->
  l ≡ₚ ids.
Proof.
  intros HF HP.
  assert (l = (fun i => default EmptyString (ids !! i)) <$> idx) as ->.
  { clear HP. induction HF as [|i x idx l Hi _ IH]; simpl; [done|].
    rewrite Hi. simpl. by f_equal. }
  rewrite HP.
  assert ((fun i => default EmptyString (ids !! i)) <$> seq 0 (length ids) = ids)
    as ->; [|done].
  apply list_eq; intros i. rewrite list_lookup_fmap.
  destruct (decide (i < length ids)%nat) as [Hlt|Hge].
  - rewrite lookup_seq_lt by done. simpl.
    destruct (lookup_lt_is_Some_2 ids i Hlt) as [x ->]. done.
  - rewrite lookup_seq_ge by lia. simpl.
    symmetry. apply lookup_ge_None_2. lia.
Qed.

Lemma swap_Permutation {A} (l1 l2 : list A) (k r : nat) (t v : A) :
  l1 !! k = Some t -> l2 !! r = Some v ->
  <[k := v]> l1 ++ <[r := t]> l2 ≡ₚ l1 ++ l2.
Proof.
  intros H1 H2.
  rewrite (insert_take_drop l1 k v) by eauto using lookup_lt_Some.
  rewrite (insert_take_drop l2 r t) by eauto using lookup_lt_Some.
  transitivity ((take k l1 ++ t :: drop (S k) l1) ++ (take r l2 ++ v :: drop (S r) l2)).
  - rewrite <- !Permutation_middle. simpl. apply Permutation_swap.
  - by rewrite !take_drop_middle.
Qed.

(** ** The enforcement pass keeps the ids and the sizes *)

Section SplitFacts.

Variable permutation : Z -> nat -> list nat.
Variable rng : Type.
Variable rng_raw : rng -> nat -> nat.
Variable rng_next : rng -> rng.

(** [RandomState.permutation(n)] returns a permutation of [range(n)]. *)
Hypothesis permutation_range :
  forall seed n, permutation seed n ≡ₚ seq 0 n.

Lemma same_ids_refl (p : partition) : same_ids p p.
Proof. by unfold same_ids. Qed.

Lemma same_ids_trans (p1 p2 p3 : partition) :
  same_ids p1 p2 -> same_ids p2 p3 -> same_ids p1 p3.
Proof.
  unfold same_ids. intros (Ha & Hb & Hc) (Ha' & Hb' & Hc').
  split; [by rewrite Ha'|]. split; congruence.
Qed.

Lemma randint_lt (g : rng) (high i : nat) (g' : rng) :
  randint rng rng_raw rng_next g high = Ok (i, g') -> (i < high)%nat.
Proof.
  unfold randint. destruct high as [|n]; [discriminate|].
  intros H.
  assert (i = (rng_raw g (S n) `mod` S n)%nat) as -> by congruence.
  apply Nat.mod_upper_bound. lia.
Qed.

Lemma enforce_one_same_ids (k : nat) (id_ : string) (st st' : partition * rng) :
  enforce_one rng rng_raw rng_next k id_ st = Ok st' -> same_ids st.1 st'.1.
Proof.
  unfold enforce_one. intros H.
  destruct (train st.1 !! k) as [t|] eqn:Hk; [|discriminate].
  destruct (String.eqb id_ t) eqn:Heq.
  - apply String.eqb_eq in Heq as ->.
    apply rbind_Ok in H as (d & _ & H).
    destruct (test st.1 !! d.1) as [v|] eqn:Hr; [|discriminate].
    injection H as <-. simpl. unfold same_ids. simpl.
    rewrite !length_insert. split; [|done].
    by apply swap_Permutation.
  - injection H as <-. apply same_ids_refl.
Qed.

Lemma enforce_at_same_ids (k : nat) (specific_ids : list string)
    (st st' : partition * rng) :
  enforce_at rng rng_raw rng_next k specific_ids st = Ok st' ->
  same_ids st.1 st'.1.
Proof.
  revert st. induction specific_ids as [|id_ rest IH]; simpl; intros st H.
  - injection H as <-. apply same_ids_refl.
  - apply rbind_Ok in H as (st1 & H1 & H).
    eapply same_ids_trans; [by eapply enforce_one_same_ids | by apply IH].
Qed.

Lemma enforce_range_same_ids (ks : list nat) (specific_ids : list string)
    (st st' : partition * rng) :
  enforce_range rng rng_raw rng_next ks specific_ids st = Ok st' ->
  same_ids st.1 st'.1.
Proof.
  revert st. induction ks as [|k ks IH]; simpl; intros st H.
  - injection H as <-. apply same_ids_refl.
  - apply rbind_Ok in H as (st1 & H1 & H).
    eapply same_ids_trans; [by eapply enforce_at_same_ids | by apply IH].
Qed.

Lemma enforce_specific_ids_same_ids (specific_ids : list string)
    (st st' : partition * rng) :
  enforce_specific_ids rng rng_raw rng_next specific_ids st = Ok st' ->
  same_ids st.1 st'.1.
Proof.
  unfold enforce_specific_ids. destruct specific_ids as [|id_ rest].
  - intros H. injection H as <-. apply same_ids_refl.
  - apply enforce_range_same_ids.
Qed.

Lemma split_ids_Permutation (list_ids : list string) (train_ratio : float)
    (seed : Z) (p : partition) :
  split_ids permutation list_ids train_ratio seed = Ok p ->
  train p ++ test p ≡ₚ list_ids.
Proof.
  unfold split_ids. intros H.
  apply rbind_Ok in H as (k & _ & H).
  apply rbind_Ok in H as (tr & Htr & H).
  apply rbind_Ok in H as (te & Hte & H).
  injection H as <-. simpl.
  apply take_indices_Forall2 in Htr, Hte.
  apply (lookups_of_range _ (permutation seed (length list_ids))).
  - rewrite <- (slice_to_from k (permutation seed (length list_ids))).
    by apply Forall2_app.
  - apply permutation_range.
Qed.

(** The split returns for every finite cut. *)
Lemma split_ids_total (list_ids : list string) (train_ratio : float)
    (seed : Z) (k : Z) :
  train_count train_ratio (length list_ids) = Ok k ->
  exists p, split_ids permutation list_ids train_ratio seed = Ok p.
Proof.
  intros Hk. unfold split_ids. rewrite Hk. simpl.
  assert (Forall (fun i => (i < length list_ids)%nat)
            (permutation seed (length list_ids))) as Hall.
  { rewrite permutation_range. apply Forall_forall.
    intros i Hi%elem_of_seq. lia. }
  rewrite <- (slice_to_from k) in Hall. apply Forall_app in Hall as [Hto Hfrom].
  destruct (take_indices_total list_ids _ Hto) as [tr ->].
  destruct (take_indices_total list_ids _ Hfrom) as [te ->].
  simpl. eauto.
Qed.

(** With a non-empty test side every swap finds its target. *)
Lemma enforce_one_total (k : nat) (id_ : string) (st : partition * rng) :
  (k < length (train st.1))%nat -> test st.1 <> [] ->
  exists st', enforce_one rng rng_raw rng_next k id_ st = Ok st'.
Proof.
  intros Hk Hne. unfold enforce_one.
  destruct (lookup_lt_is_Some_2 _ _ Hk) as [t ->].
  destruct (String.eqb id_ t); [|eauto].
  destruct (randint rng rng_raw rng_next st.2 (length (test st.1)))
    as [[i g']|e] eqn:Hd.
  - simpl. apply randint_lt in Hd.
    destruct (lookup_lt_is_Some_2 _ _ Hd) as [v ->]. eauto.
  - destruct (test st.1); [done|]. discriminate.
Qed.

Lemma same_ids_nonempty (p p' : partition) :
  same_ids p p' -> test p <> [] -> test p' <> [].
Proof.
  intros (_ & _ & Hlen) Hne Hnil. rewrite Hnil in Hlen.
  destruct (test p); [done|]. discriminate.
Qed.

Lemma enforce_at_total (k : nat) (specific_ids : list string)
    (st : partition * rng) :
  (k < length (train st.1))%nat -> test st.1 <> [] ->
  exists st', enforce_at rng rng_raw rng_next k specific_ids st = Ok st'.
Proof.
  revert st. induction specific_ids as [|id_ rest IH]; simpl; intros st Hk Hne.
  - eauto.
  - destruct (enforce_one_total k id_ st Hk Hne) as [st1 H1]. rewrite H1. simpl.
    pose proof (enforce_one_same_ids _ _ _ _ H1) as Hsame.
    apply IH.
    + destruct Hsame as (_ & -> & _). done.
    + by eapply same_ids_nonempty.
Qed.

Lemma enforce_range_total (ks : list nat) (specific_ids : list string)
    (st : partition * rng) :
  Forall (fun k => (k < length (train st.1))%nat) ks -> test st.1 <> [] ->
  exists st', enforce_range rng rng_raw rng_next ks specific_ids st = Ok st'.
Proof.
  revert st. induction ks as [|k ks IH]; simpl; intros st Hks Hne.
  - eauto.
  - apply Forall_cons in Hks as [Hk Hks].
    destruct (enforce_at_total k specific_ids st Hk Hne) as [st1 H1].
    rewrite H1. simpl.
    pose proof (enforce_at_same_ids _ _ _ _ H1) as Hsame.
    apply IH.
    + destruct Hsame as (_ & -> & _). done.
    + by eapply same_ids_nonempty.
Qed.

(** X2: the pass returns a partition whenever the split leaves the test
    side non-empty. *)
Lemma build_training_set_partition_total (list_ids : list string)
    (train_ratio : float) (specific_ids : list string) (seed : Z) (g : rng)
    (p0 : partition) :
  split_ids permutation list_ids train_ratio seed = Ok p0 ->
  test p0 <> [] ->
  exists st, build_training_set_partition permutation rng rng_raw rng_next
               list_ids train_ratio specific_ids seed g = Ok st.
Proof.
  intros Hsplit Hne. unfold build_training_set_partition. rewrite Hsplit. simpl.
  unfold enforce_specific_ids. destruct specific_ids as [|id_ rest]; [eauto|].
  apply enforce_range_total; [|done]. simpl.
  apply Forall_forall. intros k Hk%elem_of_seq. lia.
Qed.

End SplitFacts.

(** ** An empty test side *)

Section EmptyTest.

Variable rng : Type.
Variable rng_raw : rng -> nat -> nat.
Variable rng_next : rng -> rng.

Lemma enforce_at_no_match (k : nat) (specific_ids : list string)
    (st : partition * rng) (t : string) :
  train st.1 !! k = Some t -> t ∉ specific_ids ->
  enforce_at rng rng_raw rng_next k specific_ids st = Ok st.
Proof.
  intros Hk. induction specific_ids as [|id_ rest IH]; simpl; intros Hnot; [done|].
  apply not_elem_of_cons in Hnot as [Hne Hrest].
  unfold enforce_one. rewrite Hk.
  destruct (String.eqb id_ t) eqn:Heq.
  - apply String.eqb_eq in Heq. congruence.
  - simpl. by apply IH.
Qed.

Lemma enforce_at_empty_test (k : nat) (specific_ids : list string)
    (st : partition * rng) (t : string) :
  train st.1 !! k = Some t -> test st.1 = [] -> t ∈ specific_ids ->
  enforce_at rng rng_raw rng_next k specific_ids st = Raise ValueError.
Proof.
  intros Hk Hnil. induction specific_ids as [|id_ rest IH]; simpl; intros Hin.
  - by apply elem_of_nil in Hin.
  - unfold enforce_one. rewrite Hk.
    destruct (String.eqb id_ t) eqn:Heq.
    + rewrite Hnil. reflexivity.
    + simpl. apply IH. apply elem_of_cons in Hin as [->|Hin]; [|done].
      rewrite String.eqb_refl in Heq. discriminate.
Qed.

Lemma enforce_range_empty_test (ks : list nat) (specific_ids : list string)
    (st : partition * rng) :
  test st.1 = [] ->
  Forall (fun k => (k < length (train st.1))%nat) ks ->
  (exists k t, k ∈ ks /\ train st.1 !! k = Some t /\ t ∈ specific_ids) ->
  enforce_range rng rng_raw rng_next ks specific_ids st = Raise ValueError.
Proof.
  intros Hnil. induction ks as [|k ks IH]; simpl; intros Hks (k' & t' & Hin & Hk' & Ht').
  - by apply elem_of_nil in Hin.
  - apply Forall_cons in Hks as [Hk Hks].
    destruct (lookup_lt_is_Some_2 _ _ Hk) as [t Ht].
    destruct (decide (t ∈ specific_ids)) as [Hyes|Hno].
    + by rewrite (enforce_at_empty_test k specific_ids st t).
    + rewrite (enforce_at_no_match k specific_ids st t) by done. simpl.
      apply IH; [done|]. exists k', t'. split; [|done].
      apply elem_of_cons in Hin as [->|Hin]; [|done]. congruence.
Qed.

End EmptyTest.

(** ** The claims on the split *)

(** C8: for distinct input ids, a partition that the split and the
    enforcement pass produce holds every input id exactly once: the two
    sides together have as many ids as the input, no id is on both sides,
    and each side is as long as the seeded split left it. *)
Theorem split_sizes_and_disjointness
    (permutation : Z -> nat -> list nat)
    (rng : Type) (rng_raw : rng -> nat -> nat) (rng_next : rng -> rng)
    (list_ids : list string) (train_ratio : float)
    (specific_ids : list string) (seed : Z) (g g' : rng) (p : partition) :
  (forall seed n, permutation seed n ≡ₚ seq 0 n) ->
  NoDup list_ids ->
  build_training_set_partition permutation rng rng_raw rng_next
    list_ids train_ratio specific_ids seed g = Ok (p, g') ->
  (length (train p) + length (test p))%nat = length list_ids
  /\ (forall id, id ∈ train p -> id ∉ test p)
  /\ train p ++ test p ≡ₚ list_ids
  /\ exists p0,
       split_ids permutation list_ids train_ratio seed = Ok p0
       /\ length (train p) = length (train p0)
       /\ length (test p) = length (test p0).
Proof.
  intros Hperm Hnodup Hbuild. unfold build_training_set_partition in Hbuild.
  apply rbind_Ok in Hbuild as (p0 & Hsplit & Henf).
  apply enforce_specific_ids_same_ids in Henf as (Hids & Htr & Hte).
  simpl in Hids, Htr, Hte.
  pose proof (split_ids_Permutation permutation Hperm _ _ _ _ Hsplit) as Hp0.
  assert (train p ++ test p ≡ₚ list_ids) as Hall by (by rewrite Hids).
  split; [|split; [|split]].
  - rewrite <- length_app. by rewrite Hall.
  - assert (NoDup (train p ++ test p)) as Hnd by (by rewrite Hall).
    apply NoDup_app in Hnd as (_ & Hdisj & _). exact Hdisj.
  - exact Hall.
  - exists p0. done.
Qed.

(** C10: when the seeded split leaves the test side empty and an id of
    specific_ids is on the train side, the enforcement pass raises
    ValueError (the random index is drawn from an empty range) and no
    partition is produced. *)
Theorem empty_test_enforcement_raises
    (permutation : Z -> nat -> list nat)
    (rng : Type) (rng_raw : rng -> nat -> nat) (rng_next : rng -> rng)
    (list_ids : list string) (train_ratio : float)
    (specific_ids : list string) (seed : Z) (g : rng)
    (p0 : partition) (id : string) :
  split_ids permutation list_ids train_ratio seed = Ok p0 ->
  test p0 = [] ->
  id ∈ specific_ids ->
  id ∈ train p0 ->
  build_training_set_partition permutation rng rng_raw rng_next
    list_ids train_ratio specific_ids seed g = Raise ValueError.
Proof.
  intros Hsplit Hnil Hspec Htrain.
  unfold build_training_set_partition. rewrite Hsplit. simpl.
  unfold enforce_specific_ids.
  destruct specific_ids as [|id0 rest] eqn:Hs; [by apply elem_of_nil in Hspec|].
  rewrite <- Hs in *. simpl.
  apply list_elem_of_lookup_1 in Htrain as [k Hk].
  apply enforce_range_empty_test; simpl; [done| |].
  - apply Forall_forall. intros i Hi%elem_of_seq. lia.
  - exists k, id. split; [|done].
    apply elem_of_seq. apply lookup_lt_Some in Hk. lia.
Qed.

Lemma sample_permutation_range (seed : Z) (n : nat) :
  Sample.permutation seed n ≡ₚ seq 0 n.
Proof. unfold Sample.permutation. symmetry. apply Permutation_rev. Qed.

Lemma split_sizes_and_disjointness_witness :
  (length ["ISIC_0000031"; "ISIC_0000073"] + length ["ISIC_0000060"; "ISIC_0000074"])%nat
    = length Sample.ids4
  /\ (forall id, id ∈ ["ISIC_0000031"; "ISIC_0000073"] ->
                 id ∉ ["ISIC_0000060"; "ISIC_0000074"])
  /\ ["ISIC_0000031"; "ISIC_0000073"] ++ ["ISIC_0000060"; "ISIC_0000074"]
       ≡ₚ Sample.ids4
  /\ exists p0,
       split_ids Sample.permutation Sample.ids4 0.5 42 = Ok p0
       /\ length ["ISIC_0000031"; "ISIC_0000073"] = length (train p0)
       /\ length ["ISIC_0000060"; "ISIC_0000074"] = length (test p0).
Proof.
  apply (split_sizes_and_disjointness Sample.permutation Sample.rng
           Sample.rng_raw Sample.rng_next Sample.ids4 0.5 Sample.specific2 42
           [1%nat] []
           (Partition ["ISIC_0000031"; "ISIC_0000073"]
                      ["ISIC_0000060"; "ISIC_0000074"])).
  - exact sample_permutation_range.
  - apply (bool_decide_unpack _). vm_compute. exact I.
  - vm_compute. reflexivity.
Defined.

Lemma empty_test_enforcement_raises_witness :
  Sample.split Sample.ids4 1 Sample.specific2 42 [0%nat] = Raise ValueError.
Proof.
  apply (empty_test_enforcement_raises Sample.permutation Sample.rng
           Sample.rng_raw Sample.rng_next Sample.ids4 1 Sample.specific2 42
           [0%nat]
           (Partition ["ISIC_0000074"; "ISIC_0000073"; "ISIC_0000060"; "ISIC_0000031"] [])
           "ISIC_0000060").
  - vm_compute. reflexivity.
  - reflexivity.
  - apply (bool_decide_unpack _). vm_compute. exact I.
  - apply (bool_decide_unpack _). vm_compute. exact I.
Defined.

(** C1: on four ids split in halves, with two of them in specific_ids,
    the seeded split puts ISIC_0000060 on the test side; the pass then
    meets ISIC_0000074 on the train side and, the random index falling on
    the slot of ISIC_0000060, swaps the two.  ISIC_0000060 is in
    specific_ids and in the id set, and ends on the train side. *)
Theorem specific_id_swapped_out_of_test :
  split_ids Sample.permutation Sample.ids4 0.5 42
    = Ok (Partition ["ISIC_0000074"; "ISIC_0000073"]
                    ["ISIC_0000060"; "ISIC_0000031"])
  /\ Sample.split Sample.ids4 0.5 Sample.specific2 42 [0%nat]
       = Ok (Partition ["ISIC_0000060"; "ISIC_0000073"]
                       ["ISIC_0000074"; "ISIC_0000031"], [])
  /\ "ISIC_0000060" ∈ Sample.specific2
  /\ "ISIC_0000060" ∈ Sample.ids4
  /\ "ISIC_0000060" ∉ ["ISIC_0000074"; "ISIC_0000031"].
Proof.
  split; [vm_compute; reflexivity|].
  split; [vm_compute; reflexivity|].
  repeat split; apply (bool_decide_unpack _); vm_compute; exact I.
Qed.

(** C2: the same ids, seed, train ratio and specific_ids give two
    different partitions under two states of the process-wide generator
    that np.random.randint draws from. *)
Theorem partition_varies_with_global_generator :
  Sample.split Sample.ids4 0.5 Sample.specific2 42 [0%nat]
    = Ok (Partition ["ISIC_0000060"; "ISIC_0000073"]
                    ["ISIC_0000074"; "ISIC_0000031"], [])
  /\ Sample.split Sample.ids4 0.5 Sample.specific2 42 [1%nat]
       = Ok (Partition ["ISIC_0000031"; "ISIC_0000073"]
                       ["ISIC_0000060"; "ISIC_0000074"], [])
  /\ Partition ["ISIC_0000060"; "ISIC_0000073"] ["ISIC_0000074"; "ISIC_0000031"]
       <> Partition ["ISIC_0000031"; "ISIC_0000073"] ["ISIC_0000060"; "ISIC_0000074"].
Proof.
  split; [vm_compute; reflexivity|].
  split; [vm_compute; reflexivity|].
  discriminate.
Qed.

(** ** Computations that call out *)

Lemma io_bind_Ok {A B} (m : io A) (f : A -> io B) (tr : list event) (b : B) :
  io_bind m f = (tr, Ok b) ->
  exists tr1 a tr2, m = (tr1, Ok a) /\ f a = (tr2, Ok b) /\ tr = tr1 ++ tr2.
Proof.
  destruct m as [tr1 [a|e]]; simpl; [|discriminate].
  destruct (f a) as [tr2 r] eqn:Hf. intros H. injection H as <- ->.
  by exists tr1, a, tr2.
Qed.

Lemma call_Ok {A} (ev : event) (r : result A) (tr : list event) (a : A) :
  call ev r = (tr, Ok a) -> r = Ok a /\ tr = [ev].
Proof. unfold call. intros H. by injection H as <- ->. Qed.

Lemma lift_Ok {A} (r : result A) (tr : list event) (a : A) :
  lift r = (tr, Ok a) -> r = Ok a /\ tr = [].
Proof. unfold lift. intros H. by injection H as <- ->. Qed.

Lemma io_ret_Ok {A} (a a' : A) (tr : list event) :
  io_ret a = (tr, Ok a') -> a' = a /\ tr = [].
Proof. unfold io_ret. intros H. by injection H as <- <-. Qed.

Lemma returned_Some {A} (m : io A) (a : A) :
  returned m = Some a <-> exists tr, m = (tr, Ok a).
Proof.
  unfold returned. destruct m as [tr [a'|e]]; simpl; split.
  - intros H. injection H as ->. eauto.
  - intros [tr' H]. by injection H as _ ->.
  - discriminate.
  - intros [tr' H]. discriminate.
Qed.

(** ** Shapes and cells of the OpenCV and numpy calls *)

Lemma c_int_Ok (z z' : Z) :
  Cv.c_int z = Ok z' -> z' = z /\ - 2 ^ 31 <= z < 2 ^ 31.
Proof.
  unfold Cv.c_int.
  destruct (- 2 ^ 31 <=? z) eqn:H1; destruct (z <? 2 ^ 31) eqn:H2;
    simpl; intros H; try discriminate.
  injection H as <-. lia.
Qed.

Lemma c_int_in_range (z : Z) :
  - 2 ^ 31 <= z < 2 ^ 31 -> Cv.c_int z = Ok z.
Proof.
  intros Hz. unfold Cv.c_int.
  destruct (- 2 ^ 31 <=? z) eqn:H1; destruct (z <? 2 ^ 31) eqn:H2; simpl; try done; lia.
Qed.

(** An OpenCV call sees the first two axes as they are. *)
Lemma mat_of_shape01 {A} (a : ndarray A) :
  take 2 (Np.shape (Cv.mat_of a)) = take 2 (Np.shape a).
Proof.
  unfold Cv.mat_of.
  destruct (Np.shape a) as [|r [|k [|[|[|ch]] [|x rest]]]] eqn:Hs;
    simpl; rewrite ?Hs; done.
Qed.

Lemma mat_of_id {A} (a : ndarray A) (r k ch : nat) :
  Np.shape a = [r; k; ch] -> ch <> 1%nat -> Cv.mat_of a = a.
Proof.
  intros Hs Hch. unfold Cv.mat_of. rewrite Hs.
  destruct ch as [|[|ch]]; done.
Qed.

Lemma mat_of_id2 {A} (a : ndarray A) (r k : nat) :
  Np.shape a = [r; k] -> Cv.mat_of a = a.
Proof. intros Hs. unfold Cv.mat_of. by rewrite Hs. Qed.

Lemma mat_of_3d {A} (a : ndarray A) (r k ch : nat) :
  Np.shape (Cv.mat_of a) = [r; k; ch] ->
  Np.shape a = [r; k; ch] /\ Cv.mat_of a = a.
Proof.
  unfold Cv.mat_of.
  destruct (Np.shape a) as [|r' [|k' [|[|[|ch']] [|x rest]]]] eqn:Hs;
    simpl; rewrite ?Hs; intros H; try discriminate; done.
Qed.

Section KernelFacts.

Variable resize_sample : ndarray Z -> nat -> nat -> list nat -> Z.
Variable cvt_px : color_code -> Z * Z * Z -> Z * Z * Z.
Variable equalize_lut : ndarray Z -> Z -> Z.

Lemma resize_Ok (src out : ndarray Z) (w h : Z) :
  Cv.resize resize_sample src (w, h) = Ok out ->
  0 < w < 2 ^ 31 /\ 0 < h < 2 ^ 31
  /\ exists rest, drop 2 (Np.shape (Cv.mat_of src)) = rest
       /\ Np.shape out = Z.to_nat h :: Z.to_nat w :: rest.
Proof.
  unfold Cv.resize. simpl. intros H.
  apply rbind_Ok in H as (w' & [-> Hw]%c_int_Ok & H).
  apply rbind_Ok in H as (h' & [-> Hh]%c_int_Ok & H).
  destruct (Np.shape (Cv.mat_of src)) as [|r [|k rest]]; try discriminate.
  destruct (0 <? w) eqn:H1; destruct (0 <? h) eqn:H2; simpl in H; try discriminate.
  destruct ((0 <? r)%nat && (0 <? k)%nat); [|discriminate].
  injection H as <-. simpl.
  split; [lia|]. split; [lia|]. by exists rest.
Qed.

Lemma resize_total (src : ndarray Z) (w h : Z) (r k : nat) (rest : list nat) :
  Np.shape (Cv.mat_of src) = r :: k :: rest ->
  (0 < r)%nat -> (0 < k)%nat -> 0 < w < 2 ^ 31 -> 0 < h < 2 ^ 31 ->
  exists out, Cv.resize resize_sample src (w, h) = Ok out
    /\ Np.shape out = Z.to_nat h :: Z.to_nat w :: rest.
Proof.
  intros Hs Hr Hk Hw Hh. unfold Cv.resize. simpl.
  rewrite !c_int_in_range by lia. simpl. rewrite Hs.
  destruct (0 <? w) eqn:H1; [|lia]. destruct (0 <? h) eqn:H2; [|lia].
  destruct (0 <? r)%nat eqn:H3; [|apply Nat.ltb_ge in H3; lia].
  destruct (0 <? k)%nat eqn:H4; [|apply Nat.ltb_ge in H4; lia].
  simpl. eauto.
Qed.

Lemma cvtColor_Ok (src out : ndarray Z) (code : color_code) :
  Cv.cvtColor cvt_px src code = Ok out ->
  exists r k ch, Np.shape src = [r; k; ch] /\ (ch = 3 \/ ch = 4)%nat
    /\ Np.shape out = [r; k; 3%nat].
Proof.
  unfold Cv.cvtColor. intros H.
  destruct (Np.shape (Cv.mat_of src)) as [|r [|k [|ch [|x rest]]]] eqn:Hs;
    try discriminate.
  apply mat_of_3d in Hs as [Hs _].
  destruct (bool_decide (ch = 3%nat \/ ch = 4%nat)) eqn:Hch; [|discriminate].
  apply bool_decide_eq_true in Hch. injection H as <-.
  by exists r, k, ch.
Qed.

Lemma cvtColor_total (src : ndarray Z) (code : color_code) (r k ch : nat) :
  Np.shape src = [r; k; ch] -> (ch = 3 \/ ch = 4)%nat ->
  exists out, Cv.cvtColor cvt_px src code = Ok out
    /\ Np.shape out = [r; k; 3%nat].
Proof.
  intros Hs Hch. unfold Cv.cvtColor.
  rewrite (mat_of_id src r k ch) by (done || lia). rewrite Hs.
  rewrite bool_decide_eq_true_2 by done. eauto.
Qed.

Lemma equalizeHist_total (src : ndarray Z) (r k : nat) :
  Np.shape src = [r; k] ->
  Cv.equalizeHist equalize_lut src
    = Ok (NdArray [r; k] (fun idx => equalize_lut src (Np.get src idx))).
Proof.
  intros Hs. unfold Cv.equalizeHist. rewrite (mat_of_id2 src r k) by done.
  by rewrite Hs.
Qed.

End KernelFacts.

Lemma copyMakeBorder_Ok (src out : ndarray Z) (top bottom left right : Z)
    (value : list Z) :
  Cv.copyMakeBorder src top bottom left right value = Ok out ->
  0 <= top /\ 0 <= bottom /\ 0 <= left /\ 0 <= right
  /\ exists r k rest,
       Np.shape (Cv.mat_of src) = r :: k :: rest
       /\ Np.shape out = (Z.to_nat top + r + Z.to_nat bottom)%nat
                           :: (Z.to_nat left + k + Z.to_nat right)%nat :: rest
       /\ forall i j ns,
            Np.get out (i :: j :: ns) =
              if on_image top left r k i j
              then Np.get (Cv.mat_of src)
                     ((i - Z.to_nat top)%nat :: (j - Z.to_nat left)%nat :: ns)
              else nth (hd 0%nat ns) value 0.
Proof.
  unfold Cv.copyMakeBorder. intros H.
  apply rbind_Ok in H as (t' & [-> Ht]%c_int_Ok & H).
  apply rbind_Ok in H as (b' & [-> Hb]%c_int_Ok & H).
  apply rbind_Ok in H as (l' & [-> Hl]%c_int_Ok & H).
  apply rbind_Ok in H as (r' & [-> Hr]%c_int_Ok & H).
  destruct (Np.shape (Cv.mat_of src)) as [|r [|k rest]]; try discriminate.
  destruct (0 <=? top) eqn:H1; destruct (0 <=? bottom) eqn:H2;
    destruct (0 <=? left) eqn:H3; destruct (0 <=? right) eqn:H4;
    simpl in H; try discriminate.
  destruct (length rest <=? 1)%nat; [|discriminate].
  injection H as <-. simpl.
  repeat (split; [lia|]). by exists r, k, rest.
Qed.

Lemma copyMakeBorder_total (src : ndarray Z) (top bottom left right : Z)
    (value : list Z) (r k : nat) (rest : list nat) :
  Np.shape (Cv.mat_of src) = r :: k :: rest -> (length rest <= 1)%nat ->
  0 <= top < 2 ^ 31 -> 0 <= bottom < 2 ^ 31 ->
  0 <= left < 2 ^ 31 -> 0 <= right < 2 ^ 31 ->
  exists out, Cv.copyMakeBorder src top bottom left right value = Ok out.
Proof.
  intros Hs Hrest Ht Hb Hl Hr. unfold Cv.copyMakeBorder.
  rewrite !c_int_in_range by lia. simpl. rewrite Hs.
  destruct (0 <=? top) eqn:H1; [|lia]. destruct (0 <=? bottom) eqn:H2; [|lia].
  destruct (0 <=? left) eqn:H3; [|lia]. destruct (0 <=? right) eqn:H4; [|lia].
  destruct (length rest <=? 1)%nat eqn:H5; [|apply Nat.leb_gt in H5; lia].
  simpl. eauto.
Qed.

Lemma pad_Ok (src out : ndarray Z) (b : borders) (value : list Z)
    (tr : list event) :
  pad src b value = (tr, Ok out) ->
  Cv.copyMakeBorder src (pad_top b) (pad_bottom b) (pad_left b) (pad_right b)
    value = Ok out
  /\ tr = [EvCopyMakeBorder (pad_top b) (pad_bottom b) (pad_left b) (pad_right b)].
Proof. unfold pad. apply call_Ok. Qed.

Lemma border_sizes_sum (desired_size : Z) (h w : nat) :
  let b := border_sizes desired_size h w in
  0 <= pad_top b -> 0 <= pad_bottom b -> 0 <= pad_left b -> 0 <= pad_right b ->
  (Z.to_nat (pad_top b) + h + Z.to_nat (pad_bottom b))%nat = Z.to_nat desired_size
  /\ (Z.to_nat (pad_left b) + w + Z.to_nat (pad_right b))%nat = Z.to_nat desired_size.
Proof. unfold border_sizes. simpl. lia. Qed.

Lemma plane_Ok {A} (c : nat) (a out : ndarray A) :
  Np.plane c a = Ok out ->
  exists r k ch, Np.shape a = [r; k; ch] /\ (c < ch)%nat
    /\ out = NdArray [r; k] (fun idx => Np.get a (idx ++ [c])).
Proof.
  unfold Np.plane.
  destruct (Np.shape a) as [|r [|k [|ch [|x rest]]]]; try discriminate.
  destruct (c <? ch)%nat eqn:Hc; [|discriminate].
  intros H. injection H as <-. apply Nat.ltb_lt in Hc. by exists r, k, ch.
Qed.

Lemma set_plane_Ok {A} (c : nat) (a b out : ndarray A) :
  Np.set_plane c a b = Ok out -> Np.shape out = Np.shape a.
Proof.
  unfold Np.set_plane.
  destruct (Np.shape a) as [|r [|k [|ch [|x rest]]]]; try discriminate.
  destruct (c <? ch)%nat; [|discriminate].
  destruct (bool_decide (Np.shape b = [r; k])); [|discriminate].
  intros H. by injection H as <-.
Qed.

Lemma expand_dims2_Ok {A} (a out : ndarray A) (r k : nat) :
  Np.shape a = [r; k] ->
  Np.expand_dims2 a = Ok out ->
  Np.shape out = [r; k; 1%nat]
  /\ forall i j n, Np.get out [i; j; n] = Np.get a [i; j].
Proof.
  intros Hs. unfold Np.expand_dims2. rewrite Hs. simpl.
  intros H. by injection H as <-.
Qed.

Lemma concatenate2_Ok {A} (a b c out : ndarray A) :
  Np.concatenate2 a b c = Ok out ->
  exists r k ca cb cc,
    Np.shape a = [r; k; ca] /\ Np.shape b = [r; k; cb] /\ Np.shape c = [r; k; cc]
    /\ Np.shape out = [r; k; (ca + cb + cc)%nat]
    /\ forall i j n,
         Np.get out [i; j; n] =
           if (n <? ca)%nat then Np.get a [i; j; n]
           else if (n <? ca + cb)%nat then Np.get b [i; j; (n - ca)%nat]
           else Np.get c [i; j; (n - ca - cb)%nat].
Proof.
  unfold Np.concatenate2.
  destruct (Np.shape a) as [|r [|k [|ca [|x rest]]]]; try discriminate.
  destruct (Np.shape b) as [|r' [|k' [|cb [|x' rest']]]]; try discriminate.
  destruct (Np.shape c) as [|r'' [|k'' [|cc [|x'' rest'']]]]; try discriminate.
  destruct (bool_decide _) eqn:Hd; [|discriminate].
  apply bool_decide_eq_true in Hd as (-> & -> & -> & ->).
  intros H. injection H as <-. by exists r, k, ca, cb, cc.
Qed.

Section TransformFacts.

Variable cvt_px : color_code -> Z * Z * Z -> Z * Z * Z.
Variable equalize_lut : ndarray Z -> Z -> Z.
Variable np_exp : float -> float.
Variable np_log : float -> float.

(** Everything a returning run of lines 120-156 went through. *)
Lemma transform_resized_Ok (im : ndarray Z) (mk : option (ndarray Z))
    (desired_size : Z) (tr : list event) (im_5ch : ndarray float)
    (mask : option (ndarray Z)) :
  transform_resized cvt_px equalize_lut np_exp np_log im mk desired_size
    = (tr, Ok (im_5ch, mask)) ->
  exists h w ch hsi lightness equalized hsi' rgb,
    let b := border_sizes desired_size h w in
    Np.shape im = [h; w; ch]
    /\ Cv.cvtColor cvt_px im COLOR_RGB2HLS = Ok hsi
    /\ Np.shape hsi = [h; w; 3%nat]
    /\ Np.plane 1 hsi = Ok lightness
    /\ Cv.equalizeHist equalize_lut lightness = Ok equalized
    /\ Np.set_plane 1 hsi equalized = Ok hsi'
    /\ Cv.cvtColor cvt_px hsi' COLOR_HLS2RGB = Ok rgb
    /\ Np.shape rgb = [h; w; 3%nat]
    /\ (0 <= pad_top b /\ 0 <= pad_bottom b /\ 0 <= pad_left b /\ 0 <= pad_right b)
    /\ tr = [EvCvtColor COLOR_RGB2HLS;
             EvCopyMakeBorder (pad_top b) (pad_bottom b) (pad_left b) (pad_right b);
             EvEqualizeHist;
             EvCvtColor COLOR_HLS2RGB;
             EvCopyMakeBorder (pad_top b) (pad_bottom b) (pad_left b) (pad_right b)]
            ++ match mk with
               | Some _ =>
                   [EvCopyMakeBorder (pad_top b) (pad_bottom b) (pad_left b) (pad_right b)]
               | None => []
               end
    /\ match mk with
       | Some m0 =>
           exists m', mask = Some m'
             /\ Cv.copyMakeBorder m0 (pad_top b) (pad_bottom b) (pad_left b)
                  (pad_right b) [0] = Ok m'
       | None => mask = None
       end
    /\ Np.shape im_5ch = [Z.to_nat desired_size; Z.to_nat desired_size; 5%nat]
    /\ forall i j,
         let inside := on_image (pad_top b) (pad_left b) h w i j in
         let i' := (i - Z.to_nat (pad_top b))%nat in
         let j' := (j - Z.to_nat (pad_left b))%nat in
         (forall n, (n < 3)%nat ->
            Np.get im_5ch [i; j; n]
            = (Np.float64 (if inside then Np.get rgb [i'; j'; n] else 255)
               / Np.float64 255)%float)
         /\ Np.get im_5ch [i; j; 3%nat]
            = (Np.float64 (if inside then Np.get hsi [i'; j'; 1%nat] else 255)
               / Np.float64 255)%float
         /\ Np.get im_5ch [i; j; 4%nat]
            = make_gaussian_cell np_exp np_log desired_size 125 i j.
Proof.
  unfold transform_resized. intros H.
  apply io_bind_Ok in H as (tr1 & hsi & tr1' & [Hhsi ->]%call_Ok & H & ->).
  apply io_bind_Ok in H as (tr2 & hw & tr2' & [Hhw ->]%lift_Ok & H & ->).
  apply io_bind_Ok in H as (tr3 & src & tr3' & [Hsrc ->]%lift_Ok & H & ->).
  apply io_bind_Ok in H as (tr4 & padded & tr4' & [Hpad ->]%pad_Ok & H & ->).
  apply io_bind_Ok in H as (tr5 & expanded & tr5' & [Hexp ->]%lift_Ok & H & ->).
  apply io_bind_Ok in H as (tr6 & lightness & tr6' & [Hlight ->]%lift_Ok & H & ->).
  apply io_bind_Ok in H as (tr7 & equalized & tr7' & [Heq ->]%call_Ok & H & ->).
  apply io_bind_Ok in H as (tr8 & hsi' & tr8' & [Hset ->]%lift_Ok & H & ->).
  apply io_bind_Ok in H as (tr9 & rgb & tr9' & [Hrgb ->]%call_Ok & H & ->).
  apply io_bind_Ok in H as (tr10 & rgbp & tr10' & [Hrgbp ->]%pad_Ok & H & ->).
  apply io_bind_Ok in H as (tr11 & mask' & tr11' & Hmask & H & ->).
  apply io_bind_Ok in H as (tr12 & gauss & tr12' & [Hgauss ->]%lift_Ok & H & ->).
  apply io_bind_Ok in H as (tr13 & intensity & tr13' & [Hint ->]%lift_Ok & H & ->).
  apply io_bind_Ok in H as (tr14 & out & tr14' & [Hcat ->]%lift_Ok & H & ->).
  apply io_ret_Ok in H as [H ->]. injection H as -> ->.
  destruct (cvtColor_Ok _ _ _ _ Hhsi) as (h & w & ch & Him & Hch & Hshsi).
  unfold shape01 in Hhw. rewrite Him in Hhw. injection Hhw as <-.
  cbn [fst snd] in *.
  set (b := border_sizes desired_size h w) in *.
  unfold read_intensity in Hsrc, Hint.
  cbn [original_intensity im_hsi] in *.
  injection Hint as <-.
  assert (src = lightness) as -> by congruence. clear Hsrc.
  destruct (plane_Ok _ _ _ Hlight) as (h0 & w0 & c0 & Hs0 & _ & Hl).
  rewrite Hshsi in Hs0. injection Hs0 as <- <- <-.
  pose proof (set_plane_Ok _ _ _ _ Hset) as Hshsi'. rewrite Hshsi in Hshsi'.
  destruct (cvtColor_Ok _ _ _ _ Hrgb) as (h1 & w1 & c1 & Hs1 & _ & Hsrgb).
  rewrite Hshsi' in Hs1. injection Hs1 as <- <- <-.
  destruct (copyMakeBorder_Ok _ _ _ _ _ _ _ Hpad)
    as (Ht & Hb & Hl' & Hr & r & k & rest & Hsm & Hsp & Hgp).
  rewrite (mat_of_id2 lightness h w) in Hsm, Hgp by (by rewrite Hl).
  rewrite Hl in Hsm. simpl in Hsm. injection Hsm as <- <- <-.
  destruct (copyMakeBorder_Ok _ _ _ _ _ _ _ Hrgbp)
    as (_ & _ & _ & _ & r & k & rest & Hsm & Hsrp & Hgrp).
  rewrite (mat_of_id rgb h w 3) in Hsm, Hgrp by (done || lia).
  rewrite Hsrgb in Hsm. injection Hsm as <- <- <-.
  destruct (border_sizes_sum desired_size h w Ht Hb Hl' Hr) as [Hrows Hcols].
  fold b in Hrows, Hcols. rewrite Hrows, Hcols in Hsp, Hsrp.
  destruct (expand_dims2_Ok _ _ _ _ Hsp Hexp) as [Hsexp Hgexp].
  destruct (expand_dims2_Ok (make_gaussian np_exp np_log desired_size 125) gauss
              (Z.to_nat desired_size) (Z.to_nat desired_size) eq_refl Hgauss)
    as [Hsg Hgg].
  destruct (concatenate2_Ok _ _ _ _ Hcat)
    as (r & k & ca & cb & cc & Hsa & Hsb & Hsc & Hsout & Hgout).
  simpl in Hsa, Hsb. rewrite Hsrp in Hsa. rewrite Hsexp in Hsb.
  rewrite Hsg in Hsc.
  injection Hsa as <- <- <-. injection Hsb as <-. injection Hsc as <-.
  exists h, w, ch, hsi, lightness, equalized, hsi', rgb.
  repeat (split; [done|]).
  split; [|split; [|split]].
  - destruct mk as [m0|].
    + apply io_bind_Ok in Hmask as (tra & m' & trb & [Hm ->]%pad_Ok & Hret & ->).
      apply io_ret_Ok in Hret as [-> ->]. done.
    + apply io_ret_Ok in Hmask as [-> ->]. done.
  - destruct mk as [m0|].
    + apply io_bind_Ok in Hmask as (tra & m' & trb & [Hm ->]%pad_Ok & Hret & ->).
      apply io_ret_Ok in Hret as [-> ->]. eauto.
    + by apply io_ret_Ok in Hmask as [-> ->].
  - exact Hsout.
  - intros i j. simpl. split; [|split].
    + intros n Hn. rewrite Hgout.
      destruct (n <? 3)%nat eqn:Hlt; [|apply Nat.ltb_ge in Hlt; lia].
      simpl. rewrite Hgrp. simpl.
      destruct (on_image _ _ _ _ _ _); [done|].
      by destruct n as [|[|[|n]]]; [..|lia].
    + rewrite Hgout. simpl. rewrite Hgexp, Hgp. simpl.
      destruct (on_image _ _ _ _ _ _); [|done].
      by rewrite Hl.
    + rewrite Hgout. simpl. by rewrite Hgg.
Qed.

End TransformFacts.

Section ResizeFacts.

Variable imread : string -> result (ndarray Z).
Variable resize_sample : ndarray Z -> nat -> nat -> list nat -> Z.

Lemma resize_both_Ok (new_im : ndarray Z) (new_mask : option (ndarray Z))
    (dsize : Z * Z) (tr : list event) (im : ndarray Z) (mk : option (ndarray Z)) :
  resize_both resize_sample new_im new_mask dsize = (tr, Ok (im, mk)) ->
  Cv.resize resize_sample new_im dsize = Ok im
  /\ match new_mask with
     | Some m0 =>
         exists m', mk = Some m' /\ Cv.resize resize_sample m0 dsize = Ok m'
     | None => mk = None
     end
  /\ tr = EvResize dsize
          :: match new_mask with Some _ => [EvResize dsize] | None => [] end.
Proof.
  unfold resize_both. intros H.
  apply io_bind_Ok in H as (tr1 & im' & tr2 & [Him ->]%call_Ok & H & ->).
  destruct new_mask as [m0|].
  - apply io_bind_Ok in H as (tr3 & m' & tr4 & [Hm ->]%call_Ok & H & ->).
    apply io_ret_Ok in H as [H ->]. injection H as -> ->. eauto.
  - apply io_ret_Ok in H as [H ->]. by injection H as -> ->.
Qed.

(** Everything a returning run of lines 98-117 went through. *)
Lemma resized_inputs_Ok (im_id : string) (mask_bool : bool)
    (img_dir mask_dir img_suffix mask_suffix : string) (largest_dimension : Z)
    (tr : list event) (im : ndarray Z) (mk : option (ndarray Z)) :
  resized_inputs imread resize_sample im_id mask_bool img_dir mask_dir
    img_suffix mask_suffix largest_dimension = (tr, Ok (im, mk)) ->
  exists raw rows columns ch s,
    let img_path := img_dir +:+ im_id +:+ img_suffix in
    let mask_path := mask_dir +:+ im_id +:+ mask_suffix in
    let dsize := resize_dsize largest_dimension rows columns s in
    imread img_path = Ok raw
    /\ Np.shape raw = [rows; columns; ch]
    /\ scaled_size largest_dimension (Nat.max rows columns) (Nat.min rows columns)
         = Ok s
    /\ Cv.resize resize_sample raw dsize = Ok im
    /\ (if mask_bool then
          exists raw_mask m',
            imread mask_path = Ok raw_mask /\ mk = Some m'
            /\ Cv.resize resize_sample raw_mask dsize = Ok m'
        else mk = None)
    /\ tr = EvImread img_path
            :: (if mask_bool then [EvImread mask_path] else [])
            ++ EvResize dsize :: (if mask_bool then [EvResize dsize] else []).
Proof.
  unfold resized_inputs, read_inputs. intros H.
  apply io_bind_Ok in H as (tr1 & inputs & tr2 & Hin & H & ->).
  apply io_bind_Ok in Hin as (tr3 & raw & tr4 & [Hraw ->]%call_Ok & Hin & ->).
  unfold resize_inputs in H.
  assert (inputs.1 = raw) as Hfst.
  { destruct mask_bool.
    - apply io_bind_Ok in Hin as (? & ? & ? & _ & Hret & _).
      apply io_ret_Ok in Hret as [-> _]. done.
    - apply io_ret_Ok in Hin as [-> _]. done. }
  rewrite Hfst in H.
  destruct (Np.shape raw) as [|rows [|columns [|ch [|x rest]]]] eqn:Hs;
    try (apply lift_Ok in H as [H _]; discriminate).
  assert (exists s,
    scaled_size largest_dimension (Nat.max rows columns) (Nat.min rows columns) = Ok s
    /\ resize_both resize_sample raw inputs.2
         (resize_dsize largest_dimension rows columns s) = (tr2, Ok (im, mk)))
    as (s & Hscaled & Hboth).
  { unfold resize_dsize. destruct (columns <=? rows)%nat eqn:Hle.
    - apply Nat.leb_le in Hle.
      apply io_bind_Ok in H as (tr5 & s & tr6 & [Hsc ->]%lift_Ok & H & ->).
      exists s. rewrite Nat.max_l, Nat.min_r by lia. done.
    - apply Nat.leb_gt in Hle.
      apply io_bind_Ok in H as (tr5 & s & tr6 & [Hsc ->]%lift_Ok & H & ->).
      exists s. rewrite Nat.max_r, Nat.min_l by lia. done. }
  apply resize_both_Ok in Hboth as (Him & Hmk & ->).
  exists raw, rows, columns, ch, s. simpl.
  split; [done|]. split; [done|]. split; [done|]. split; [done|].
  destruct mask_bool.
  - apply io_bind_Ok in Hin as (tr7 & raw_mask & tr8 & [Hrm ->]%call_Ok & Hret & ->).
    apply io_ret_Ok in Hret as [-> ->]. simpl in Hmk |- *.
    destruct Hmk as (m' & -> & Hm'). split; [eauto|done].
  - apply io_ret_Ok in Hin as [-> ->]. simpl in Hmk |- *. done.
Qed.

End ResizeFacts.

(** ** When the transform returns *)

Section ResizeTotality.

Variable imread : string -> result (ndarray Z).
Variable resize_sample : ndarray Z -> nat -> nat -> list nat -> Z.

Lemma resized_inputs_total (im_id : string) (mask_bool : bool)
    (img_dir mask_dir img_suffix mask_suffix : string) (largest_dimension : Z)
    (raw : ndarray Z) (rows columns ch : nat) (s : Z) :
  imread (img_dir +:+ im_id +:+ img_suffix) = Ok raw ->
  Np.shape raw = [rows; columns; ch] ->
  (ch = 3 \/ ch = 4)%nat ->
  (0 < rows)%nat -> (0 < columns)%nat ->
  (mask_bool = true ->
   exists raw_mask r k,
     imread (mask_dir +:+ im_id +:+ mask_suffix) = Ok raw_mask
     /\ Np.shape raw_mask = [r; k] /\ (0 < r)%nat /\ (0 < k)%nat) ->
  scaled_size largest_dimension (Nat.max rows columns) (Nat.min rows columns)
    = Ok s ->
  0 < s < 2 ^ 31 -> 0 < largest_dimension < 2 ^ 31 ->
  exists tr im mk,
    resized_inputs imread resize_sample im_id mask_bool img_dir mask_dir
      img_suffix mask_suffix largest_dimension = (tr, Ok (im, mk))
    /\ Np.shape im
       = (if (columns <=? rows)%nat
          then [Z.to_nat largest_dimension; Z.to_nat s; ch]
          else [Z.to_nat s; Z.to_nat largest_dimension; ch])
    /\ (if mask_bool then
          exists m, mk = Some m /\ Np.shape m = take 2 (Np.shape im)
        else mk = None).
Proof.
  intros Hraw Hs Hch Hrows Hcols Hmask Hscaled Hsb HL.
  set (dsize := resize_dsize largest_dimension rows columns s).
  assert (0 < dsize.1 < 2 ^ 31 /\ 0 < dsize.2 < 2 ^ 31) as [Hd1 Hd2].
  { unfold dsize, resize_dsize. destruct (columns <=? rows)%nat; simpl; lia. }
  assert (Np.shape (Cv.mat_of raw) = [rows; columns; ch]) as Hsm.
  { rewrite (mat_of_id raw rows columns ch) by (done || lia). done. }
  destruct (resize_total resize_sample raw dsize.1 dsize.2 _ _ _ Hsm Hrows Hcols Hd1 Hd2)
    as (im & Him & Hsim).
  rewrite <- surjective_pairing in Him.
  assert (forall mk0,
            resize_inputs resize_sample raw mk0 largest_dimension
            = resize_both resize_sample raw mk0 dsize) as Hri.
  { intros mk0. unfold resize_inputs. rewrite Hs. unfold dsize, resize_dsize.
    destruct (columns <=? rows)%nat eqn:Hle.
    - apply Nat.leb_le in Hle. rewrite Nat.max_l, Nat.min_r in Hscaled by lia.
      rewrite Hscaled. unfold lift, io_bind.
      by destruct (resize_both _ _ _ _).
    - apply Nat.leb_gt in Hle. rewrite Nat.max_r, Nat.min_l in Hscaled by lia.
      rewrite Hscaled. unfold lift, io_bind.
      by destruct (resize_both _ _ _ _). }
  assert (Np.shape im
          = (if (columns <=? rows)%nat
             then [Z.to_nat largest_dimension; Z.to_nat s; ch]
             else [Z.to_nat s; Z.to_nat largest_dimension; ch])) as Hshape.
  { rewrite Hsim. unfold dsize, resize_dsize.
    by destruct (columns <=? rows)%nat. }
  unfold resized_inputs, read_inputs. rewrite Hraw.
  destruct mask_bool.
  - destruct (Hmask eq_refl) as (raw_mask & r & k & Hrm & Hsrm & Hr & Hk).
    rewrite Hrm.
    assert (Np.shape (Cv.mat_of raw_mask) = [r; k]) as Hsmm.
    { by rewrite (mat_of_id2 raw_mask r k). }
    destruct (resize_total resize_sample raw_mask dsize.1 dsize.2 _ _ _ Hsmm Hr Hk Hd1 Hd2)
      as (m & Hm & Hsm').
    rewrite <- surjective_pairing in Hm.
    cbn [call io_bind io_ret app fst snd].
    rewrite Hri.
    unfold resize_both. rewrite Him, Hm.
    cbn [call io_bind io_ret app fst snd].
    eexists _, im, (Some m). split; [reflexivity|]. split; [done|].
    exists m. split; [done|]. rewrite Hsm', Hsim. done.
  - cbn [call io_bind io_ret app fst snd]. rewrite Hri.
    unfold resize_both. rewrite Him.
    cbn [call io_bind io_ret app fst snd].
    eexists _, im, None. done.
Qed.

End ResizeTotality.

Lemma border_sizes_bounds (desired_size : Z) (h w : nat) :
  Z.of_nat h <= desired_size -> Z.of_nat w <= desired_size ->
  desired_size < 2 ^ 31 ->
  let b := border_sizes desired_size h w in
  0 <= pad_top b < 2 ^ 31 /\ 0 <= pad_bottom b < 2 ^ 31
  /\ 0 <= pad_left b < 2 ^ 31 /\ 0 <= pad_right b < 2 ^ 31.
Proof.
  intros Hh Hw HD. unfold border_sizes. cbv zeta.
  cbn [pad_top pad_bottom pad_left pad_right].
  Z.div_mod_to_equations. lia.
Qed.

Section TransformTotality.

Variable cvt_px : color_code -> Z * Z * Z -> Z * Z * Z.
Variable equalize_lut : ndarray Z -> Z -> Z.
Variable np_exp : float -> float.
Variable np_log : float -> float.

Lemma transform_resized_total (im : ndarray Z) (mk : option (ndarray Z))
    (desired_size : Z) (h w ch : nat) :
  Np.shape im = [h; w; ch] ->
  (ch = 3 \/ ch = 4)%nat ->
  (forall m, mk = Some m -> Np.shape m = [h; w]) ->
  Z.of_nat h <= desired_size -> Z.of_nat w <= desired_size ->
  desired_size < 2 ^ 31 ->
  exists tr im_5ch mask,
    transform_resized cvt_px equalize_lut np_exp np_log im mk desired_size
      = (tr, Ok (im_5ch, mask)).
Proof.
  intros Him Hch Hmk Hh Hw HD.
  destruct (border_sizes_bounds desired_size h w Hh Hw HD) as (Ht & Hb & Hl & Hr).
  unfold transform_resized, pad.
  destruct (cvtColor_total cvt_px im COLOR_RGB2HLS h w ch Him Hch)
    as (hsi & Hhsi & Hshsi).
  rewrite Hhsi. unfold shape01. rewrite Him.
  cbn [call lift io_bind io_ret app fst snd read_intensity im_hsi original_intensity].
  set (b := border_sizes desired_size h w) in *.
  unfold Np.plane at 1 2. rewrite Hshsi.
  cbn [Nat.ltb Nat.leb call lift io_bind io_ret app fst snd].
  set (lightness := NdArray [h; w] (fun idx => Np.get hsi (idx ++ [1%nat]))).
  destruct (copyMakeBorder_total lightness (pad_top b) (pad_bottom b)
              (pad_left b) (pad_right b) [255] h w [] eq_refl (le_S _ _ (le_n 0))
              Ht Hb Hl Hr) as (padded & Hpad).
  rewrite Hpad. cbn [call lift io_bind io_ret app fst snd].
  destruct (copyMakeBorder_Ok _ _ _ _ _ _ _ Hpad)
    as (_ & _ & _ & _ & r & k & rest & Hsm & Hsp & _).
  simpl in Hsm. injection Hsm as <- <- <-.
  unfold Np.expand_dims2 at 1. rewrite Hsp.
  cbn [length Nat.ltb Nat.leb call lift io_bind io_ret app fst snd take drop
       read_intensity im_hsi original_intensity].
  rewrite (equalizeHist_total equalize_lut lightness h w eq_refl).
  cbn [call lift io_bind io_ret app fst snd].
  unfold Np.set_plane. rewrite Hshsi. cbn [Nat.ltb Nat.leb Np.shape].
  rewrite bool_decide_eq_true_2 by done.
  cbn [call lift io_bind io_ret app fst snd].
  match goal with
  | |- context [Cv.cvtColor cvt_px ?a COLOR_HLS2RGB] =>
      destruct (cvtColor_total cvt_px a COLOR_HLS2RGB h w 3 eq_refl (or_introl eq_refl))
        as (rgb & Hrgb & Hsrgb)
  end.
  rewrite Hrgb. cbn [call lift io_bind io_ret app fst snd].
  assert (Np.shape (Cv.mat_of rgb) = [h; w; 3%nat]) as Hsmr.
  { by rewrite (mat_of_id rgb h w 3) by (done || lia). }
  destruct (copyMakeBorder_total rgb (pad_top b) (pad_bottom b)
              (pad_left b) (pad_right b) [255; 255; 255] h w [3%nat] Hsmr (le_n 1)
              Ht Hb Hl Hr) as (rgbp & Hrgbp).
  rewrite Hrgbp.
  destruct (copyMakeBorder_Ok _ _ _ _ _ _ _ Hrgbp)
    as (_ & _ & _ & _ & r & k & rest & Hsm & Hsrp & _).
  rewrite Hsmr in Hsm. injection Hsm as <- <- <-.
  cbn [call lift io_bind io_ret app fst snd].
  destruct (border_sizes_sum desired_size h w (proj1 Ht) (proj1 Hb) (proj1 Hl) (proj1 Hr))
    as [Hrows Hcols].
  fold b in Hrows, Hcols.
  destruct mk as [m|].
  - assert (Np.shape (Cv.mat_of m) = [h; w]) as Hsmm.
    { rewrite (mat_of_id2 m h w); auto. }
    destruct (copyMakeBorder_total m (pad_top b) (pad_bottom b)
                (pad_left b) (pad_right b) [0] h w [] Hsmm (le_S _ _ (le_n 0))
                Ht Hb Hl Hr) as (m' & Hm').
    rewrite Hm'. cbn [call lift io_bind io_ret app fst snd].
    unfold Np.expand_dims2. cbn [make_gaussian Np.shape length Nat.ltb Nat.leb].
    cbn [call lift io_bind io_ret app fst snd take drop].
    unfold Np.concatenate2. cbn [Np.true_divide Np.shape]. rewrite Hsrp.
    rewrite Hrows, Hcols. rewrite bool_decide_eq_true_2 by done.
    cbn [call lift io_bind io_ret app fst snd].
    by eexists _, _, _.
  - cbn [call lift io_bind io_ret app fst snd].
    unfold Np.expand_dims2. cbn [make_gaussian Np.shape length Nat.ltb Nat.leb].
    cbn [call lift io_bind io_ret app fst snd take drop].
    unfold Np.concatenate2. cbn [Np.true_divide Np.shape]. rewrite Hsrp.
    rewrite Hrows, Hcols. rewrite bool_decide_eq_true_2 by done.
    cbn [call lift io_bind io_ret app fst snd].
  by eexists _, _, _.
Qed.

End TransformTotality.

(** ** The shape of what the transform returns *)

Section ShapeFacts.

Variable imread : string -> result (ndarray Z).
Variable resize_sample : ndarray Z -> nat -> nat -> list nat -> Z.
Variable cvt_px : color_code -> Z * Z * Z -> Z * Z * Z.
Variable equalize_lut : ndarray Z -> Z -> Z.
Variable np_exp : float -> float.
Variable np_log : float -> float.

Lemma preprocessing_unet_Ok (im_id : string) (mask_bool : bool)
    (img_dir mask_dir img_suffix mask_suffix : string)
    (largest_dimension desired_size : Z) (tr : list event)
    (out : ndarray float * option (ndarray Z)) :
  preprocessing_unet imread resize_sample cvt_px equalize_lut np_exp np_log
    im_id mask_bool img_dir mask_dir img_suffix mask_suffix
    largest_dimension desired_size = (tr, Ok out) ->
  exists tr0 im mk tr1,
    resized_inputs imread resize_sample im_id mask_bool img_dir mask_dir
      img_suffix mask_suffix largest_dimension = (tr0, Ok (im, mk))
    /\ transform_resized cvt_px equalize_lut np_exp np_log im mk desired_size
         = (tr1, Ok out)
    /\ tr = tr0 ++ tr1.
Proof.
  unfold preprocessing_unet. intros H.
  apply io_bind_Ok in H as (tr0 & [im mk] & tr1 & H0 & H1 & ->).
  by exists tr0, im, mk, tr1.
Qed.

(** The resized image has [largest_dimension] along its longer side and
    the scaled size along the other; the mask is resized to the same
    [dsize]. *)
Lemma resized_inputs_shape (im_id : string) (mask_bool : bool)
    (img_dir mask_dir img_suffix mask_suffix : string) (largest_dimension : Z)
    (tr : list event) (im : ndarray Z) (mk : option (ndarray Z)) :
  resized_inputs imread resize_sample im_id mask_bool img_dir mask_dir
    img_suffix mask_suffix largest_dimension = (tr, Ok (im, mk)) ->
  exists raw rows columns ch s,
    imread (img_dir +:+ im_id +:+ img_suffix) = Ok raw
    /\ Np.shape raw = [rows; columns; ch]
    /\ scaled_size largest_dimension (Nat.max rows columns) (Nat.min rows columns)
         = Ok s
    /\ 0 < s /\ 0 < largest_dimension
    /\ take 2 (Np.shape im)
       = (if (columns <=? rows)%nat
          then [Z.to_nat largest_dimension; Z.to_nat s]
          else [Z.to_nat s; Z.to_nat largest_dimension])
    /\ (forall m, mk = Some m -> take 2 (Np.shape m) = take 2 (Np.shape im)).
Proof.
  intros H.
  apply resized_inputs_Ok in H
    as (raw & rows & columns & ch & s & Hraw & Hs & Hscaled & Him & Hmk & _).
  exists raw, rows, columns, ch, s.
  split; [done|]. split; [done|]. split; [done|].
  destruct (resize_dsize largest_dimension rows columns s) as [dw dh] eqn:Hd.
  apply resize_Ok in Him as (Hw & Hh & rest & _ & Hsim).
  assert (take 2 (Np.shape im) = [Z.to_nat dh; Z.to_nat dw]) as Htake
    by (by rewrite Hsim).
  unfold resize_dsize in Hd.
  split; [destruct (columns <=? rows)%nat; injection Hd as <- <-; lia|].
  split; [destruct (columns <=? rows)%nat; injection Hd as <- <-; lia|].
  split.
  - rewrite Htake. by destruct (columns <=? rows)%nat; injection Hd as <- <-.
  - intros m ->. destruct mask_bool; [|discriminate].
    destruct Hmk as (raw_mask & m' & _ & Hm & Hrm). injection Hm as <-.
    apply resize_Ok in Hrm as (_ & _ & rest' & _ & Hsm).
    by rewrite Htake, Hsm.
Qed.

(** Whatever the transform returns is [desired_size] square with five
    channels, the mask on the same grid. *)
Lemma preprocessing_unet_returns_square (im_id : string) (mask_bool : bool)
    (img_dir mask_dir img_suffix mask_suffix : string)
    (largest_dimension desired_size : Z) (tr : list event)
    (im_5ch : ndarray float) (mask : option (ndarray Z)) :
  preprocessing_unet imread resize_sample cvt_px equalize_lut np_exp np_log
    im_id mask_bool img_dir mask_dir img_suffix mask_suffix
    largest_dimension desired_size = (tr, Ok (im_5ch, mask)) ->
  Np.shape im_5ch = [Z.to_nat desired_size; Z.to_nat desired_size; 5%nat]
  /\ (forall m, mask = Some m ->
        take 2 (Np.shape m) = [Z.to_nat desired_size; Z.to_nat desired_size])
  /\ (mask_bool = true <-> is_Some mask).
Proof.
  intros H.
  apply preprocessing_unet_Ok in H as (tr0 & im & mk & tr1 & Hres & Htrans & ->).
  pose proof (resized_inputs_shape _ _ _ _ _ _ _ _ _ _ Hres)
    as (raw & rows & columns & ch0 & s & _ & _ & _ & _ & _ & Him2 & Hmk2).
  pose proof (resized_inputs_Ok _ _ _ _ _ _ _ _ _ _ _ _ Hres)
    as (? & ? & ? & ? & ? & _ & _ & _ & _ & Hmkb & _).
  apply transform_resized_Ok in Htrans
    as (h & w & ch & hsi & li & eq & hsi' & rgb & Him & _ & _ & _ & _ & _ & _ & _
        & (Ht & Hb & Hl & Hr) & _ & Hmask & Hshape & _).
  split; [done|].
  destruct (border_sizes_sum desired_size h w Ht Hb Hl Hr) as [Hrows Hcols].
  split.
  - intros m ->. destruct mk as [m0|]; [|discriminate].
    destruct Hmask as (m' & Hm' & Hpad). injection Hm' as <-.
    apply copyMakeBorder_Ok in Hpad as (_ & _ & _ & _ & r & k & rest & Hsm & Hsp & _).
    pose proof (mat_of_shape01 m0) as H01.
    rewrite Hsm, (Hmk2 m0 eq_refl), Him in H01. simpl in H01.
    injection H01 as -> ->. rewrite Hsp. cbn [take]. by rewrite Hrows, Hcols.
  - destruct mask_bool.
    + destruct Hmkb as (? & m0 & _ & -> & _).
      destruct Hmask as (m' & -> & _). split; eauto.
    + subst mk. subst mask. split; [done|]. by intros [? ?].
Qed.

End ShapeFacts.

(** ** The claims on the transform *)

(** C3, as amended: when the image file decodes to positive rows and
    columns with three or four channels, the mask file (if read) to a
    non-empty single-channel raster, largest_dimension is positive and at
    most desired_size, desired_size fits a C int, and the scaled smaller
    side is at least 1 and at most desired_size, then preprocessing_unet
    returns, the array it returns has shape exactly desired_size x
    desired_size x 5, and the mask it returns has shape desired_size x
    desired_size. *)
Theorem preprocessing_unet_output_shape
    (imread : string -> result (ndarray Z))
    (resize_sample : ndarray Z -> nat -> nat -> list nat -> Z)
    (cvt_px : color_code -> Z * Z * Z -> Z * Z * Z)
    (equalize_lut : ndarray Z -> Z -> Z)
    (np_exp np_log : float -> float)
    (im_id : string) (mask_bool : bool)
    (img_dir mask_dir img_suffix mask_suffix : string)
    (largest_dimension desired_size : Z)
    (raw : ndarray Z) (rows columns ch : nat) (s : Z) :
  imread (img_dir +:+ im_id +:+ img_suffix) = Ok raw ->
  Np.shape raw = [rows; columns; ch] ->
  (ch = 3 \/ ch = 4)%nat ->
  (0 < rows)%nat -> (0 < columns)%nat ->
  (mask_bool = true ->
   exists raw_mask r k,
     imread (mask_dir +:+ im_id +:+ mask_suffix) = Ok raw_mask
     /\ Np.shape raw_mask = [r; k] /\ (0 < r)%nat /\ (0 < k)%nat) ->
  scaled_size largest_dimension (Nat.max rows columns) (Nat.min rows columns)
    = Ok s ->
  0 < s <= desired_size ->
  0 < largest_dimension <= desired_size ->
  desired_size < 2 ^ 31 ->
  exists tr im_5ch mask,
    preprocessing_unet imread resize_sample cvt_px equalize_lut np_exp np_log
      im_id mask_bool img_dir mask_dir img_suffix mask_suffix
      largest_dimension desired_size = (tr, Ok (im_5ch, mask))
    /\ Np.shape im_5ch = [Z.to_nat desired_size; Z.to_nat desired_size; 5%nat]
    /\ (if mask_bool then
          exists m, mask = Some m
            /\ Np.shape m = [Z.to_nat desired_size; Z.to_nat desired_size]
        else mask = None).
Proof.
  intros Hraw Hs Hch Hrows Hcols Hmask Hscaled Hsb HL HD.
  destruct (resized_inputs_total imread resize_sample im_id mask_bool img_dir
              mask_dir img_suffix mask_suffix largest_dimension raw rows columns
              ch s Hraw Hs Hch Hrows Hcols Hmask Hscaled)
    as (tr0 & im & mk & Hres & Him & Hmk); [lia..|].
  set (h := if (columns <=? rows)%nat then Z.to_nat largest_dimension else Z.to_nat s).
  set (w := if (columns <=? rows)%nat then Z.to_nat s else Z.to_nat largest_dimension).
  assert (Np.shape im = [h; w; ch]) as Him'.
  { rewrite Him. unfold h, w. by destruct (columns <=? rows)%nat. }
  assert (forall m, mk = Some m -> Np.shape m = [h; w]) as Hmk'.
  { intros m ->. destruct mask_bool; [|discriminate].
    destruct Hmk as (m' & Hm' & Hsm). injection Hm' as <-.
    by rewrite Hsm, Him'. }
  destruct (transform_resized_total cvt_px equalize_lut np_exp np_log im mk
              desired_size h w ch Him' Hch Hmk')
    as (tr1 & im_5ch & mask & Htrans);
    [unfold h; destruct (columns <=? rows)%nat; lia
    |unfold w; destruct (columns <=? rows)%nat; lia
    |done|].
  assert (preprocessing_unet imread resize_sample cvt_px equalize_lut np_exp
            np_log im_id mask_bool img_dir mask_dir img_suffix mask_suffix
            largest_dimension desired_size = (tr0 ++ tr1, Ok (im_5ch, mask)))
    as Hrun.
  { unfold preprocessing_unet. rewrite Hres. cbn [io_bind fst snd].
    by rewrite Htrans. }
  exists (tr0 ++ tr1), im_5ch, mask. split; [done|].
  pose proof (preprocessing_unet_returns_square _ _ _ _ _ _ _ _ _ _ _ _ _ _ _ _ _ Hrun)
    as (Hshape & Hmshape & Hsome).
  split; [done|].
  destruct mask_bool.
  - destruct (proj1 Hsome eq_refl) as [m ->]. exists m. split; [done|].
    destruct mk as [m0|].
    + pose proof (Hmshape m eq_refl) as H2.
      apply transform_resized_Ok in Htrans
        as (h' & w' & ch' & ? & ? & ? & ? & ? & _ & _ & _ & _ & _ & _ & _ & _
            & _ & _ & (m' & Hm' & Hpad) & _).
      injection Hm' as <-.
      apply copyMakeBorder_Ok in Hpad
        as (_ & _ & _ & _ & r & k & rest & Hsm & Hsp & _).
      rewrite (mat_of_id2 m0 h w) in Hsm by auto.
      rewrite (Hmk' m0 eq_refl) in Hsm. injection Hsm as <- <- <-.
      rewrite Hsp in H2 |- *. cbn [take] in H2. done.
    + destruct Hmk as (m' & Hm' & _). discriminate.
  - destruct mask as [m|]; [|done].
    assert (false = true) by (apply Hsome; eauto). discriminate.
Qed.

Lemma preprocessing_unet_output_shape_witness :
  exists tr im_5ch mask,
    Sample.preprocess "ISIC_0000031" 250 320 = (tr, Ok (im_5ch, mask))
    /\ Np.shape im_5ch = [Z.to_nat 320; Z.to_nat 320; 5%nat]
    /\ exists m, mask = Some m /\ Np.shape m = [Z.to_nat 320; Z.to_nat 320].
Proof.
  apply (preprocessing_unet_output_shape Sample.imread Sample.resize_sample
           Sample.cvt_px Sample.equalize_lut Sample.np_exp Sample.np_log
           "ISIC_0000031" true Sample.img_dir Sample.mask_dir Sample.img_suffix
           Sample.mask_suffix 250 320 (Sample.ramp [400; 200; 3]%nat)
           400 200 3 125).
  - reflexivity.
  - reflexivity.
  - by left.
  - lia.
  - lia.
  - intros _. exists (Sample.ramp [400; 200]%nat), 400%nat, 200%nat.
    split; [reflexivity|]. split; [reflexivity|]. lia.
  - vm_compute. reflexivity.
  - lia.
  - lia.
  - lia.
Defined.

(** C3, the claim as stated fails: on a 1000 x 1 image (positive height
    and width) with the default largest_dimension = 250 and desired_size =
    320, the scaled width is int(1.0 * 0.25) = 0, cv.resize rejects the
    empty size and preprocessing_unet returns no array. *)
Lemma narrow_image_returns_no_array :
  Sample.imread (Sample.img_dir +:+ "ISIC_0000060" +:+ Sample.img_suffix)
    = Ok (Sample.ramp [1000; 1; 3]%nat)
  /\ Sample.preprocess "ISIC_0000060" 250 320
     = ([EvImread "./ISIC2018_Task1-2_Training_Input/ISIC_0000060.jpg";
         EvImread "./ISIC2018_Task1_Training_GroundTruth/ISIC_0000060_segmentation.png";
         EvResize (0, 250)],
        Raise CvError)
  /\ returned (Sample.preprocess "ISIC_0000060" 250 320) = None.
Proof. split; [reflexivity|]. split; vm_compute; reflexivity. Qed.

(** C6, as amended: in the resized image the longer side of the input
    (rows when rows >= columns) is exactly largest_dimension and the other
    side is int(float(other) * (largest_dimension / float(larger))), the
    product and the quotient being binary64 operations; the mask gets the
    same two dimensions.  A 400 x 200 input with largest_dimension = 250
    gives 250 x 125. *)
Theorem resized_dimensions
    (imread : string -> result (ndarray Z))
    (resize_sample : ndarray Z -> nat -> nat -> list nat -> Z)
    (im_id : string) (mask_bool : bool)
    (img_dir mask_dir img_suffix mask_suffix : string)
    (largest_dimension : Z) (tr : list event)
    (im : ndarray Z) (mk : option (ndarray Z)) :
  resized_inputs imread resize_sample im_id mask_bool img_dir mask_dir
    img_suffix mask_suffix largest_dimension = (tr, Ok (im, mk)) ->
  (exists raw rows columns ch s,
     imread (img_dir +:+ im_id +:+ img_suffix) = Ok raw
     /\ Np.shape raw = [rows; columns; ch]
     /\ scaled_size largest_dimension (Nat.max rows columns) (Nat.min rows columns)
          = Ok s
     /\ take 2 (Np.shape im)
        = (if (columns <=? rows)%nat
           then [Z.to_nat largest_dimension; Z.to_nat s]
           else [Z.to_nat s; Z.to_nat largest_dimension])
     /\ (forall m, mk = Some m -> take 2 (Np.shape m) = take 2 (Np.shape im)))
  /\ scaled_size 250 400 200 = Ok 125.
Proof.
  intros H. split; [|vm_compute; reflexivity].
  apply resized_inputs_shape in H
    as (raw & rows & columns & ch & s & Hraw & Hs & Hscaled & _ & _ & Him & Hmk).
  by exists raw, rows, columns, ch, s.
Qed.

Lemma resized_dimensions_witness :
  exists (im : ndarray Z) (mk : option (ndarray Z)),
    (exists raw rows columns ch s,
       Sample.imread (Sample.img_dir +:+ "ISIC_0000031" +:+ Sample.img_suffix)
         = Ok raw
       /\ Np.shape raw = [rows; columns; ch]
       /\ scaled_size 250 (Nat.max rows columns) (Nat.min rows columns) = Ok s
       /\ take 2 (Np.shape im)
          = (if (columns <=? rows)%nat
             then [Z.to_nat 250; Z.to_nat s]
             else [Z.to_nat s; Z.to_nat 250])
       /\ (forall m, mk = Some m -> take 2 (Np.shape m) = take 2 (Np.shape im)))
    /\ scaled_size 250 400 200 = Ok 125.
Proof.
  eexists. eexists.
  eapply (resized_dimensions Sample.imread Sample.resize_sample "ISIC_0000031"
            true Sample.img_dir Sample.mask_dir Sample.img_suffix
            Sample.mask_suffix 250).
  reflexivity.
Defined.

(** C6, the claim as stated fails: a square 19 x 19 image with
    largest_dimension = 250 is resized to 250 rows and 249 columns, since
    19.0 * (250 / 19.0) is 249.99999999999997 in binary64, while the
    truncation of 19 * 250 / 19 is 250. *)
Lemma square_image_resized_one_column_short :
  Sample.imread (Sample.img_dir +:+ "ISIC_0000073" +:+ Sample.img_suffix)
    = Ok (Sample.ramp [19; 19; 3]%nat)
  /\ scaled_size 250 19 19 = Ok 249
  /\ spec_scaled_size 250 19 19 = 250
  /\ option_map (fun r => Np.shape r.1)
       (returned (Sample.resized "ISIC_0000073" 250))
     = Some [250; 249; 3]%nat.
Proof.
  split; [reflexivity|]. split; [vm_compute; reflexivity|].
  split; vm_compute; reflexivity.
Qed.

(** C5: in whatever preprocessing_unet returns, channel 3 is the
    lightness plane of the resized image as cv.cvtColor gave it, before
    the in-place equalisation, padded with 255 and divided by 255;
    channels 0 to 2 are the image converted back from the equalised HLS
    image, padded with 255 and divided by 255; channel 4 is the Gaussian
    field: the order is R, G, B, intensity, gaussian. *)
Theorem intensity_channel_precedes_equalization
    (imread : string -> result (ndarray Z))
    (resize_sample : ndarray Z -> nat -> nat -> list nat -> Z)
    (cvt_px : color_code -> Z * Z * Z -> Z * Z * Z)
    (equalize_lut : ndarray Z -> Z -> Z)
    (np_exp np_log : float -> float)
    (im_id : string) (mask_bool : bool)
    (img_dir mask_dir img_suffix mask_suffix : string)
    (largest_dimension desired_size : Z) (tr : list event)
    (im_5ch : ndarray float) (mask : option (ndarray Z)) :
  preprocessing_unet imread resize_sample cvt_px equalize_lut np_exp np_log
    im_id mask_bool img_dir mask_dir img_suffix mask_suffix
    largest_dimension desired_size = (tr, Ok (im_5ch, mask)) ->
  exists tr0 im mk h w ch hsi lightness equalized hsi' rgb,
    resized_inputs imread resize_sample im_id mask_bool img_dir mask_dir
      img_suffix mask_suffix largest_dimension = (tr0, Ok (im, mk))
    /\ Np.shape im = [h; w; ch]
    /\ Cv.cvtColor cvt_px im COLOR_RGB2HLS = Ok hsi
    /\ Np.plane 1 hsi = Ok lightness
    /\ Cv.equalizeHist equalize_lut lightness = Ok equalized
    /\ Np.set_plane 1 hsi equalized = Ok hsi'
    /\ Cv.cvtColor cvt_px hsi' COLOR_HLS2RGB = Ok rgb
    /\ Np.shape im_5ch = [Z.to_nat desired_size; Z.to_nat desired_size; 5%nat]
    /\ channels_in_order np_exp np_log desired_size h w rgb hsi im_5ch.
Proof.
  intros H.
  apply preprocessing_unet_Ok in H as (tr0 & im & mk & tr1 & Hres & Htrans & ->).
  apply transform_resized_Ok in Htrans
    as (h & w & ch & hsi & li & eq & hsi' & rgb & Him & Hhsi & _ & Hli & Heq
        & Hset & Hrgb & _ & _ & _ & _ & Hshape & Hcells).
  exists tr0, im, mk, h, w, ch, hsi, li, eq, hsi', rgb.
  repeat (split; [done|]). exact Hcells.
Qed.

Lemma intensity_channel_precedes_equalization_witness :
  exists tr0 (im : ndarray Z) mk h w ch
         (hsi lightness equalized hsi' rgb : ndarray Z),
    Sample.resized "ISIC_0000031" 250 = (tr0, Ok (im, mk))
    /\ Np.shape im = [h; w; ch]
    /\ Cv.cvtColor Sample.cvt_px im COLOR_RGB2HLS = Ok hsi
    /\ Np.plane 1 hsi = Ok lightness
    /\ Cv.equalizeHist Sample.equalize_lut lightness = Ok equalized
    /\ Np.set_plane 1 hsi equalized = Ok hsi'
    /\ Cv.cvtColor Sample.cvt_px hsi' COLOR_HLS2RGB = Ok rgb
    /\ Np.shape (Sample.output (Sample.preprocess "ISIC_0000031" 250 320)).1
       = [Z.to_nat 320; Z.to_nat 320; 5%nat]
    /\ channels_in_order Sample.np_exp Sample.np_log 320 h w rgb hsi
         (Sample.output (Sample.preprocess "ISIC_0000031" 250 320)).1.
Proof.
  apply (intensity_channel_precedes_equalization Sample.imread
           Sample.resize_sample Sample.cvt_px Sample.equalize_lut
           Sample.np_exp Sample.np_log "ISIC_0000031" true Sample.img_dir
           Sample.mask_dir Sample.img_suffix Sample.mask_suffix 250 320
           (Sample.preprocess "ISIC_0000031" 250 320).1
           (Sample.output (Sample.preprocess "ISIC_0000031" 250 320)).1
           (Sample.output (Sample.preprocess "ISIC_0000031" 250 320)).2).
  reflexivity.
Defined.

Lemma nth_singleton_zero (n : nat) : nth n [0] 0 = 0.
Proof. by destruct n as [|[|n]]. Qed.



(** ** A largest dimension above the desired size *)

Lemma io_bind_trace {A B} (m : io A) (f : A -> io B) :
  exists tr', (io_bind m f).1 = m.1 ++ tr'.
Proof.
  destruct m as [tr [a|e]]; simpl.
  - destruct (f a) as [tr' r]. by exists tr'.
  - exists []. by rewrite app_nil_r.
Qed.

Lemma copyMakeBorder_negative (src : ndarray Z) (top bottom left_ right_ : Z)
    (value : list Z) :
  top < 0 \/ left_ < 0 ->
  exists e, Cv.copyMakeBorder src top bottom left_ right_ value = Raise e.
Proof.
  intros Hneg.
  destruct (Cv.copyMakeBorder src top bottom left_ right_ value) as [out|e] eqn:H;
    [|by exists e].
  apply copyMakeBorder_Ok in H as (Ht & _ & Hl & _). lia.
Qed.

(** One side of the resized image is [largest_dimension], so its border
    is negative when [desired_size] is smaller. *)
Lemma oversized_border_negative
    (imread : string -> result (ndarray Z))
    (resize_sample : ndarray Z -> nat -> nat -> list nat -> Z)
    (im_id : string) (mask_bool : bool)
    (img_dir mask_dir img_suffix mask_suffix : string)
    (largest_dimension desired_size : Z) (tr0 : list event)
    (im : ndarray Z) (mk : option (ndarray Z)) (h w : nat) (rest : list nat) :
  desired_size < largest_dimension ->
  resized_inputs imread resize_sample im_id mask_bool img_dir mask_dir
    img_suffix mask_suffix largest_dimension = (tr0, Ok (im, mk)) ->
  Np.shape im = h :: w :: rest ->
  pad_top (border_sizes desired_size h w) < 0
  \/ pad_left (border_sizes desired_size h w) < 0.
Proof.
  intros HDL Hres Him.
  apply resized_inputs_shape in Hres
    as (raw & rows & columns & ch & s & _ & _ & _ & Hs & HL & Htake & _).
  rewrite Him in Htake. cbn [take] in Htake.
  unfold border_sizes. cbn [pad_top pad_left].
  destruct (columns <=? rows)%nat; injection Htake as -> ->.
  - left. Z.div_mod_to_equations. lia.
  - right. Z.div_mod_to_equations. lia.
Qed.

(** C4, as amended: with largest_dimension > desired_size nothing is
    checked up front.  preprocessing_unet starts by reading the image
    file; when the inputs are read and resized and the image converted to
    HLS, it goes on to call cv.copyMakeBorder with a negative top or left
    border, and that call raises.  No run returns an array. *)
Theorem oversized_largest_dimension_fails_at_padding
    (imread : string -> result (ndarray Z))
    (resize_sample : ndarray Z -> nat -> nat -> list nat -> Z)
    (cvt_px : color_code -> Z * Z * Z -> Z * Z * Z)
    (equalize_lut : ndarray Z -> Z -> Z)
    (np_exp np_log : float -> float)
    (im_id : string) (mask_bool : bool)
    (img_dir mask_dir img_suffix mask_suffix : string)
    (largest_dimension desired_size : Z) :
  desired_size < largest_dimension ->
  let run :=
    preprocessing_unet imread resize_sample cvt_px equalize_lut np_exp np_log
      im_id mask_bool img_dir mask_dir img_suffix mask_suffix
      largest_dimension desired_size in
  returned run = None
  /\ (exists tr', run.1 = EvImread (img_dir +:+ im_id +:+ img_suffix) :: tr')
  /\ forall tr0 im mk hsi,
       resized_inputs imread resize_sample im_id mask_bool img_dir mask_dir
         img_suffix mask_suffix largest_dimension = (tr0, Ok (im, mk)) ->
       Cv.cvtColor cvt_px im COLOR_RGB2HLS = Ok hsi ->
       exists b e,
         run = (tr0 ++ [EvCvtColor COLOR_RGB2HLS;
                        EvCopyMakeBorder (pad_top b) (pad_bottom b)
                          (pad_left b) (pad_right b)],
                Raise e)
         /\ (pad_top b < 0 \/ pad_left b < 0).
Proof.
  intros HDL run. split; [|split].
  - destruct run as [tr [[im_5ch mask]|e]] eqn:Hrun; [|reflexivity].
    exfalso. subst run.
    apply preprocessing_unet_Ok in Hrun as (tr0 & im & mk & tr1 & Hres & Htrans & _).
    apply transform_resized_Ok in Htrans
      as (h & w & ch & ? & ? & ? & ? & ? & Him & _ & _ & _ & _ & _ & _ & _
          & (Ht & _ & Hl & _) & _).
    destruct (oversized_border_negative _ _ _ _ _ _ _ _ _ desired_size
                _ _ _ h w [ch] HDL Hres Him); lia.
  - subst run. unfold preprocessing_unet, resized_inputs, read_inputs.
    match goal with
    | |- exists _, (io_bind (io_bind (io_bind ?c ?f1) ?f2) ?f3).1 = _ =>
        destruct (io_bind_trace (io_bind (io_bind c f1) f2) f3) as [t3 ->];
        destruct (io_bind_trace (io_bind c f1) f2) as [t2 ->];
        destruct (io_bind_trace c f1) as [t1 ->]
    end.
    simpl. by eexists.
  - intros tr0 im mk hsi Hres Hhsi. subst run.
    destruct (cvtColor_Ok _ _ _ _ Hhsi) as (h & w & ch & Him & _ & Hshsi).
    pose proof (oversized_border_negative _ _ _ _ _ _ _ _ _ desired_size
                  _ _ _ h w [ch] HDL Hres Him) as Hneg.
    set (b := border_sizes desired_size h w) in *.
    set (lightness := NdArray [h; w] (fun idx => Np.get hsi (idx ++ [1%nat]))).
    destruct (copyMakeBorder_negative lightness (pad_top b) (pad_bottom b)
                (pad_left b) (pad_right b) [255] Hneg) as [e He].
    exists b, e. split; [|done].
    unfold preprocessing_unet. rewrite Hres. cbn [io_bind fst snd].
    unfold transform_resized, pad. rewrite Hhsi. unfold shape01. rewrite Him.
    cbn [call lift io_bind io_ret app fst snd read_intensity im_hsi
         original_intensity].
    unfold Np.plane at 1. rewrite Hshsi.
    cbn [Nat.ltb Nat.leb call lift io_bind io_ret app fst snd].
    fold lightness. fold b. rewrite He.
    cbn [call lift io_bind io_ret app fst snd]. reflexivity.
Qed.

Lemma oversized_largest_dimension_fails_at_padding_witness :
  let run := Sample.preprocess "ISIC_0000031" 330 320 in
  returned run = None
  /\ (exists tr',
        run.1 = EvImread (Sample.img_dir +:+ "ISIC_0000031" +:+ Sample.img_suffix)
                  :: tr')
  /\ forall tr0 im mk hsi,
       Sample.resized "ISIC_0000031" 330 = (tr0, Ok (im, mk)) ->
       Cv.cvtColor Sample.cvt_px im COLOR_RGB2HLS = Ok hsi ->
       exists b e,
         run = (tr0 ++ [EvCvtColor COLOR_RGB2HLS;
                        EvCopyMakeBorder (pad_top b) (pad_bottom b)
                          (pad_left b) (pad_right b)],
                Raise e)
         /\ (pad_top b < 0 \/ pad_left b < 0).
Proof.
  apply (oversized_largest_dimension_fails_at_padding Sample.imread
           Sample.resize_sample Sample.cvt_px Sample.equalize_lut Sample.np_exp
           Sample.np_log "ISIC_0000031" true Sample.img_dir Sample.mask_dir
           Sample.img_suffix Sample.mask_suffix 330 320).
  lia.
Defined.

(** C4, the claim as stated fails: with largest_dimension = 330 and
    desired_size = 320 the run reads the image and the mask, resizes both
    and converts the image to HLS before the first cv.copyMakeBorder call
    rejects the borders (-5, -5, 77, 78). *)
Lemma oversized_config_is_not_rejected_up_front :
  Sample.preprocess "ISIC_0000031" 330 320
  = ([EvImread "./ISIC2018_Task1-2_Training_Input/ISIC_0000031.jpg";
      EvImread "./ISIC2018_Task1_Training_GroundTruth/ISIC_0000031_segmentation.png";
      EvResize (165, 330); EvResize (165, 330);
      EvCvtColor COLOR_RGB2HLS; EvCopyMakeBorder (-5) (-5) 77 78],
     Raise CvError).
Proof. vm_compute. reflexivity. Qed.

(** ** Further facts *)

(** X11: two returning runs that differ only in the equalisation agree
    on channel 3. *)
Lemma intensity_channel_ignores_equalization
    (imread : string -> result (ndarray Z))
    (resize_sample : ndarray Z -> nat -> nat -> list nat -> Z)
    (cvt_px : color_code -> Z * Z * Z -> Z * Z * Z)
    (lut1 lut2 : ndarray Z -> Z -> Z)
    (np_exp np_log : float -> float)
    (im_id : string) (mask_bool : bool)
    (img_dir mask_dir img_suffix mask_suffix : string)
    (largest_dimension desired_size : Z) (tr1 tr2 : list event)
    (a1 a2 : ndarray float) (m1 m2 : option (ndarray Z)) :
  preprocessing_unet imread resize_sample cvt_px lut1 np_exp np_log
    im_id mask_bool img_dir mask_dir img_suffix mask_suffix
    largest_dimension desired_size = (tr1, Ok (a1, m1)) ->
  preprocessing_unet imread resize_sample cvt_px lut2 np_exp np_log
    im_id mask_bool img_dir mask_dir img_suffix mask_suffix
    largest_dimension desired_size = (tr2, Ok (a2, m2)) ->
  forall i j, Np.get a1 [i; j; 3%nat] = Np.get a2 [i; j; 3%nat].
Proof.
  intros H1 H2 i j.
  apply preprocessing_unet_Ok in H1 as (t1 & im1 & mk1 & t1' & Hr1 & Ht1 & _).
  apply preprocessing_unet_Ok in H2 as (t2 & im2 & mk2 & t2' & Hr2 & Ht2 & _).
  rewrite Hr1 in Hr2. injection Hr2 as <- <- <-.
  apply transform_resized_Ok in Ht1
    as (h & w & ch & hsi & ? & ? & ? & ? & Him & Hhsi & _ & _ & _ & _ & _ & _
        & _ & _ & _ & _ & Hc1).
  apply transform_resized_Ok in Ht2
    as (h' & w' & ch' & hsi2 & ? & ? & ? & ? & Him' & Hhsi' & _ & _ & _ & _ & _ & _
        & _ & _ & _ & _ & Hc2).
  rewrite Him in Him'. injection Him' as <- <- <-.
  rewrite Hhsi in Hhsi'. injection Hhsi' as <-.
  destruct (Hc1 i j) as (_ & -> & _). destruct (Hc2 i j) as (_ & -> & _).
  reflexivity.
Qed.

(** [make_gaussian] returns a [size] by [size] array whose cells are
    [make_gaussian_cell]. *)
Lemma make_gaussian_shape (np_exp np_log : float -> float) (size fwhm : Z) :
  Np.shape (make_gaussian np_exp np_log size fwhm) = [Z.to_nat size; Z.to_nat size]
  /\ forall i j,
       Np.get (make_gaussian np_exp np_log size fwhm) [i; j]
       = make_gaussian_cell np_exp np_log size fwhm i j.
Proof. done. Qed.

(** *** A single id to keep in test *)

Section SingleSpecificId.

Variable rng : Type.
Variable rng_raw : rng -> nat -> nat.
Variable rng_next : rng -> rng.

Lemma enforce_at_single (k : nat) (id : string) (st : partition * rng) :
  enforce_at rng rng_raw rng_next k [id] st
  = enforce_one rng rng_raw rng_next k id st.
Proof. simpl. by destruct (enforce_one _ _ _ _ _ _). Qed.

Lemma same_ids_NoDup (p p' : partition) :
  same_ids p p' -> NoDup (train p ++ test p) -> NoDup (train p' ++ test p').
Proof. intros (Hperm & _ & _) Hnd. by rewrite Hperm. Qed.

(** Once the id is on the test side, nothing moves any more. *)
Lemma enforce_range_settled (ks : list nat) (id : string)
    (st st' : partition * rng) :
  NoDup (train st.1 ++ test st.1) ->
  id ∈ test st.1 ->
  enforce_range rng rng_raw rng_next ks [id] st = Ok st' ->
  st' = st.
Proof.
  intros Hnd Hin. induction ks as [|k ks IH]; cbn [enforce_range]; intros H.
  - by injection H as <-.
  - apply rbind_Ok in H as (st1 & H1 & H).
    rewrite enforce_at_single in H1. unfold enforce_one in H1.
    destruct (train st.1 !! k) as [t|] eqn:Hk; [|discriminate].
    destruct (String.eqb id t) eqn:Heq.
    + apply String.eqb_eq in Heq as <-.
      apply NoDup_app in Hnd as (_ & Hdisj & _).
      apply list_elem_of_lookup_2 in Hk. by destruct (Hdisj id).
    + injection H1 as <-. by apply IH.
Qed.

Lemma enforce_range_single (ks : list nat) (id : string)
    (st st' : partition * rng) :
  NoDup (train st.1 ++ test st.1) ->
  id ∈ train st.1 ++ test st.1 ->
  (forall k, train st.1 !! k = Some id -> k ∈ ks) ->
  enforce_range rng rng_raw rng_next ks [id] st = Ok st' ->
  id ∈ test st'.1.
Proof.
  revert st. induction ks as [|k ks IH]; cbn [enforce_range];
    intros st Hnd Hin Hks H.
  - injection H as <-. apply elem_of_app in Hin as [Hin|Hin]; [|done].
    apply list_elem_of_lookup_1 in Hin as [k Hk].
    apply Hks in Hk. by apply elem_of_nil in Hk.
  - apply rbind_Ok in H as (st1 & H1 & H).
    rewrite enforce_at_single in H1.
    pose proof (enforce_one_same_ids _ _ _ _ _ _ _ H1) as Hsame.
    unfold enforce_one in H1.
    destruct (train st.1 !! k) as [t|] eqn:Hk; [|discriminate].
    destruct (String.eqb id t) eqn:Heq.
    + apply rbind_Ok in H1 as (d & Hd & H1).
      destruct (test st.1 !! d.1) as [v|] eqn:Hr; [|discriminate].
      injection H1 as <-.
      assert (id ∈ <[d.1 := id]> (test st.1)) as Hnow.
      { apply list_elem_of_lookup_2 with d.1.
        apply list_lookup_insert_eq. by eapply lookup_lt_Some. }
      pose proof (same_ids_NoDup _ _ Hsame Hnd) as Hnd1.
      apply (enforce_range_settled ks id _ st' Hnd1 Hnow) in H.
      by subst st'.
    + injection H1 as <-. apply (IH st); try done.
      intros k' Hk'. specialize (Hks k' Hk').
      apply elem_of_cons in Hks as [->|Hks]; [|done].
      rewrite Hk in Hk'. injection Hk' as <-.
      rewrite String.eqb_refl in Heq. discriminate.
Qed.

End SingleSpecificId.

(** X1: with a single id to keep in test and distinct ids, the pass puts
    it there whenever it returns. *)
Lemma single_specific_id_ends_in_test
    (permutation : Z -> nat -> list nat)
    (rng : Type) (rng_raw : rng -> nat -> nat) (rng_next : rng -> rng)
    (list_ids : list string) (train_ratio : float) (id : string) (seed : Z)
    (g g' : rng) (p : partition) :
  (forall seed n, permutation seed n ≡ₚ seq 0 n) ->
  NoDup list_ids ->
  id ∈ list_ids ->
  build_training_set_partition permutation rng rng_raw rng_next
    list_ids train_ratio [id] seed g = Ok (p, g') ->
  id ∈ test p.
Proof.
  intros Hperm Hnodup Hin Hbuild.
  unfold build_training_set_partition in Hbuild.
  apply rbind_Ok in Hbuild as (p0 & Hsplit & Henf).
  pose proof (split_ids_Permutation permutation Hperm _ _ _ _ Hsplit) as Hp0.
  unfold enforce_specific_ids in Henf.
  apply (enforce_range_single rng rng_raw rng_next _ id (p0, g) (p, g')) in Henf;
    simpl; try done.
  - by rewrite Hp0.
  - by rewrite Hp0.
  - intros k Hk. apply elem_of_seq. apply lookup_lt_Some in Hk. lia.
Qed.

(** * More on the split *)

Lemma single_specific_id_ends_in_test_witness :
  "ISIC_0000074"
    ∈ test (Partition ["ISIC_0000060"; "ISIC_0000073"]
                      ["ISIC_0000074"; "ISIC_0000031"]).
Proof.
  apply (single_specific_id_ends_in_test Sample.permutation Sample.rng
           Sample.rng_raw Sample.rng_next Sample.ids4 0.5 "ISIC_0000074" 42
           [0%nat] []).
  - exact sample_permutation_range.
  - apply (bool_decide_unpack _). vm_compute. exact I.
  - apply (bool_decide_unpack _). vm_compute. exact I.
  - vm_compute. reflexivity.
Defined.

Lemma build_training_set_partition_total_witness :
  exists st, Sample.split Sample.ids4 0.5 Sample.specific2 42 [0%nat] = Ok st.
Proof.
  apply (build_training_set_partition_total Sample.permutation Sample.rng
           Sample.rng_raw Sample.rng_next Sample.ids4
           0.5 Sample.specific2 42 [0%nat]
           (Partition ["ISIC_0000074"; "ISIC_0000073"]
                      ["ISIC_0000060"; "ISIC_0000031"])).
  - vm_compute. reflexivity.
  - discriminate.
Defined.

Lemma enforce_range_no_match
    (rng : Type) (rng_raw : rng -> nat -> nat) (rng_next : rng -> rng)
    (ks : list nat) (specific_ids : list string) (st : partition * rng) :
  Forall (fun k => (k < length (train st.1))%nat) ks ->
  (forall id, id ∈ specific_ids -> id ∉ train st.1) ->
  enforce_range rng rng_raw rng_next ks specific_ids st = Ok st.
Proof.
  intros Hks Hnot. induction ks as [|k ks IH]; cbn [enforce_range]; [done|].
  apply Forall_cons in Hks as [Hk Hks].
  destruct (lookup_lt_is_Some_2 _ _ Hk) as [t Ht].
  rewrite (enforce_at_no_match rng rng_raw rng_next k specific_ids st t Ht).
  - simpl. by apply IH.
  - intros Hin. apply (Hnot t Hin). by eapply list_elem_of_lookup_2.
Qed.

(** X3: when the seeded split puts no id of specific_ids on the train
    side, the pass returns the seeded split as it is and draws nothing
    from the process-wide generator. *)
Theorem specific_ids_off_train_keep_seeded_split
    (permutation : Z -> nat -> list nat)
    (rng : Type) (rng_raw : rng -> nat -> nat) (rng_next : rng -> rng)
    (list_ids : list string) (train_ratio : float)
    (specific_ids : list string) (seed : Z) (g : rng) (p0 : partition) :
  split_ids permutation list_ids train_ratio seed = Ok p0 ->
  (forall id, id ∈ specific_ids -> id ∉ train p0) ->
  build_training_set_partition permutation rng rng_raw rng_next
    list_ids train_ratio specific_ids seed g = Ok (p0, g).
Proof.
  intros Hsplit Hnot. unfold build_training_set_partition. rewrite Hsplit.
  simpl. unfold enforce_specific_ids. destruct specific_ids as [|id0 rest]; [done|].
  apply enforce_range_no_match; simpl; [|done].
  apply Forall_forall. intros k Hk%elem_of_seq. lia.
Qed.

Lemma specific_ids_off_train_keep_seeded_split_witness :
  Sample.split Sample.ids4 0.5 ["ISIC_0000060"; "ISIC_0009944"] 42 [7%nat]
  = Ok (Partition ["ISIC_0000074"; "ISIC_0000073"]
                  ["ISIC_0000060"; "ISIC_0000031"], [7%nat]).
Proof.
  apply (specific_ids_off_train_keep_seeded_split Sample.permutation Sample.rng
           Sample.rng_raw Sample.rng_next Sample.ids4 0.5
           ["ISIC_0000060"; "ISIC_0009944"] 42 [7%nat]
           (Partition ["ISIC_0000074"; "ISIC_0000073"]
                      ["ISIC_0000060"; "ISIC_0000031"])).
  - vm_compute. reflexivity.
  - intros id Hin. apply (bool_decide_unpack _).
    apply elem_of_cons in Hin as [->|Hin]; [vm_compute; exact I|].
    apply elem_of_cons in Hin as [->|Hin]; [vm_compute; exact I|].
    by apply elem_of_nil in Hin.
Defined.

Lemma take_indices_length {A} (a : list A) (idx : list nat) (l : list A) :
  Np.take_indices a idx = Ok l -> length l = length idx.
Proof.
  intros H. apply take_indices_Forall2 in H. symmetry.
  by eapply Forall2_length.
Qed.

(** X4: the seeded split cuts the permuted indices at k =
    int(train_ratio * n) as a Python slice does: train holds the ids at
    the indices before the cut (for a negative k, all but the last -k),
    its length is k clipped to 0..n counted from the end when negative,
    and the two sides together have n ids. *)
Theorem split_sizes_follow_cut
    (permutation : Z -> nat -> list nat)
    (list_ids : list string) (train_ratio : float) (seed : Z) (k : Z)
    (p : partition) :
  (forall seed n, permutation seed n ≡ₚ seq 0 n) ->
  train_count train_ratio (length list_ids) = Ok k ->
  split_ids permutation list_ids train_ratio seed = Ok p ->
  let n := Z.of_nat (length list_ids) in
  Z.of_nat (length (train p)) = Z.max 0 (Z.min n (if k <? 0 then n + k else k))
  /\ (length (train p) + length (test p))%nat = length list_ids
  /\ Forall2 (fun i id => list_ids !! i = Some id)
       (Py.slice_to k (permutation seed (length list_ids))) (train p)
  /\ Forall2 (fun i id => list_ids !! i = Some id)
       (Py.slice_from k (permutation seed (length list_ids))) (test p).
Proof.
  intros Hperm Hk Hsplit n. unfold split_ids in Hsplit. rewrite Hk in Hsplit.
  simpl in Hsplit.
  apply rbind_Ok in Hsplit as (tr & Htr & Hsplit).
  apply rbind_Ok in Hsplit as (te & Hte & Hsplit).
  injection Hsplit as <-. simpl.
  pose proof (take_indices_length _ _ _ Htr) as Hltr.
  pose proof (take_indices_length _ _ _ Hte) as Hlte.
  assert (length (permutation seed (length list_ids)) = length list_ids) as Hlen.
  { rewrite Hperm. apply length_seq. }
  split; [|split; [|split]].
  - rewrite Hltr. unfold Py.slice_to. subst n.
    destruct (k <? 0) eqn:Hneg; rewrite length_take, Hlen; lia.
  - rewrite Hltr, Hlte, <- length_app, slice_to_from. exact Hlen.
  - by apply take_indices_Forall2.
  - by apply take_indices_Forall2.
Qed.

Lemma split_sizes_follow_cut_witness :
  let n := Z.of_nat (length Sample.ids4) in
  Z.of_nat (length ["ISIC_0000074"; "ISIC_0000073"; "ISIC_0000060"])
  = Z.max 0 (Z.min n (if -1 <? 0 then n + -1 else -1))
  /\ (length ["ISIC_0000074"; "ISIC_0000073"; "ISIC_0000060"]
      + length ["ISIC_0000031"])%nat = length Sample.ids4
  /\ Forall2 (fun i id => Sample.ids4 !! i = Some id)
       (Py.slice_to (-1) (Sample.permutation 42 (length Sample.ids4)))
       ["ISIC_0000074"; "ISIC_0000073"; "ISIC_0000060"]
  /\ Forall2 (fun i id => Sample.ids4 !! i = Some id)
       (Py.slice_from (-1) (Sample.permutation 42 (length Sample.ids4)))
       ["ISIC_0000031"].
Proof.
  apply (split_sizes_follow_cut Sample.permutation Sample.ids4 (-0.3)%float 42
           (-1)
           (Partition ["ISIC_0000074"; "ISIC_0000073"; "ISIC_0000060"]
                      ["ISIC_0000031"])).
  - exact sample_permutation_range.
  - vm_compute. reflexivity.
  - vm_compute. reflexivity.
Defined.

Lemma count_specific_insert (specific_ids l : list string) (r : nat)
    (v x : string) :
  l !! r = Some v ->
  x ∈ specific_ids ->
  (count_specific specific_ids l <= count_specific specific_ids (<[r := x]> l))%nat.
Proof.
  intros Hr Hx. unfold count_specific.
  rewrite (insert_take_drop l r x) by eauto using lookup_lt_Some.
  rewrite <- (take_drop_middle l r v Hr) at 1.
  rewrite !filter_app, !filter_cons, !length_app.
  destruct (decide (x ∈ specific_ids)); [|done].
  destruct (decide (v ∈ specific_ids)); simpl; lia.
Qed.

Section SpecificCount.

Variable rng : Type.
Variable rng_raw : rng -> nat -> nat.
Variable rng_next : rng -> rng.

Lemma enforce_one_count (specific_ids : list string) (k : nat) (id_ : string)
    (st st' : partition * rng) :
  id_ ∈ specific_ids ->
  enforce_one rng rng_raw rng_next k id_ st = Ok st' ->
  (count_specific specific_ids (test st.1)
   <= count_specific specific_ids (test st'.1))%nat.
Proof.
  intros Hin. unfold enforce_one. intros H.
  destruct (train st.1 !! k) as [t|]; [|discriminate].
  destruct (String.eqb id_ t).
  - apply rbind_Ok in H as (d & _ & H).
    destruct (test st.1 !! d.1) as [v|] eqn:Hr; [|discriminate].
    injection H as <-. simpl. by eapply count_specific_insert.
  - by injection H as <-.
Qed.

Lemma enforce_at_count (specific_ids rest : list string) (k : nat)
    (st st' : partition * rng) :
  (forall x, x ∈ rest -> x ∈ specific_ids) ->
  enforce_at rng rng_raw rng_next k rest st = Ok st' ->
  (count_specific specific_ids (test st.1)
   <= count_specific specific_ids (test st'.1))%nat.
Proof.
  revert st. induction rest as [|id_ rest IH]; cbn [enforce_at]; intros st Hsub H.
  - by injection H as <-.
  - apply rbind_Ok in H as (st1 & H1 & H).
    apply (enforce_one_count specific_ids) in H1; [|apply Hsub; by left].
    apply IH in H; [lia|]. intros x Hx. apply Hsub. by right.
Qed.

Lemma enforce_range_count (specific_ids : list string) (ks : list nat)
    (st st' : partition * rng) :
  enforce_range rng rng_raw rng_next ks specific_ids st = Ok st' ->
  (count_specific specific_ids (test st.1)
   <= count_specific specific_ids (test st'.1))%nat.
Proof.
  revert st. induction ks as [|k ks IH]; cbn [enforce_range]; intros st H.
  - by injection H as <-.
  - apply rbind_Ok in H as (st1 & H1 & H).
    apply (enforce_at_count specific_ids) in H1; [|done].
    apply IH in H. lia.
Qed.

End SpecificCount.

(** X5: the enforcement pass never lowers the number of specific ids on
    the test side: a swap brings one in and sends at most one out. *)
Theorem specific_ids_in_test_never_decrease
    (permutation : Z -> nat -> list nat)
    (rng : Type) (rng_raw : rng -> nat -> nat) (rng_next : rng -> rng)
    (list_ids : list string) (train_ratio : float)
    (specific_ids : list string) (seed : Z) (g g' : rng) (p0 p : partition) :
  split_ids permutation list_ids train_ratio seed = Ok p0 ->
  build_training_set_partition permutation rng rng_raw rng_next
    list_ids train_ratio specific_ids seed g = Ok (p, g') ->
  (count_specific specific_ids (test p0)
   <= count_specific specific_ids (test p))%nat.
Proof.
  intros Hsplit Hbuild. unfold build_training_set_partition in Hbuild.
  rewrite Hsplit in Hbuild. simpl in Hbuild.
  unfold enforce_specific_ids in Hbuild.
  destruct specific_ids as [|id0 rest] eqn:Hs.
  - by injection Hbuild as <- _.
  - rewrite <- Hs in *. by apply enforce_range_count in Hbuild.
Qed.

Lemma specific_ids_in_test_never_decrease_witness :
  (count_specific Sample.specific2 ["ISIC_0000060"; "ISIC_0000031"]
   <= count_specific Sample.specific2 ["ISIC_0000060"; "ISIC_0000074"])%nat.
Proof.
  apply (specific_ids_in_test_never_decrease Sample.permutation Sample.rng
           Sample.rng_raw Sample.rng_next Sample.ids4 0.5 Sample.specific2 42
           [1%nat] []
           (Partition ["ISIC_0000074"; "ISIC_0000073"]
                      ["ISIC_0000060"; "ISIC_0000031"])
           (Partition ["ISIC_0000031"; "ISIC_0000073"]
                      ["ISIC_0000060"; "ISIC_0000074"])).
  - vm_compute. reflexivity.
  - vm_compute. reflexivity.
Defined.

(** * More on the transform *)

(** X6: the two borders of an axis add up to the difference between
    desired_size and the image size, and the second (bottom, right) is the
    first or one more, for a negative difference too. *)
Theorem border_halves_differ_by_at_most_one (desired_size : Z) (h w : nat) :
  let b := border_sizes desired_size h w in
  pad_top b + pad_bottom b = desired_size - Z.of_nat h
  /\ 0 <= pad_bottom b - pad_top b <= 1
  /\ pad_left b + pad_right b = desired_size - Z.of_nat w
  /\ 0 <= pad_right b - pad_left b <= 1.
Proof.
  unfold border_sizes. cbn [pad_top pad_bottom pad_left pad_right].
  Z.div_mod_to_equations. lia.
Qed.

(** X7: whatever preprocessing_unet returns, for any files and any
    configuration, is an array of shape desired_size x desired_size x 5;
    a mask is returned exactly when mask_bool is set, and its first two
    axes are desired_size x desired_size. *)
Theorem returned_array_is_square
    (imread : string -> result (ndarray Z))
    (resize_sample : ndarray Z -> nat -> nat -> list nat -> Z)
    (cvt_px : color_code -> Z * Z * Z -> Z * Z * Z)
    (equalize_lut : ndarray Z -> Z -> Z)
    (np_exp np_log : float -> float)
    (im_id : string) (mask_bool : bool)
    (img_dir mask_dir img_suffix mask_suffix : string)
    (largest_dimension desired_size : Z) (tr : list event)
    (im_5ch : ndarray float) (mask : option (ndarray Z)) :
  preprocessing_unet imread resize_sample cvt_px equalize_lut np_exp np_log
    im_id mask_bool img_dir mask_dir img_suffix mask_suffix
    largest_dimension desired_size = (tr, Ok (im_5ch, mask)) ->
  Np.shape im_5ch = [Z.to_nat desired_size; Z.to_nat desired_size; 5%nat]
  /\ (forall m, mask = Some m ->
        take 2 (Np.shape m) = [Z.to_nat desired_size; Z.to_nat desired_size])
  /\ (mask_bool = true <-> is_Some mask).
Proof. apply preprocessing_unet_returns_square. Qed.

Lemma returned_array_is_square_witness :
  Np.shape (Sample.output (Sample.preprocess_with Sample.equalize_lut
                             "ISIC_0000073" false 250 320)).1
  = [Z.to_nat 320; Z.to_nat 320; 5%nat]
  /\ (forall m,
        (Sample.output (Sample.preprocess_with Sample.equalize_lut
                          "ISIC_0000073" false 250 320)).2 = Some m ->
        take 2 (Np.shape m) = [Z.to_nat 320; Z.to_nat 320])
  /\ (false = true
      <-> is_Some (Sample.output (Sample.preprocess_with Sample.equalize_lut
                                    "ISIC_0000073" false 250 320)).2).
Proof.
  apply (returned_array_is_square Sample.imread Sample.resize_sample
           Sample.cvt_px Sample.equalize_lut Sample.np_exp Sample.np_log
           "ISIC_0000073" false Sample.img_dir Sample.mask_dir Sample.img_suffix
           Sample.mask_suffix 250 320
           (Sample.preprocess_with Sample.equalize_lut "ISIC_0000073" false
              250 320).1).
  reflexivity.
Defined.

(** X8: when the image file cannot be read, preprocessing_unet raises
    the error of that read at once: the mask is not read and nothing is
    resized or converted. *)
Theorem unreadable_image_stops_the_run
    (imread : string -> result (ndarray Z))
    (resize_sample : ndarray Z -> nat -> nat -> list nat -> Z)
    (cvt_px : color_code -> Z * Z * Z -> Z * Z * Z)
    (equalize_lut : ndarray Z -> Z -> Z)
    (np_exp np_log : float -> float)
    (im_id : string) (mask_bool : bool)
    (img_dir mask_dir img_suffix mask_suffix : string)
    (largest_dimension desired_size : Z) (e : exn) :
  imread (img_dir +:+ im_id +:+ img_suffix) = Raise e ->
  preprocessing_unet imread resize_sample cvt_px equalize_lut np_exp np_log
    im_id mask_bool img_dir mask_dir img_suffix mask_suffix
    largest_dimension desired_size
  = ([EvImread (img_dir +:+ im_id +:+ img_suffix)], Raise e).
Proof.
  intros H. unfold preprocessing_unet, resized_inputs, read_inputs.
  rewrite H. reflexivity.
Qed.

Lemma unreadable_image_stops_the_run_witness :
  Sample.preprocess "ISIC_0000099" 250 320
  = ([EvImread (Sample.img_dir +:+ "ISIC_0000099" +:+ Sample.img_suffix)],
     Raise FileNotFoundError).
Proof.
  apply (unreadable_image_stops_the_run Sample.imread Sample.resize_sample
           Sample.cvt_px Sample.equalize_lut Sample.np_exp Sample.np_log
           "ISIC_0000099" true Sample.img_dir Sample.mask_dir Sample.img_suffix
           Sample.mask_suffix 250 320 FileNotFoundError).
  reflexivity.
Defined.

(** X9: when the image is read but the mask file cannot be, the run
    raises the error of the mask read right after the two reads: nothing
    is resized or converted. *)
Theorem unreadable_mask_stops_the_run
    (imread : string -> result (ndarray Z))
    (resize_sample : ndarray Z -> nat -> nat -> list nat -> Z)
    (cvt_px : color_code -> Z * Z * Z -> Z * Z * Z)
    (equalize_lut : ndarray Z -> Z -> Z)
    (np_exp np_log : float -> float)
    (im_id : string)
    (img_dir mask_dir img_suffix mask_suffix : string)
    (largest_dimension desired_size : Z) (raw : ndarray Z) (e : exn) :
  imread (img_dir +:+ im_id +:+ img_suffix) = Ok raw ->
  imread (mask_dir +:+ im_id +:+ mask_suffix) = Raise e ->
  preprocessing_unet imread resize_sample cvt_px equalize_lut np_exp np_log
    im_id true img_dir mask_dir img_suffix mask_suffix
    largest_dimension desired_size
  = ([EvImread (img_dir +:+ im_id +:+ img_suffix);
      EvImread (mask_dir +:+ im_id +:+ mask_suffix)], Raise e).
Proof.
  intros Hraw Hmask. unfold preprocessing_unet, resized_inputs, read_inputs.
  rewrite Hraw, Hmask. reflexivity.
Qed.

Lemma unreadable_mask_stops_the_run_witness :
  Sample.preprocess2 "ISIC_0000166" true 250 320
  = ([EvImread (Sample.img_dir +:+ "ISIC_0000166" +:+ Sample.img_suffix);
      EvImread (Sample.mask_dir +:+ "ISIC_0000166" +:+ Sample.mask_suffix)],
     Raise FileNotFoundError).
Proof.
  apply (unreadable_mask_stops_the_run Sample.imread2 Sample.resize_sample
           Sample.cvt_px Sample.equalize_lut Sample.np_exp Sample.np_log
           "ISIC_0000166" Sample.img_dir Sample.mask_dir Sample.img_suffix
           Sample.mask_suffix 250 320 (Sample.ramp [30; 40; 3]%nat)
           FileNotFoundError).
  - reflexivity.
  - reflexivity.
Defined.

(** X10: an image that does not have exactly three axes (a grey-level
    image) makes the run raise ValueError where the shape is unpacked,
    after the files are read and before anything is resized. *)
Theorem image_without_three_axes_raises
    (imread : string -> result (ndarray Z))
    (resize_sample : ndarray Z -> nat -> nat -> list nat -> Z)
    (cvt_px : color_code -> Z * Z * Z -> Z * Z * Z)
    (equalize_lut : ndarray Z -> Z -> Z)
    (np_exp np_log : float -> float)
    (im_id : string) (mask_bool : bool)
    (img_dir mask_dir img_suffix mask_suffix : string)
    (largest_dimension desired_size : Z) (raw : ndarray Z) :
  imread (img_dir +:+ im_id +:+ img_suffix) = Ok raw ->
  length (Np.shape raw) <> 3%nat ->
  (mask_bool = true ->
   exists raw_mask, imread (mask_dir +:+ im_id +:+ mask_suffix) = Ok raw_mask) ->
  preprocessing_unet imread resize_sample cvt_px equalize_lut np_exp np_log
    im_id mask_bool img_dir mask_dir img_suffix mask_suffix
    largest_dimension desired_size
  = (EvImread (img_dir +:+ im_id +:+ img_suffix)
       :: (if mask_bool
           then [EvImread (mask_dir +:+ im_id +:+ mask_suffix)] else []),
     Raise ValueError).
Proof.
  intros Hraw Hlen Hmask.
  unfold preprocessing_unet, resized_inputs, read_inputs. rewrite Hraw.
  assert (forall mk, resize_inputs resize_sample raw mk largest_dimension
                     = ([], Raise ValueError)) as Hresize.
  { intros mk. unfold resize_inputs.
    by destruct (Np.shape raw) as [|? [|? [|? [|? ?]]]]. }
  destruct mask_bool.
  - destruct (Hmask eq_refl) as [raw_mask ->].
    cbn [call io_bind io_ret app fst snd]. by rewrite Hresize.
  - cbn [call io_bind io_ret app fst snd]. by rewrite Hresize.
Qed.

Lemma image_without_three_axes_raises_witness :
  Sample.preprocess2 "ISIC_0000121" true 250 320
  = ([EvImread (Sample.img_dir +:+ "ISIC_0000121" +:+ Sample.img_suffix);
      EvImread (Sample.mask_dir +:+ "ISIC_0000121" +:+ Sample.mask_suffix)],
     Raise ValueError).
Proof.
  apply (image_without_three_axes_raises Sample.imread2 Sample.resize_sample
           Sample.cvt_px Sample.equalize_lut Sample.np_exp Sample.np_log
           "ISIC_0000121" true Sample.img_dir Sample.mask_dir Sample.img_suffix
           Sample.mask_suffix 250 320 (Sample.ramp [30; 40]%nat)).
  - reflexivity.
  - discriminate.
  - intros _. by exists (Sample.ramp [30; 40]%nat).
Defined.

Lemma intensity_channel_ignores_equalization_witness :
  Np.get (Sample.output (Sample.preprocess_with Sample.equalize_lut
                           "ISIC_0000031" true 250 320)).1 [40; 100; 3]%nat
  = Np.get (Sample.output (Sample.preprocess_with Sample.keep_lut
                             "ISIC_0000031" true 250 320)).1 [40; 100; 3]%nat.
Proof.
  apply (intensity_channel_ignores_equalization Sample.imread
           Sample.resize_sample Sample.cvt_px Sample.equalize_lut Sample.keep_lut
           Sample.np_exp Sample.np_log "ISIC_0000031" true Sample.img_dir
           Sample.mask_dir Sample.img_suffix Sample.mask_suffix 250 320
           (Sample.preprocess_with Sample.equalize_lut "ISIC_0000031" true 250 320).1
           (Sample.preprocess_with Sample.keep_lut "ISIC_0000031" true 250 320).1
           _ _
           (Sample.output (Sample.preprocess_with Sample.equalize_lut
                             "ISIC_0000031" true 250 320)).2
           (Sample.output (Sample.preprocess_with Sample.keep_lut
                             "ISIC_0000031" true 250 320)).2).
  - reflexivity.
  - reflexivity.
Defined.

(** X12: channel 4 of a returned array depends on desired_size alone:
    two returning runs on any two images, with any largest_dimension and
    any OpenCV kernels, agree on it cell by cell. *)
Theorem gaussian_channel_is_the_same_for_every_image
    (imread1 imread2 : string -> result (ndarray Z))
    (resize1 resize2 : ndarray Z -> nat -> nat -> list nat -> Z)
    (cvt1 cvt2 : color_code -> Z * Z * Z -> Z * Z * Z)
    (lut1 lut2 : ndarray Z -> Z -> Z)
    (np_exp np_log : float -> float)
    (id1 id2 : string) (mask_bool1 mask_bool2 : bool)
    (img_dir1 mask_dir1 img_suffix1 mask_suffix1 : string)
    (img_dir2 mask_dir2 img_suffix2 mask_suffix2 : string)
    (largest1 largest2 desired_size : Z) (tr1 tr2 : list event)
    (a1 a2 : ndarray float) (m1 m2 : option (ndarray Z)) :
  preprocessing_unet imread1 resize1 cvt1 lut1 np_exp np_log
    id1 mask_bool1 img_dir1 mask_dir1 img_suffix1 mask_suffix1
    largest1 desired_size = (tr1, Ok (a1, m1)) ->
  preprocessing_unet imread2 resize2 cvt2 lut2 np_exp np_log
    id2 mask_bool2 img_dir2 mask_dir2 img_suffix2 mask_suffix2
    largest2 desired_size = (tr2, Ok (a2, m2)) ->
  forall i j, Np.get a1 [i; j; 4%nat] = Np.get a2 [i; j; 4%nat].
Proof.
  intros H1 H2 i j.
  apply preprocessing_unet_Ok in H1 as (? & ? & ? & ? & _ & Ht1 & _).
  apply preprocessing_unet_Ok in H2 as (? & ? & ? & ? & _ & Ht2 & _).
  apply transform_resized_Ok in Ht1
    as (? & ? & ? & ? & ? & ? & ? & ? & _ & _ & _ & _ & _ & _ & _ & _
        & _ & _ & _ & _ & Hc1).
  apply transform_resized_Ok in Ht2
    as (? & ? & ? & ? & ? & ? & ? & ? & _ & _ & _ & _ & _ & _ & _ & _
        & _ & _ & _ & _ & Hc2).
  destruct (Hc1 i j) as (_ & _ & ->). destruct (Hc2 i j) as (_ & _ & ->).
  reflexivity.
Qed.

Lemma gaussian_channel_is_the_same_for_every_image_witness :
  Np.get (Sample.output (Sample.preprocess_with Sample.equalize_lut
                           "ISIC_0000031" true 250 320)).1 [12; 300; 4]%nat
  = Np.get (Sample.output (Sample.preprocess_with Sample.keep_lut
                             "ISIC_0000073" false 200 320)).1 [12; 300; 4]%nat.
Proof.
  apply (gaussian_channel_is_the_same_for_every_image
           Sample.imread Sample.imread Sample.resize_sample Sample.resize_sample
           Sample.cvt_px Sample.cvt_px Sample.equalize_lut Sample.keep_lut
           Sample.np_exp Sample.np_log "ISIC_0000031" "ISIC_0000073" true false
           Sample.img_dir Sample.mask_dir Sample.img_suffix Sample.mask_suffix
           Sample.img_dir Sample.mask_dir Sample.img_suffix Sample.mask_suffix
           250 200 320
           (Sample.preprocess_with Sample.equalize_lut "ISIC_0000031" true 250 320).1
           (Sample.preprocess_with Sample.keep_lut "ISIC_0000073" false 200 320).1
           _ _
           (Sample.output (Sample.preprocess_with Sample.equalize_lut
                             "ISIC_0000031" true 250 320)).2
           (Sample.output (Sample.preprocess_with Sample.keep_lut
                             "ISIC_0000073" false 200 320)).2).
  - reflexivity.
  - reflexivity.
Defined.

(** X13: the array preprocessing_unet returns depends neither on the
    mask file nor on mask_bool: two returning runs on the same image that
    differ only in mask_bool, mask_dir and mask_suffix agree on all five
    channels, cell by cell. *)
Theorem returned_image_ignores_the_mask
    (imread : string -> result (ndarray Z))
    (resize_sample : ndarray Z -> nat -> nat -> list nat -> Z)
    (cvt_px : color_code -> Z * Z * Z -> Z * Z * Z)
    (equalize_lut : ndarray Z -> Z -> Z)
    (np_exp np_log : float -> float)
    (im_id : string) (mask_bool1 mask_bool2 : bool)
    (img_dir img_suffix mask_dir1 mask_suffix1 mask_dir2 mask_suffix2 : string)
    (largest_dimension desired_size : Z) (tr1 tr2 : list event)
    (a1 a2 : ndarray float) (m1 m2 : option (ndarray Z)) :
  preprocessing_unet imread resize_sample cvt_px equalize_lut np_exp np_log
    im_id mask_bool1 img_dir mask_dir1 img_suffix mask_suffix1
    largest_dimension desired_size = (tr1, Ok (a1, m1)) ->
  preprocessing_unet imread resize_sample cvt_px equalize_lut np_exp np_log
    im_id mask_bool2 img_dir mask_dir2 img_suffix mask_suffix2
    largest_dimension desired_size = (tr2, Ok (a2, m2)) ->
  forall i j n, (n < 5)%nat -> Np.get a1 [i; j; n] = Np.get a2 [i; j; n].
Proof.
  intros H1 H2 i j n Hn.
  apply preprocessing_unet_Ok in H1 as (t1 & im1 & mk1 & t1' & Hr1 & Ht1 & _).
  apply preprocessing_unet_Ok in H2 as (t2 & im2 & mk2 & t2' & Hr2 & Ht2 & _).
  apply resized_inputs_Ok in Hr1
    as (raw & rows & columns & ch & s & Hraw & Hs & Hsc & Him & _ & _).
  apply resized_inputs_Ok in Hr2
    as (raw' & rows' & columns' & ch' & s' & Hraw' & Hs' & Hsc' & Him' & _ & _).
  cbv zeta in *.
  rewrite Hraw in Hraw'. injection Hraw' as <-.
  rewrite Hs in Hs'. injection Hs' as <- <- <-.
  rewrite Hsc in Hsc'. injection Hsc' as <-.
  rewrite Him in Him'. injection Him' as <-.
  apply transform_resized_Ok in Ht1
    as (h & w & c & hsi & li & eq & hsi' & rgb & Hsh & Hhsi & _ & Hli & Heq
        & Hset & Hrgb & _ & _ & _ & _ & _ & Hc1).
  apply transform_resized_Ok in Ht2
    as (h2 & w2 & c2 & hsi2 & li2 & eq2 & hsi2' & rgb2 & Hsh2 & Hhsi2 & _ & Hli2
        & Heq2 & Hset2 & Hrgb2 & _ & _ & _ & _ & _ & Hc2).
  rewrite Hsh in Hsh2. injection Hsh2 as <- <- <-.
  rewrite Hhsi in Hhsi2. injection Hhsi2 as <-.
  rewrite Hli in Hli2. injection Hli2 as <-.
  rewrite Heq in Heq2. injection Heq2 as <-.
  rewrite Hset in Hset2. injection Hset2 as <-.
  rewrite Hrgb in Hrgb2. injection Hrgb2 as <-.
  destruct (Hc1 i j) as (Ha & Hb & Hc). destruct (Hc2 i j) as (Ha' & Hb' & Hc').
  destruct (decide (n < 3)%nat) as [Hlt|Hge].
  - by rewrite Ha, Ha'.
  - destruct (decide (n = 3%nat)) as [->|Hne]; [by rewrite Hb, Hb'|].
    assert (n = 4%nat) as -> by lia. by rewrite Hc, Hc'.
Qed.

Lemma returned_image_ignores_the_mask_witness :
  Np.get (Sample.output (Sample.preprocess_with Sample.equalize_lut
                           "ISIC_0000031" true 250 320)).1 [40; 100; 1]%nat
  = Np.get (Sample.output (Sample.preprocess_with Sample.equalize_lut
                             "ISIC_0000031" false 250 320)).1 [40; 100; 1]%nat.
Proof.
  apply (returned_image_ignores_the_mask Sample.imread Sample.resize_sample
           Sample.cvt_px Sample.equalize_lut Sample.np_exp Sample.np_log
           "ISIC_0000031" true false Sample.img_dir Sample.img_suffix
           Sample.mask_dir Sample.mask_suffix Sample.mask_dir Sample.mask_suffix
           250 320
           (Sample.preprocess_with Sample.equalize_lut "ISIC_0000031" true 250 320).1
           (Sample.preprocess_with Sample.equalize_lut "ISIC_0000031" false 250 320).1
           _ _
           (Sample.output (Sample.preprocess_with Sample.equalize_lut
                             "ISIC_0000031" true 250 320)).2
           (Sample.output (Sample.preprocess_with Sample.equalize_lut
                             "ISIC_0000031" false 250 320)).2).
  - reflexivity.
  - reflexivity.
  - lia.
Defined.

(** X14: the mask preprocessing_unet returns is the resized mask laid at
    the same offsets as the image channels: on the image area its cell
    (i, j) is the resized mask's cell (i - top, j - left), elsewhere it is
    0. *)
Theorem returned_mask_is_aligned_with_image
    (imread : string -> result (ndarray Z))
    (resize_sample : ndarray Z -> nat -> nat -> list nat -> Z)
    (cvt_px : color_code -> Z * Z * Z -> Z * Z * Z)
    (equalize_lut : ndarray Z -> Z -> Z)
    (np_exp np_log : float -> float)
    (im_id : string) (mask_bool : bool)
    (img_dir mask_dir img_suffix mask_suffix : string)
    (largest_dimension desired_size : Z) (tr : list event)
    (im_5ch : ndarray float) (mask : ndarray Z) :
  preprocessing_unet imread resize_sample cvt_px equalize_lut np_exp np_log
    im_id mask_bool img_dir mask_dir img_suffix mask_suffix
    largest_dimension desired_size = (tr, Ok (im_5ch, Some mask)) ->
  exists tr0 im resized_mask h w ch,
    let b := border_sizes desired_size h w in
    resized_inputs imread resize_sample im_id mask_bool img_dir mask_dir
      img_suffix mask_suffix largest_dimension
      = (tr0, Ok (im, Some resized_mask))
    /\ Np.shape im = [h; w; ch]
    /\ take 2 (Np.shape resized_mask) = [h; w]
    /\ forall i j ns,
         Np.get mask (i :: j :: ns)
         = if on_image (pad_top b) (pad_left b) h w i j
           then Np.get (Cv.mat_of resized_mask)
                  ((i - Z.to_nat (pad_top b))%nat
                     :: (j - Z.to_nat (pad_left b))%nat :: ns)
           else 0.
Proof.
  intros H.
  apply preprocessing_unet_Ok in H as (tr0 & im & mk & tr1 & Hres & Htrans & _).
  pose proof (resized_inputs_shape _ _ _ _ _ _ _ _ _ _ _ _ Hres)
    as (raw & rows & columns & ch0 & s & _ & _ & _ & _ & _ & _ & Hmk2).
  apply transform_resized_Ok in Htrans
    as (h & w & ch & ? & ? & ? & ? & ? & Him & _ & _ & _ & _ & _ & _ & _
        & _ & _ & Hmask & _).
  destruct mk as [m0|]; [|discriminate].
  destruct Hmask as (m' & Hm' & Hpad). injection Hm' as <-.
  apply copyMakeBorder_Ok in Hpad
    as (_ & _ & _ & _ & r & k & rest & Hsm & _ & Hget).
  pose proof (mat_of_shape01 m0) as H01.
  rewrite Hsm, (Hmk2 m0 eq_refl), Him in H01. cbn [take] in H01.
  injection H01 as -> ->.
  exists tr0, im, m0, h, w, ch. cbv zeta.
  split; [done|]. split; [done|].
  split; [by rewrite (Hmk2 m0 eq_refl), Him|].
  intros i j ns. rewrite Hget.
  destruct (on_image _ _ _ _ _ _); [done|]. apply nth_singleton_zero.
Qed.

Lemma returned_mask_is_aligned_with_image_witness :
  exists tr0 (im resized_mask : ndarray Z) h w ch,
    let b := border_sizes 320 h w in
    Sample.resized "ISIC_0000031" 250 = (tr0, Ok (im, Some resized_mask))
    /\ Np.shape im = [h; w; ch]
    /\ take 2 (Np.shape resized_mask) = [h; w]
    /\ forall i j ns,
         Np.get (Sample.output_mask (Sample.preprocess "ISIC_0000031" 250 320))
           (i :: j :: ns)
         = if on_image (pad_top b) (pad_left b) h w i j
           then Np.get (Cv.mat_of resized_mask)
                  ((i - Z.to_nat (pad_top b))%nat
                     :: (j - Z.to_nat (pad_left b))%nat :: ns)
           else 0.
Proof.
  apply (returned_mask_is_aligned_with_image Sample.imread Sample.resize_sample
           Sample.cvt_px Sample.equalize_lut Sample.np_exp Sample.np_log
           "ISIC_0000031" true Sample.img_dir Sample.mask_dir Sample.img_suffix
           Sample.mask_suffix 250 320
           (Sample.preprocess "ISIC_0000031" 250 320).1
           (Sample.output (Sample.preprocess "ISIC_0000031" 250 320)).1).
  reflexivity.
Defined.

Lemma cvtColor_cells (cvt_px : color_code -> Z * Z * Z -> Z * Z * Z)
    (src out : ndarray Z) (code : color_code) :
  yields_uint8 cvt_px ->
  Cv.cvtColor cvt_px src code = Ok out ->
  forall i j n, 0 <= Np.get out [i; j; n] <= 255.
Proof.
  intros H8. unfold Cv.cvtColor.
  destruct (Np.shape (Cv.mat_of src)) as [|r [|k [|ch [|x rest]]]]; try discriminate.
  destruct (bool_decide _); [|discriminate].
  intros H i j n. injection H as <-. cbn [Np.get].
  match goal with
  | |- context [cvt_px code ?p] =>
      destruct (H8 code p) as (Ha & Hb & Hc);
      destruct (cvt_px code p) as [[a b] c]
  end.
  simpl in Ha, Hb, Hc. by destruct n as [|[|n]].
Qed.

Lemma uint8_over_255_in_unit_interval (v : Z) :
  0 <= v <= 255 ->
  in_unit_interval (Np.float64 v / Np.float64 255) = true.
Proof.
  intros Hv.
  assert (forallb (fun k => in_unit_interval
                              (Np.float64 (Z.of_nat k) / Np.float64 255))
            (seq 0 256) = true) as Hall by (vm_compute; reflexivity).
  rewrite forallb_forall in Hall.
  rewrite <- (Z2Nat.id v) by lia. apply Hall.
  apply in_seq. lia.
Qed.

(** X15: when cv.cvtColor yields 8-bit values, every cell of channels 0
    to 3 of a returned array is a binary64 number between 0.0 and 1.0. *)
Theorem image_channels_lie_in_unit_interval
    (imread : string -> result (ndarray Z))
    (resize_sample : ndarray Z -> nat -> nat -> list nat -> Z)
    (cvt_px : color_code -> Z * Z * Z -> Z * Z * Z)
    (equalize_lut : ndarray Z -> Z -> Z)
    (np_exp np_log : float -> float)
    (im_id : string) (mask_bool : bool)
    (img_dir mask_dir img_suffix mask_suffix : string)
    (largest_dimension desired_size : Z) (tr : list event)
    (im_5ch : ndarray float) (mask : option (ndarray Z)) (i j n : nat) :
  yields_uint8 cvt_px ->
  preprocessing_unet imread resize_sample cvt_px equalize_lut np_exp np_log
    im_id mask_bool img_dir mask_dir img_suffix mask_suffix
    largest_dimension desired_size = (tr, Ok (im_5ch, mask)) ->
  (n <= 3)%nat ->
  in_unit_interval (Np.get im_5ch [i; j; n]) = true.
Proof.
  intros H8 H Hn.
  apply preprocessing_unet_Ok in H as (? & im & mk & ? & _ & Htrans & _).
  apply transform_resized_Ok in Htrans
    as (h & w & c & hsi & li & eq & hsi' & rgb & _ & Hhsi & _ & _ & _
        & _ & Hrgb & _ & _ & _ & _ & _ & Hcells).
  destruct (Hcells i j) as (Ha & Hb & _). cbv zeta in Ha, Hb.
  pose proof (cvtColor_cells cvt_px _ _ _ H8 Hhsi) as Hr1.
  pose proof (cvtColor_cells cvt_px _ _ _ H8 Hrgb) as Hr2.
  destruct (decide (n = 3%nat)) as [->|Hne].
  - rewrite Hb. apply uint8_over_255_in_unit_interval.
    destruct (on_image _ _ _ _ _ _); [apply Hr1|lia].
  - rewrite Ha by lia. apply uint8_over_255_in_unit_interval.
    destruct (on_image _ _ _ _ _ _); [apply Hr2|lia].
Qed.

Lemma sample_cvt_px8_yields_uint8 : yields_uint8 Sample.cvt_px8.
Proof.
  intros code p. unfold Sample.cvt_px8.
  destruct (Sample.cvt_px code p) as [[a b] c]. unfold Sample.clamp8. simpl. lia.
Qed.

Lemma image_channels_lie_in_unit_interval_witness :
  in_unit_interval
    (Np.get (Sample.output (Sample.preprocess8 "ISIC_0000031" 250 320)).1
       [40; 100; 2]%nat) = true.
Proof.
  apply (image_channels_lie_in_unit_interval Sample.imread Sample.resize_sample
           Sample.cvt_px8 Sample.equalize_lut Sample.np_exp Sample.np_log
           "ISIC_0000031" true Sample.img_dir Sample.mask_dir Sample.img_suffix
           Sample.mask_suffix 250 320
           (Sample.preprocess8 "ISIC_0000031" 250 320).1
           (Sample.output (Sample.preprocess8 "ISIC_0000031" 250 320)).1
           (Sample.output (Sample.preprocess8 "ISIC_0000031" 250 320)).2).
  - exact sample_cvt_px8_yields_uint8.
  - reflexivity.
  - lia.
Defined.

(** * The ids read from the image folder *)

Lemma prefix_refl (s : string) : String.prefix s s = true.
Proof.
  induction s as [|a s IH]; simpl; [done|].
  by destruct (Ascii.ascii_dec a a).
Qed.

Lemma prefix_app (s t : string) : String.prefix s (s +:+ t) = true.
Proof.
  induction s as [|a s IH]; simpl; [by destruct t|].
  by destruct (Ascii.ascii_dec a a).
Qed.

Lemma string_app_cons (a : Ascii.ascii) (s t : string) :
  String a s +:+ t = String a (s +:+ t).
Proof. reflexivity. Qed.

Lemma string_length_app (s t : string) :
  String.length (s +:+ t) = (String.length s + String.length t)%nat.
Proof.
  induction s as [|a s IH]; [done|].
  rewrite string_app_cons. simpl. by rewrite IH.
Qed.

Lemma replace_drop_skip (old s1 s2 : string) :
  Str.replace_drop old (String.length s1) (s1 +:+ s2) = Str.replace_drop old 0 s2.
Proof.
  induction s1 as [|a s1 IH]; [done|].
  rewrite string_app_cons. simpl. exact IH.
Qed.

Lemma replace_drop_all (old s : string) :
  Str.replace_drop old (String.length s) s = EmptyString.
Proof. induction s as [|a s IH]; simpl; done. Qed.

Lemma replace_drop_match (c : Ascii.ascii) (tail s : string) :
  Str.replace_drop (String c tail) 0 (String c tail +:+ s)
  = Str.replace_drop (String c tail) 0 s.
Proof.
  rewrite string_app_cons at 1. cbn [Str.replace_drop].
  rewrite <- string_app_cons, prefix_app.
  replace (String.length (String c tail) - 1)%nat with (String.length tail)
    by (simpl; lia).
  apply replace_drop_skip.
Qed.

Lemma replace_drop_other (c a : Ascii.ascii) (tail s : string) :
  a <> c ->
  Str.replace_drop (String c tail) 0 (String a s)
  = String a (Str.replace_drop (String c tail) 0 s).
Proof.
  intros Hne. cbn [Str.replace_drop String.prefix].
  destruct (Ascii.ascii_dec c a); [congruence|done].
Qed.

Lemma replace_drop_stem (c : Ascii.ascii) (tail id rest : string) :
  ~ In c (String.list_ascii_of_string id) ->
  Str.replace_drop (String c tail) 0 (id +:+ rest)
  = id +:+ Str.replace_drop (String c tail) 0 rest.
Proof.
  induction id as [|a id IH]; intros Hnot; [done|].
  rewrite !string_app_cons. rewrite replace_drop_other.
  - rewrite IH; [done|]. intros Hin. apply Hnot. by right.
  - intros ->. apply Hnot. by left.
Qed.

Lemma string_app_empty (s : string) : s +:+ EmptyString = s.
Proof.
  induction s as [|a s IH]; [done|]. rewrite string_app_cons. by rewrite IH.
Qed.

(** X16: for a file named id + img_suffix whose id does not hold the
    first character of img_suffix, the id list gets back id, and the path
    preprocessing_unet reads, img_dir + id + img_suffix, is the listed
    file's. *)
Theorem listed_image_name_gives_back_its_id
    (c : Ascii.ascii) (suffix_tail id img_dir : string) :
  let img_suffix := String c suffix_tail in
  ~ In c (String.list_ascii_of_string id) ->
  Str.replace_with_empty img_suffix (id +:+ img_suffix) = id
  /\ img_dir +:+ Str.replace_with_empty img_suffix (id +:+ img_suffix)
       +:+ img_suffix
     = img_dir +:+ (id +:+ img_suffix).
Proof.
  intros img_suffix Hnot.
  assert (Str.replace_with_empty img_suffix (id +:+ img_suffix) = id) as Hid.
  { unfold Str.replace_with_empty, img_suffix.
    rewrite replace_drop_stem by done.
    rewrite <- (string_app_empty (String c suffix_tail)) at 2.
    rewrite replace_drop_match. simpl. apply string_app_empty. }
  split; [done|]. by rewrite Hid.
Qed.

Lemma listed_image_name_gives_back_its_id_witness :
  Str.replace_with_empty ".jpg" ("ISIC_0000031" +:+ ".jpg") = "ISIC_0000031"
  /\ Sample.img_dir +:+ Str.replace_with_empty ".jpg" ("ISIC_0000031" +:+ ".jpg")
       +:+ ".jpg"
     = Sample.img_dir +:+ ("ISIC_0000031" +:+ ".jpg").
Proof.
  apply (listed_image_name_gives_back_its_id (Ascii.ascii_of_nat 46) "jpg"
           "ISIC_0000031" Sample.img_dir).
  vm_compute. intuition discriminate.
Defined.

(** X17: str.replace removes every occurrence of img_suffix, not only the
    trailing one: a file whose name ends in the suffix twice gets the same
    id as the file that ends in it once, so two listed files can share an
    id. *)
Theorem doubled_suffix_collides
    (c : Ascii.ascii) (suffix_tail id : string) :
  let img_suffix := String c suffix_tail in
  ~ In c (String.list_ascii_of_string id) ->
  id +:+ img_suffix <> id +:+ img_suffix +:+ img_suffix
  /\ Str.replace_with_empty img_suffix (id +:+ img_suffix +:+ img_suffix)
     = Str.replace_with_empty img_suffix (id +:+ img_suffix).
Proof.
  intros img_suffix Hnot. split.
  - intros Heq. apply (f_equal String.length) in Heq.
    rewrite !string_length_app in Heq. unfold img_suffix in Heq.
    simpl in Heq. lia.
  - unfold Str.replace_with_empty, img_suffix.
    rewrite (replace_drop_stem c suffix_tail id (String c suffix_tail)) by done.
    rewrite replace_drop_stem by done. f_equal.
    apply replace_drop_match.
Qed.

Lemma doubled_suffix_collides_witness :
  "ISIC_0000031" +:+ ".jpg" <> "ISIC_0000031" +:+ ".jpg" +:+ ".jpg"
  /\ Str.replace_with_empty ".jpg" ("ISIC_0000031" +:+ ".jpg" +:+ ".jpg")
     = Str.replace_with_empty ".jpg" ("ISIC_0000031" +:+ ".jpg").
Proof.
  apply (doubled_suffix_collides (Ascii.ascii_of_nat 46) "jpg" "ISIC_0000031").
  vm_compute. intuition discriminate.
Defined.

(** ** The names taken for images *)

Lemma filter_other_absent (x : string) (l : list string) :
  x ∉ l -> filter (fun y => y <> x) l = l.
Proof.
  induction l as [|y l IH]; intros Hx; [done|].
  apply not_elem_of_cons in Hx as [Hne Hx].
  rewrite filter_cons_True by done. by rewrite IH.
Qed.

Lemma list_remove_filter (x : string) (l : list string) :
  NoDup l -> x ∈ l -> list_remove x l = filter (fun y => y <> x) l.
Proof.
  induction l as [|y l IH]; intros Hnd Hin; [done|].
  apply NoDup_cons in Hnd as [Hy Hnd]. simpl.
  destruct (String.eqb x y) eqn:Heq.
  - apply String.eqb_eq in Heq as ->.
    rewrite filter_cons_False by (intros H; by apply H).
    by rewrite filter_other_absent.
  - apply String.eqb_neq in Heq.
    rewrite filter_cons_True by congruence.
    apply elem_of_cons in Hin as [->|Hin]; [done|]. by rewrite IH.
Qed.

Lemma remove_if_present_filter (x : string) (l : list string) :
  NoDup l -> remove_if_present x l = filter (fun y => y <> x) l.
Proof.
  intros Hnd. unfold remove_if_present. case_bool_decide as Hin.
  - by apply list_remove_filter.
  - by rewrite filter_other_absent.
Qed.

Lemma ids_of_listing_image_names (listing : list string) (img_suffix : string) :
  NoDup listing ->
  ids_of_listing listing img_suffix
  = map (Str.replace_with_empty img_suffix) (image_names listing).
Proof.
  intros Hnd. unfold ids_of_listing, image_names.
  rewrite (remove_if_present_filter "LICENSE.txt") by done.
  rewrite remove_if_present_filter by by apply NoDup_filter.
  rewrite list_filter_filter. f_equal.
  apply list_filter_iff. intros name. tauto.
Qed.

(** X18: for a listing without repeated names, as os.listdir returns them,
    the ids are the listed names other than LICENSE.txt and ATTRIBUTION.txt,
    in the order of the listing, each without its occurrences of
    img_suffix; any other file of the folder is taken for an image. *)
Theorem ids_are_the_names_but_the_two_text_files
    (listing : list string) (img_suffix : string) :
  NoDup listing ->
  ids_of_listing listing img_suffix
  = map (Str.replace_with_empty img_suffix) (image_names listing)
  /\ (forall name, name ∈ listing ->
        name <> "LICENSE.txt" -> name <> "ATTRIBUTION.txt" ->
        Str.replace_with_empty img_suffix name ∈ ids_of_listing listing img_suffix).
Proof.
  intros Hnd. rewrite ids_of_listing_image_names by done. split; [done|].
  intros name Hin H1 H2. apply list_elem_of_fmap_2.
  unfold image_names. apply list_elem_of_filter. done.
Qed.

Lemma ids_are_the_names_but_the_two_text_files_witness :
  ids_of_listing
    ["ISIC_0000031.jpg"; "LICENSE.txt"; "Thumbs.db"; "ATTRIBUTION.txt"] ".jpg"
  = map (Str.replace_with_empty ".jpg")
      (image_names
         ["ISIC_0000031.jpg"; "LICENSE.txt"; "Thumbs.db"; "ATTRIBUTION.txt"])
  /\ (forall name,
        name ∈ ["ISIC_0000031.jpg"; "LICENSE.txt"; "Thumbs.db"; "ATTRIBUTION.txt"] ->
        name <> "LICENSE.txt" -> name <> "ATTRIBUTION.txt" ->
        Str.replace_with_empty ".jpg" name
          ∈ ids_of_listing
              ["ISIC_0000031.jpg"; "LICENSE.txt"; "Thumbs.db"; "ATTRIBUTION.txt"]
              ".jpg").
Proof.
  apply (ids_are_the_names_but_the_two_text_files
           ["ISIC_0000031.jpg"; "LICENSE.txt"; "Thumbs.db"; "ATTRIBUTION.txt"]
           ".jpg").
  apply (bool_decide_unpack _). vm_compute. exact I.
Defined.

(** * Writing the data set *)

Lemma build_bind_fst_Ok {A B} (m : build A) (f : A -> build B) (a : A) :
  m.2 = Ok a ->
  (build_bind m f).1 = m.1 ++ (f a).1 /\ (build_bind m f).2 = (f a).2.
Proof.
  destruct m as [tr r]. simpl. intros ->. by destruct (f a).
Qed.

Lemma build_bind_Raise {A B} (m : build A) (f : A -> build B) (e : exn) :
  m.2 = Raise e ->
  (build_bind m f).1 = m.1 /\ (build_bind m f).2 = Raise e.
Proof. destruct m as [tr r]. simpl. by intros ->. Qed.

Lemma build_bind_Ok {A B} (m : build A) (f : A -> build B) (b : B) :
  (build_bind m f).2 = Ok b ->
  exists a, m.2 = Ok a /\ (f a).2 = Ok b
            /\ (build_bind m f).1 = m.1 ++ (f a).1.
Proof.
  destruct m as [tr [a|e]]; simpl; [|discriminate].
  destruct (f a) as [tr' r] eqn:Hf. simpl. intros ->.
  exists a. by rewrite Hf.
Qed.

Lemma saved_paths_app (tr tr' : list build_event) :
  saved_paths (tr ++ tr') = saved_paths tr ++ saved_paths tr'.
Proof.
  induction tr as [|[e|path what] tr IH]; simpl; [done|done|by rewrite IH].
Qed.

Lemma saved_paths_Called (tr : list event) : saved_paths (map Called tr) = [].
Proof. induction tr as [|e tr IH]; simpl; done. Qed.

Section BuilderFacts.

Variable imread : string -> result (ndarray Z).
Variable resize_sample : ndarray Z -> nat -> nat -> list nat -> Z.
Variable cvt_px : color_code -> Z * Z * Z -> Z * Z * Z.
Variable equalize_lut : ndarray Z -> Z -> Z.
Variable np_exp : float -> float.
Variable np_log : float -> float.
Variable imsave : string -> saved -> result unit.
Variable output_path img_dir mask_dir img_suffix mask_suffix : string.
Variable largest_dimension desired_size : Z.

Local Notation "'transform'" :=
  (transform_pair imread resize_sample cvt_px equalize_lut np_exp np_log
     img_dir mask_dir img_suffix mask_suffix largest_dimension desired_size).
Local Notation "'wtrain'" :=
  (write_train imread resize_sample cvt_px equalize_lut np_exp np_log imsave
     output_path img_dir mask_dir img_suffix mask_suffix largest_dimension
     desired_size).
Local Notation "'wtest'" :=
  (write_test imread resize_sample cvt_px equalize_lut np_exp np_log imsave
     output_path img_dir mask_dir img_suffix mask_suffix largest_dimension
     desired_size).
Local Notation "'wpartition'" :=
  (write_partition imread resize_sample cvt_px equalize_lut np_exp np_log imsave
     output_path img_dir mask_dir img_suffix mask_suffix largest_dimension
     desired_size).

Lemma transform_pair_saves_nothing (id : string) :
  saved_paths (transform id).1 = [].
Proof.
  unfold transform_pair, run_io.
  destruct (preprocessing_unet _ _ _ _ _ _ _ _ _ _ _ _ _ _) as [tr [[im [mk|]]|e]];
    simpl; rewrite ?app_nil_r; apply saved_paths_Called.
Qed.

Lemma transform_pair_Raise (id : string) (e : exn) :
  (preprocessing_unet imread resize_sample cvt_px equalize_lut np_exp np_log
     id true img_dir mask_dir img_suffix mask_suffix largest_dimension
     desired_size).2 = Raise e ->
  (transform id).2 = Raise e.
Proof.
  unfold transform_pair, run_io.
  destruct (preprocessing_unet _ _ _ _ _ _ _ _ _ _ _ _ _ _) as [tr r].
  simpl. by intros ->.
Qed.

Lemma transform_pair_Ok (id : string) (pair : ndarray float * ndarray Z) :
  (transform id).2 = Ok pair ->
  (preprocessing_unet imread resize_sample cvt_px equalize_lut np_exp np_log
     id true img_dir mask_dir img_suffix mask_suffix largest_dimension
     desired_size).2 = Ok (pair.1, Some pair.2).
Proof.
  unfold transform_pair, run_io.
  destruct (preprocessing_unet _ _ _ _ _ _ _ _ _ _ _ _ _ _) as [tr [[im [mk|]]|e]];
    simpl; [|discriminate|discriminate].
  intros H. by injection H as <-.
Qed.

Lemma save_bind_Ok {B} (path : string) (what : saved) (k : build B) (b : B) :
  (build_bind (save imsave path what) (fun _ => k)).2 = Ok b ->
  k.2 = Ok b
  /\ (build_bind (save imsave path what) (fun _ => k)).1
     = Saved path what :: k.1.
Proof.
  intros H. apply build_bind_Ok in H as (a & _ & Hk & ->). done.
Qed.

Lemma pure_bind_Ok {A B} (r : result A) (k : A -> build B) (b : B) :
  (build_bind (pure_step r) k).2 = Ok b ->
  exists a, r = Ok a /\ (k a).2 = Ok b
            /\ (build_bind (pure_step r) k).1 = (k a).1.
Proof.
  intros H. apply build_bind_Ok in H as (a & Hr & Hk & ->). eauto.
Qed.

(** What a returning turn of the train loop did: the transform, six
    flips, eight files. *)
Lemma write_train_Ok (id : string) :
  (wtrain id).2 = Ok tt ->
  exists im mask hflip_im hflip_mask vflip_im vflip_mask rot_im rot_mask,
    (transform id).2 = Ok (im, mask)
    /\ cv_flip im 0 = Ok hflip_im /\ cv_flip mask 0 = Ok hflip_mask
    /\ cv_flip im 1 = Ok vflip_im /\ cv_flip mask 1 = Ok vflip_mask
    /\ cv_flip im (-1) = Ok rot_im /\ cv_flip mask (-1) = Ok rot_mask
    /\ (wtrain id).1
       = (transform id).1
         ++ [ Saved (output_path +:+ "train/" +:+ id +:+ ".tiff") (SavedImage im);
              Saved (output_path +:+ "train/" +:+ id +:+ mask_suffix)
                (SavedMask mask);
              Saved (output_path +:+ "train/" +:+ "hflip_" +:+ id +:+ ".tiff")
                (SavedImage hflip_im);
              Saved (output_path +:+ "train/" +:+ "hflip_" +:+ id +:+ mask_suffix)
                (SavedMask hflip_mask);
              Saved (output_path +:+ "train/" +:+ "vflip_" +:+ id +:+ ".tiff")
                (SavedImage vflip_im);
              Saved (output_path +:+ "train/" +:+ "vflip_" +:+ id +:+ mask_suffix)
                (SavedMask vflip_mask);
              Saved (output_path +:+ "train/" +:+ "rot_" +:+ id +:+ ".tiff")
                (SavedImage rot_im);
              Saved (output_path +:+ "train/" +:+ "rot_" +:+ id +:+ mask_suffix)
                (SavedMask rot_mask) ].
Proof.
  unfold write_train. intros H.
  apply build_bind_Ok in H as ([im mask] & Hpair & H & ->).
  cbv beta zeta in *. cbn [fst snd] in *.
  apply pure_bind_Ok in H as (hflip_im & Hhi & H & ->). cbv beta in *.
  apply pure_bind_Ok in H as (hflip_mask & Hhm & H & ->). cbv beta in *.
  apply pure_bind_Ok in H as (vflip_im & Hvi & H & ->). cbv beta in *.
  apply pure_bind_Ok in H as (vflip_mask & Hvm & H & ->). cbv beta in *.
  apply pure_bind_Ok in H as (rot_im & Hri & H & ->). cbv beta in *.
  apply pure_bind_Ok in H as (rot_mask & Hrm & H & ->). cbv beta in *.
  exists im, mask, hflip_im, hflip_mask, vflip_im, vflip_mask, rot_im, rot_mask.
  do 7 (split; [done|]). f_equal.
  do 7 (apply save_bind_Ok in H as (H & ->); apply (f_equal (cons _))).
  reflexivity.
Qed.

Lemma write_train_saved (id : string) :
  (wtrain id).2 = Ok tt ->
  saved_paths (wtrain id).1 = train_paths output_path mask_suffix id.
Proof.
  intros H. apply write_train_Ok in H as (? & ? & ? & ? & ? & ? & ? & ? & H).
  do 7 (destruct H as [_ H]).
  by rewrite H, saved_paths_app, transform_pair_saves_nothing.
Qed.

Lemma write_test_saved (id : string) :
  (wtest id).2 = Ok tt ->
  saved_paths (wtest id).1 = test_paths output_path mask_suffix id.
Proof.
  unfold write_test. intros H.
  apply build_bind_Ok in H as (pair & _ & H & ->).
  rewrite saved_paths_app, transform_pair_saves_nothing, app_nil_l.
  cbv beta in *. unfold test_paths.
  apply save_bind_Ok in H as (H & ->). reflexivity.
Qed.

Lemma write_train_Raise (id : string) (e : exn) :
  (transform id).2 = Raise e ->
  (wtrain id).2 = Raise e /\ saved_paths (wtrain id).1 = [].
Proof.
  intros H. unfold write_train.
  lazymatch goal with
  | |- (build_bind ?m ?f).2 = _ /\ _ =>
      destruct (build_bind_Raise m f e H) as [-> ->]
  end.
  split; [done|]. apply transform_pair_saves_nothing.
Qed.

Lemma for_each_saved (body : string -> build unit) (paths : string -> list string)
    (ids : list string) :
  (forall id, id ∈ ids -> (body id).2 = Ok tt ->
              saved_paths (body id).1 = paths id) ->
  (for_each body ids).2 = Ok tt ->
  saved_paths (for_each body ids).1 = flat_map paths ids.
Proof.
  induction ids as [|id ids IH]; intros Hbody H; [done|].
  cbn [for_each flat_map] in *.
  apply build_bind_Ok in H as ([] & Hid & H & ->).
  rewrite saved_paths_app, Hbody, IH; [done| |done| |done].
  - intros id' Hin. apply Hbody. by right.
  - by left.
Qed.

Lemma for_each_stops (body : string -> build unit) (paths : string -> list string)
    (done_ids rest : list string) (id : string) (e : exn) :
  (forall id', id' ∈ done_ids ->
     (body id').2 = Ok tt /\ saved_paths (body id').1 = paths id') ->
  (body id).2 = Raise e ->
  (for_each body (done_ids ++ id :: rest)).2 = Raise e
  /\ saved_paths (for_each body (done_ids ++ id :: rest)).1
     = flat_map paths done_ids ++ saved_paths (body id).1.
Proof.
  intros Hdone Hid. induction done_ids as [|id0 ids IH]; cbn [app for_each flat_map].
  - destruct (build_bind_Raise (body id) (fun _ => for_each body rest) e Hid)
      as [-> ->]. done.
  - destruct (Hdone id0) as [Hok Hpaths]; [by left|].
    destruct (build_bind_fst_Ok (body id0)
                (fun _ => for_each body (ids ++ id :: rest)) tt Hok) as [-> ->].
    destruct IH as [-> IH]; [intros id' Hin; apply Hdone; by right|].
    split; [done|]. by rewrite saved_paths_app, Hpaths, IH, app_assoc.
Qed.

End BuilderFacts.

Lemma write_partition_saved
    (imread : string -> result (ndarray Z))
    (resize_sample : ndarray Z -> nat -> nat -> list nat -> Z)
    (cvt_px : color_code -> Z * Z * Z -> Z * Z * Z)
    (equalize_lut : ndarray Z -> Z -> Z) (np_exp np_log : float -> float)
    (imsave : string -> saved -> result unit)
    (output_path img_dir mask_dir img_suffix mask_suffix : string)
    (largest_dimension desired_size : Z) (p : partition) :
  let run :=
    write_partition imread resize_sample cvt_px equalize_lut np_exp np_log
      imsave output_path img_dir mask_dir img_suffix mask_suffix
      largest_dimension desired_size p in
  run.2 = Ok tt ->
  saved_paths run.1
  = flat_map (train_paths output_path mask_suffix) (train p)
    ++ flat_map (test_paths output_path mask_suffix) (test p).
Proof.
  intros run H. unfold run, write_partition in *.
  apply build_bind_Ok in H as ([] & Htrain & Htest & ->).
  rewrite saved_paths_app. f_equal.
  - apply for_each_saved; [|done]. intros id _. apply write_train_saved.
  - apply for_each_saved; [|done]. intros id _. apply write_test_saved.
Qed.

Lemma length_flat_map_const {A B} (f : A -> list B) (n : nat) (l : list A) :
  (forall a, length (f a) = n) -> length (flat_map f l) = (n * length l)%nat.
Proof.
  intros Hf. induction l as [|a l IH]; simpl; [lia|].
  rewrite length_app, Hf, IH. lia.
Qed.

(** X19: a build that returns has saved, in this order, the eight files
    of each train id in the order of the train side, then the two files of
    each test id: 8 * |train| + 2 * |test| files in all. *)
Theorem returning_build_saves_eight_and_two_files
    (imread : string -> result (ndarray Z))
    (resize_sample : ndarray Z -> nat -> nat -> list nat -> Z)
    (cvt_px : color_code -> Z * Z * Z -> Z * Z * Z)
    (equalize_lut : ndarray Z -> Z -> Z) (np_exp np_log : float -> float)
    (imsave : string -> saved -> result unit)
    (output_path img_dir mask_dir img_suffix mask_suffix : string)
    (largest_dimension desired_size : Z) (p : partition) :
  let run :=
    write_partition imread resize_sample cvt_px equalize_lut np_exp np_log
      imsave output_path img_dir mask_dir img_suffix mask_suffix
      largest_dimension desired_size p in
  run.2 = Ok tt ->
  saved_paths run.1
  = flat_map (train_paths output_path mask_suffix) (train p)
    ++ flat_map (test_paths output_path mask_suffix) (test p)
  /\ length (saved_paths run.1)
     = (8 * length (train p) + 2 * length (test p))%nat.
Proof.
  intros run H. pose proof (write_partition_saved _ _ _ _ _ _ _ _ _ _ _ _ _ _ _ H) as Hs.
  fold run in Hs. split; [done|].
  rewrite Hs, length_app.
  by rewrite (length_flat_map_const _ 8), (length_flat_map_const _ 2).
Qed.

Lemma returning_build_saves_eight_and_two_files_witness :
  saved_paths
    (Sample.write Sample.imread (Partition ["ISIC_0000073"] ["ISIC_0000031"])).1
  = flat_map (train_paths Sample.output_path Sample.mask_suffix) ["ISIC_0000073"]
    ++ flat_map (test_paths Sample.output_path Sample.mask_suffix) ["ISIC_0000031"]
  /\ length
       (saved_paths
          (Sample.write Sample.imread
             (Partition ["ISIC_0000073"] ["ISIC_0000031"])).1)
     = (8 * length ["ISIC_0000073"] + 2 * length ["ISIC_0000031"])%nat.
Proof.
  apply (returning_build_saves_eight_and_two_files Sample.imread
           Sample.resize_sample Sample.cvt_px Sample.equalize_lut Sample.np_exp
           Sample.np_log Sample.imsave Sample.output_path Sample.img_dir
           Sample.mask_dir Sample.img_suffix Sample.mask_suffix 250 320
           (Partition ["ISIC_0000073"] ["ISIC_0000031"])).
  vm_compute. reflexivity.
Defined.

(** X20: when preprocessing_unet raises for an id of the train side, the
    build raises that error; the files of the train ids before it stay
    saved, none is saved for the failing id or any later one, and no test
    file is written. *)
Theorem unprocessable_train_image_aborts_the_build
    (imread : string -> result (ndarray Z))
    (resize_sample : ndarray Z -> nat -> nat -> list nat -> Z)
    (cvt_px : color_code -> Z * Z * Z -> Z * Z * Z)
    (equalize_lut : ndarray Z -> Z -> Z) (np_exp np_log : float -> float)
    (imsave : string -> saved -> result unit)
    (output_path img_dir mask_dir img_suffix mask_suffix : string)
    (largest_dimension desired_size : Z) (p : partition)
    (done_ids rest : list string) (id : string) (e : exn) :
  let run :=
    write_partition imread resize_sample cvt_px equalize_lut np_exp np_log
      imsave output_path img_dir mask_dir img_suffix mask_suffix
      largest_dimension desired_size p in
  train p = done_ids ++ id :: rest ->
  (forall id', id' ∈ done_ids ->
     (write_train imread resize_sample cvt_px equalize_lut np_exp np_log imsave
        output_path img_dir mask_dir img_suffix mask_suffix largest_dimension
        desired_size id').2 = Ok tt) ->
  (preprocessing_unet imread resize_sample cvt_px equalize_lut np_exp np_log
     id true img_dir mask_dir img_suffix mask_suffix largest_dimension
     desired_size).2 = Raise e ->
  run.2 = Raise e
  /\ saved_paths run.1 = flat_map (train_paths output_path mask_suffix) done_ids.
Proof.
  intros run Htrain Hdone Hid. unfold run, write_partition. rewrite Htrain.
  apply transform_pair_Raise in Hid.
  destruct (write_train_Raise _ _ _ _ _ _ imsave output_path _ _ _ _ _ _ _ _ Hid)
    as [Hr Hs].
  edestruct (for_each_stops
               (write_train imread resize_sample cvt_px equalize_lut np_exp
                  np_log imsave output_path img_dir mask_dir img_suffix
                  mask_suffix largest_dimension desired_size)
               (train_paths output_path mask_suffix) done_ids rest id e)
    as [Hfr Hfs]; [|exact Hr|].
  - intros id' Hin. split; [by apply Hdone|].
    apply write_train_saved. by apply Hdone.
  - lazymatch goal with
    | |- (build_bind ?m ?f).2 = _ /\ _ =>
        destruct (build_bind_Raise m f e Hfr) as [-> ->]
    end.
    split; [done|]. by rewrite Hfs, Hs, app_nil_r.
Qed.

Lemma unprocessable_train_image_aborts_the_build_witness :
  (Sample.write Sample.imread
     (Partition ["ISIC_0000031"; "ISIC_0000060"; "ISIC_0000073"] [])).2
  = Raise CvError
  /\ saved_paths
       (Sample.write Sample.imread
          (Partition ["ISIC_0000031"; "ISIC_0000060"; "ISIC_0000073"] [])).1
     = flat_map (train_paths Sample.output_path Sample.mask_suffix)
         ["ISIC_0000031"].
Proof.
  apply (unprocessable_train_image_aborts_the_build Sample.imread
           Sample.resize_sample Sample.cvt_px Sample.equalize_lut Sample.np_exp
           Sample.np_log Sample.imsave Sample.output_path Sample.img_dir
           Sample.mask_dir Sample.img_suffix Sample.mask_suffix 250 320
           (Partition ["ISIC_0000031"; "ISIC_0000060"; "ISIC_0000073"] [])
           ["ISIC_0000031"] ["ISIC_0000073"] "ISIC_0000060" CvError).
  - reflexivity.
  - intros id' Hin. apply list_elem_of_singleton in Hin as ->.
    vm_compute. reflexivity.
  - vm_compute. reflexivity.
Defined.

(** * The whole build *)



Section BuildFacts.

Variable permutation : Z -> nat -> list nat.
Variable rng : Type.
Variable rng_raw : rng -> nat -> nat.
Variable rng_next : rng -> rng.

Hypothesis permutation_range :
  forall seed n, permutation seed n ≡ₚ seq 0 n.


End BuildFacts.



(** X22: a build that returns has given every id of the image folder its
    files exactly once: the ids split into a train and a test side that
    together are the listed ids, each train id got its eight files and each
    test id its two, in that order. *)
Theorem every_listed_id_gets_its_files
    (permutation : Z -> nat -> list nat)
    (rng : Type) (rng_raw : rng -> nat -> nat) (rng_next : rng -> rng)
    (listdir : string -> result (list string))
    (imread : string -> result (ndarray Z))
    (resize_sample : ndarray Z -> nat -> nat -> list nat -> Z)
    (cvt_px : color_code -> Z * Z * Z -> Z * Z * Z)
    (equalize_lut : ndarray Z -> Z -> Z) (np_exp np_log : float -> float)
    (imsave : string -> saved -> result unit)
    (output_path img_dir mask_dir : string) (train_ratio : float)
    (largest_dimension desired_size : Z) (img_suffix mask_suffix : string)
    (specific_ids : list string) (seed : Z) (g g' : rng)
    (listing : list string) :
  let run :=
    build_training_set permutation rng rng_raw rng_next listdir imread
      resize_sample cvt_px equalize_lut np_exp np_log imsave
      output_path img_dir mask_dir train_ratio largest_dimension desired_size
      img_suffix mask_suffix specific_ids seed g in
  (forall seed n, permutation seed n ≡ₚ seq 0 n) ->
  listdir img_dir = Ok listing ->
  run.2 = Ok g' ->
  exists p,
    build_training_set_partition permutation rng rng_raw rng_next
      (ids_of_listing listing img_suffix) train_ratio specific_ids seed g
    = Ok (p, g')
    /\ train p ++ test p ≡ₚ ids_of_listing listing img_suffix
    /\ saved_paths run.1
       = flat_map (train_paths output_path mask_suffix) (train p)
         ++ flat_map (test_paths output_path mask_suffix) (test p).
Proof.
  intros run Hperm Hlist H. unfold run, build_training_set in *.
  rewrite Hlist in *. cbn [pure_step] in *.
  apply build_bind_Ok in H as (listing' & Hl & H & ->).
  injection Hl as <-. cbv beta zeta in *. cbn [fst app] in *.
  apply build_bind_Ok in H as ([p g1] & Hpart & H & ->). cbn [fst snd app] in *.
  apply build_bind_Ok in H as ([] & Hwrite & H & ->).
  injection H as <-. exists p. split; [done|]. split.
  - unfold build_training_set_partition in Hpart.
    apply rbind_Ok in Hpart as (p0 & Hsplit & Henf).
    apply enforce_specific_ids_same_ids in Henf as (Hids & _).
    rewrite Hids. by eapply split_ids_Permutation.
  - rewrite saved_paths_app, app_nil_r. by apply write_partition_saved.
Qed.

Lemma every_listed_id_gets_its_files_witness :
  exists p,
    build_training_set_partition Sample.permutation Sample.rng Sample.rng_raw
      Sample.rng_next
      (ids_of_listing
         ["ISIC_0000031.jpg"; "LICENSE.txt"; "ISIC_0000073.jpg"; "ATTRIBUTION.txt"]
         Sample.img_suffix) 0.5 ["ISIC_0000031"] 42 [0%nat]
    = Ok (p, [0%nat])
    /\ train p ++ test p
       ≡ₚ ids_of_listing
            ["ISIC_0000031.jpg"; "LICENSE.txt"; "ISIC_0000073.jpg"; "ATTRIBUTION.txt"]
            Sample.img_suffix
    /\ saved_paths (Sample.build Sample.listdir 0.5 ["ISIC_0000031"] [0%nat]).1
       = flat_map (train_paths Sample.output_path Sample.mask_suffix) (train p)
         ++ flat_map (test_paths Sample.output_path Sample.mask_suffix) (test p).
Proof.
  apply (every_listed_id_gets_its_files Sample.permutation Sample.rng
           Sample.rng_raw Sample.rng_next Sample.listdir Sample.imread
           Sample.resize_sample Sample.cvt_px Sample.equalize_lut Sample.np_exp
           Sample.np_log Sample.imsave Sample.output_path Sample.img_dir
           Sample.mask_dir 0.5 250 320 Sample.img_suffix Sample.mask_suffix
           ["ISIC_0000031"] 42 [0%nat] [0%nat]
           ["ISIC_0000031.jpg"; "LICENSE.txt"; "ISIC_0000073.jpg"; "ATTRIBUTION.txt"]).
  - exact sample_permutation_range.
  - reflexivity.
  - vm_compute. reflexivity.
Defined.

(** * The flipped copies of a train pair *)

Lemma saved_files_app (tr tr' : list build_event) :
  saved_files (tr ++ tr') = saved_files tr ++ saved_files tr'.
Proof.
  induction tr as [|[e|path what] tr IH]; simpl; [done|done|by rewrite IH].
Qed.

Lemma saved_files_Called (tr : list event) : saved_files (map Called tr) = [].
Proof. induction tr as [|e tr IH]; simpl; done. Qed.

Lemma copyMakeBorder_is_mat (src : ndarray Z) (top bottom left right : Z)
    (value : list Z) (dst : ndarray Z) :
  Cv.copyMakeBorder src top bottom left right value = Ok dst ->
  Cv.mat_of dst = dst.
Proof.
  unfold Cv.copyMakeBorder. intros H.
  apply rbind_Ok in H as (t & _ & H). apply rbind_Ok in H as (b & _ & H).
  apply rbind_Ok in H as (l & _ & H). apply rbind_Ok in H as (r & _ & H).
  assert (forall n m, Np.shape (Cv.mat_of src) <> [n; m; 1%nat]) as Hmat.
  { intros n m. unfold Cv.mat_of.
    destruct (Np.shape src) as [|a [|a' [|c [|]]]] eqn:Hs;
      try (destruct c as [|[|c]]); rewrite ?Hs; simpl; congruence. }
  destruct (Np.shape (Cv.mat_of src)) as [|r0 [|k0 rest]] eqn:Hs; try discriminate.
  destruct (_ && _); [|discriminate]. injection H as <-.
  unfold Cv.mat_of at 1. cbn [Np.shape].
  destruct rest as [|c [|c' rest]].
  - done.
  - destruct c as [|[|c]]; [done| |done]. by destruct (Hmat r0 k0).
  - by destruct c as [|[|c]].
Qed.

Lemma cv_flip_cells {A} (src dst : ndarray A) (flipCode : Z) (r k : nat)
    (rest : list nat) :
  Np.shape src = r :: k :: rest ->
  Cv.mat_of src = src ->
  cv_flip src flipCode = Ok dst ->
  forall i j ns,
    Np.get dst (i :: j :: ns)
    = Np.get src ((if flipCode <=? 0 then (r - 1 - i)%nat else i)
                    :: (if flipCode =? 0 then j else (k - 1 - j)%nat) :: ns).
Proof.
  intros Hs Hmat. unfold cv_flip. rewrite Hmat, Hs. intros H.
  injection H as <-. done.
Qed.

Lemma returned_pair_shapes
    (imread : string -> result (ndarray Z))
    (resize_sample : ndarray Z -> nat -> nat -> list nat -> Z)
    (cvt_px : color_code -> Z * Z * Z -> Z * Z * Z)
    (equalize_lut : ndarray Z -> Z -> Z) (np_exp np_log : float -> float)
    (im_id : string) (mask_bool : bool)
    (img_dir mask_dir img_suffix mask_suffix : string)
    (largest_dimension desired_size : Z)
    (im : ndarray float) (mask : ndarray Z) :
  (preprocessing_unet imread resize_sample cvt_px equalize_lut np_exp np_log
     im_id mask_bool img_dir mask_dir img_suffix mask_suffix
     largest_dimension desired_size).2 = Ok (im, Some mask) ->
  Np.shape im = [Z.to_nat desired_size; Z.to_nat desired_size; 5%nat]
  /\ Cv.mat_of im = im
  /\ (exists rest,
        Np.shape mask = Z.to_nat desired_size :: Z.to_nat desired_size :: rest)
  /\ Cv.mat_of mask = mask.
Proof.
  destruct (preprocessing_unet _ _ _ _ _ _ _ _ _ _ _ _ _ _) as [tr r] eqn:Hrun.
  cbn [snd]. intros ->.
  pose proof (preprocessing_unet_returns_square _ _ _ _ _ _ _ _ _ _ _ _ _ _ _ _ _
                Hrun) as (Him & Hmask & _).
  specialize (Hmask mask eq_refl).
  split; [done|]. split; [unfold Cv.mat_of; by rewrite Him|]. split.
  - destruct (Np.shape mask) as [|a [|b rest]]; try discriminate.
    injection Hmask as -> ->. by exists rest.
  - apply preprocessing_unet_Ok in Hrun as (tr0 & rim & mk & tr1 & _ & Htrans & _).
    apply transform_resized_Ok in Htrans
      as (h & w & ch & ? & ? & ? & ? & ? & _ & _ & _ & _ & _ & _ & _ & _
          & _ & _ & Hpad & _).
    destruct mk as [m0|]; [|discriminate].
    destruct Hpad as (m' & Hm' & Hpad). injection Hm' as <-.
    by eapply copyMakeBorder_is_mat.
Qed.

(** X23: the flipped copies keep the mask on the image. In a returning
    turn of the train loop the eight saved files are, in this order, the
    image and its mask as preprocessing_unet returned them, then the pair
    under hflip_ with the rows of both in reverse order, the pair under
    vflip_ with the columns of both in reverse order, and the pair under
    rot_ with both reversed. *)
Theorem flipped_copies_keep_mask_on_image
    (imread : string -> result (ndarray Z))
    (resize_sample : ndarray Z -> nat -> nat -> list nat -> Z)
    (cvt_px : color_code -> Z * Z * Z -> Z * Z * Z)
    (equalize_lut : ndarray Z -> Z -> Z) (np_exp np_log : float -> float)
    (imsave : string -> saved -> result unit)
    (output_path img_dir mask_dir img_suffix mask_suffix : string)
    (largest_dimension desired_size : Z) (id : string) :
  let run :=
    write_train imread resize_sample cvt_px equalize_lut np_exp np_log imsave
      output_path img_dir mask_dir img_suffix mask_suffix largest_dimension
      desired_size id in
  let last := (Z.to_nat desired_size - 1)%nat in
  run.2 = Ok tt ->
  exists im mask hflip_im hflip_mask vflip_im vflip_mask rot_im rot_mask,
    (preprocessing_unet imread resize_sample cvt_px equalize_lut np_exp np_log
       id true img_dir mask_dir img_suffix mask_suffix largest_dimension
       desired_size).2 = Ok (im, Some mask)
    /\ saved_files run.1
       = [ (output_path +:+ "train/" +:+ id +:+ ".tiff", SavedImage im);
           (output_path +:+ "train/" +:+ id +:+ mask_suffix, SavedMask mask);
           (output_path +:+ "train/" +:+ "hflip_" +:+ id +:+ ".tiff",
            SavedImage hflip_im);
           (output_path +:+ "train/" +:+ "hflip_" +:+ id +:+ mask_suffix,
            SavedMask hflip_mask);
           (output_path +:+ "train/" +:+ "vflip_" +:+ id +:+ ".tiff",
            SavedImage vflip_im);
           (output_path +:+ "train/" +:+ "vflip_" +:+ id +:+ mask_suffix,
            SavedMask vflip_mask);
           (output_path +:+ "train/" +:+ "rot_" +:+ id +:+ ".tiff",
            SavedImage rot_im);
           (output_path +:+ "train/" +:+ "rot_" +:+ id +:+ mask_suffix,
            SavedMask rot_mask) ]
    /\ forall i j ns,
         Np.get hflip_im (i :: j :: ns) = Np.get im ((last - i)%nat :: j :: ns)
         /\ Np.get hflip_mask (i :: j :: ns)
            = Np.get mask ((last - i)%nat :: j :: ns)
         /\ Np.get vflip_im (i :: j :: ns) = Np.get im (i :: (last - j)%nat :: ns)
         /\ Np.get vflip_mask (i :: j :: ns)
            = Np.get mask (i :: (last - j)%nat :: ns)
         /\ Np.get rot_im (i :: j :: ns)
            = Np.get im ((last - i)%nat :: (last - j)%nat :: ns)
         /\ Np.get rot_mask (i :: j :: ns)
            = Np.get mask ((last - i)%nat :: (last - j)%nat :: ns).
Proof.
  intros run last H. unfold run in *.
  apply write_train_Ok in H
    as (im & mask & hi & hm & vi & vm & ri & rm & Hpair & Hhi & Hhm & Hvi & Hvm
        & Hri & Hrm & ->).
  apply transform_pair_Ok in Hpair. cbn [fst snd] in Hpair.
  exists im, mask, hi, hm, vi, vm, ri, rm. split; [done|]. split.
  - rewrite saved_files_app. unfold transform_pair, run_io.
    destruct (preprocessing_unet _ _ _ _ _ _ _ _ _ _ _ _ _ _) as [tr r].
    cbn [snd] in Hpair. subst r. cbn [build_bind fst snd build_ret].
    by rewrite app_nil_r, saved_files_Called.
  - destruct (returned_pair_shapes _ _ _ _ _ _ _ _ _ _ _ _ _ _ _ _ Hpair)
      as (Him & Hmi & [rest Hmask] & Hmm).
    intros i j ns. unfold last.
    rewrite (cv_flip_cells _ _ _ _ _ _ Him Hmi Hhi),
      (cv_flip_cells _ _ _ _ _ _ Hmask Hmm Hhm),
      (cv_flip_cells _ _ _ _ _ _ Him Hmi Hvi),
      (cv_flip_cells _ _ _ _ _ _ Hmask Hmm Hvm),
      (cv_flip_cells _ _ _ _ _ _ Him Hmi Hri),
      (cv_flip_cells _ _ _ _ _ _ Hmask Hmm Hrm).
    done.
Qed.

Lemma flipped_copies_keep_mask_on_image_witness :
  exists im mask hflip_im hflip_mask vflip_im vflip_mask rot_im rot_mask,
    (Sample.preprocess "ISIC_0000031" 250 320).2 = Ok (im, Some mask)
    /\ saved_files (Sample.write_one "ISIC_0000031").1
       = [ (Sample.output_path +:+ "train/" +:+ "ISIC_0000031" +:+ ".tiff",
            SavedImage im);
           (Sample.output_path +:+ "train/" +:+ "ISIC_0000031"
              +:+ Sample.mask_suffix, SavedMask mask);
           (Sample.output_path +:+ "train/" +:+ "hflip_" +:+ "ISIC_0000031"
              +:+ ".tiff", SavedImage hflip_im);
           (Sample.output_path +:+ "train/" +:+ "hflip_" +:+ "ISIC_0000031"
              +:+ Sample.mask_suffix, SavedMask hflip_mask);
           (Sample.output_path +:+ "train/" +:+ "vflip_" +:+ "ISIC_0000031"
              +:+ ".tiff", SavedImage vflip_im);
           (Sample.output_path +:+ "train/" +:+ "vflip_" +:+ "ISIC_0000031"
              +:+ Sample.mask_suffix, SavedMask vflip_mask);
           (Sample.output_path +:+ "train/" +:+ "rot_" +:+ "ISIC_0000031"
              +:+ ".tiff", SavedImage rot_im);
           (Sample.output_path +:+ "train/" +:+ "rot_" +:+ "ISIC_0000031"
              +:+ Sample.mask_suffix, SavedMask rot_mask) ]
    /\ forall i j ns,
         Np.get hflip_im (i :: j :: ns) = Np.get im ((319 - i)%nat :: j :: ns)
         /\ Np.get hflip_mask (i :: j :: ns)
            = Np.get mask ((319 - i)%nat :: j :: ns)
         /\ Np.get vflip_im (i :: j :: ns) = Np.get im (i :: (319 - j)%nat :: ns)
         /\ Np.get vflip_mask (i :: j :: ns)
            = Np.get mask (i :: (319 - j)%nat :: ns)
         /\ Np.get rot_im (i :: j :: ns)
            = Np.get im ((319 - i)%nat :: (319 - j)%nat :: ns)
         /\ Np.get rot_mask (i :: j :: ns)
            = Np.get mask ((319 - i)%nat :: (319 - j)%nat :: ns).
Proof.
  apply (flipped_copies_keep_mask_on_image Sample.imread Sample.resize_sample
           Sample.cvt_px Sample.equalize_lut Sample.np_exp Sample.np_log
           Sample.imsave Sample.output_path Sample.img_dir Sample.mask_dir
           Sample.img_suffix Sample.mask_suffix 250 320 "ISIC_0000031").
  vm_compute. reflexivity.
Defined.
